(** * CSS Scanner content script: a shallow embedding and its properties

    The definitions below follow [src/content/content.js] class by class:
    [ErrorHandler], [SafeWrapper], [StyleCache], [CSSAnalyzer],
    [ClipboardManager], [ElementSelector], [PopupManager], [EventHandler]
    and [CSSScanner].  Every method is a computation in the monad [M]: it
    takes the state of the page ([World]) and gives a completion (a value,
    a thrown error, or a loop that ran out of budget) with the new state.
    What the browser decides (clock, computed styles, selector matching,
    clipboard access, collation, viewport) is a field of [Platform]. *)

From Stdlib Require Import ZArith QArith Qminmax Lqa Lia List String Ascii Sorted Bool DecimalString.
From stdpp Require Import gmap strings.
Import ListNotations.

Local Open Scope string_scope.

(** ** JavaScript strings

    A string of the model is the UTF-8 form of a JavaScript string (a
    surrogate without its partner as the three bytes of its code unit), so
    a string literal reads here as it does in the source.  Searching for
    an ASCII character and cutting at the place where one was found are
    the same on the bytes as on the UTF-16 code units; where the source
    counts code units, [utf16_length] and [utf16_slice_to] count them. *)

Module JS.

(** The line feed written [\n] in the source, and the carriage return. *)
Definition LF : string := String (ascii_of_nat 10) EmptyString.
Definition CR : string := String (ascii_of_nat 13) EmptyString.

(** [String.prototype.toLowerCase], on the ASCII letters. *)
Definition ascii_toLowerCase (c : ascii) : ascii :=
  let n := nat_of_ascii c in
  if (65 <=? n)%nat && (n <=? 90)%nat then ascii_of_nat (n + 32) else c.

Fixpoint toLowerCase (s : string) : string :=
  match s with
  | EmptyString => EmptyString
  | String c r => String (ascii_toLowerCase c) (toLowerCase r)
  end.

Definition bytes (l : list nat) : string := string_of_list_ascii (List.map ascii_of_nat l).

(** The white space and the line terminators [String.prototype.trim]
    removes: U+0009 to U+000D, U+0020, U+00A0, U+1680, U+2000 to U+200A,
    U+2028, U+2029, U+202F, U+205F, U+3000 and U+FEFF. *)
Definition whiteSpace : list string :=
  List.map bytes
    [ [9]; [10]; [11]; [12]; [13]; [32];
      [194; 160];
      [225; 154; 128];
      [226; 128; 128]; [226; 128; 129]; [226; 128; 130]; [226; 128; 131];
      [226; 128; 132]; [226; 128; 133]; [226; 128; 134]; [226; 128; 135];
      [226; 128; 136]; [226; 128; 137]; [226; 128; 138];
      [226; 128; 168]; [226; 128; 169]; [226; 128; 175];
      [226; 129; 159];
      [227; 128; 128];
      [239; 187; 191] ]%nat.

(** [s] without the prefix [prefix], when it starts with it. *)
Fixpoint dropPrefix (prefix s : string) : option string :=
  match prefix with
  | EmptyString => Some s
  | String a prefix' =>
      match s with
      | EmptyString => None
      | String b s' => if Ascii.eqb a b then dropPrefix prefix' s' else None
      end
  end.

(** [s] without the first of [spaces] it starts with. *)
Fixpoint dropOneOf (spaces : list string) (s : string) : option string :=
  match spaces with
  | [] => None
  | space :: rest =>
      match dropPrefix space s with
      | Some s' => Some s'
      | None => dropOneOf rest s
      end
  end.

(** [s] without the run of [spaces] it starts with; [budget] bounds the
    number of them, the length of [s] is enough. *)
Fixpoint dropAll (spaces : list string) (budget : nat) (s : string) : string :=
  match budget with
  | O => s
  | S budget' =>
      match dropOneOf spaces s with
      | Some s' => dropAll spaces budget' s'
      | None => s
      end
  end.

Definition reverse (s : string) : string :=
  string_of_list_ascii (List.rev (list_ascii_of_string s)).

Definition trimStart (s : string) : string := dropAll whiteSpace (String.length s) s.

Definition trimEnd (s : string) : string :=
  reverse (dropAll (List.map reverse whiteSpace) (String.length s) (reverse s)).

Definition trim (s : string) : string := trimEnd (trimStart s).

(** The UTF-16 code units of the character a byte starts: none for a
    continuation byte, two for the first byte of a four-byte character. *)
Definition utf16_units (c : ascii) : N :=
  let n := N_of_ascii c in
  if (128 <=? n)%N && (n <? 192)%N then 0%N
  else if (240 <=? n)%N then 2%N
  else 1%N.

(** [s.length]. *)
Fixpoint utf16_length (s : string) : N :=
  match s with
  | EmptyString => 0%N
  | String c r => (utf16_units c + utf16_length r)%N
  end.

(** The high surrogate of the four-byte character that starts with
    [c1 c2 c3], as the three bytes of its code unit. *)
Definition highSurrogate (c1 c2 c3 : ascii) : string :=
  let withoutLastSixBits :=
    ((N_of_ascii c1 mod 8) * 4096 + (N_of_ascii c2 mod 64) * 64 + N_of_ascii c3 mod 64)%N in
  let high := (55296 + (withoutLastSixBits - 1024) / 16)%N in
  String (ascii_of_N 237)
    (String (ascii_of_N (128 + (high / 64) mod 64))
       (String (ascii_of_N (128 + high mod 64)) EmptyString)).

(** [s.slice(0, n)], [n] counting code units. *)
Fixpoint utf16_slice_to (n : N) (s : string) : string :=
  match s with
  | EmptyString => EmptyString
  | String c r =>
      let units := utf16_units c in
      if (units <=? n)%N then String c (utf16_slice_to (n - units) r)
      else if (n =? 1)%N then
        match r with
        | String c2 (String c3 _) => highSurrogate c c2 c3
        | _ => EmptyString
        end
      else EmptyString
  end.

(** The value of a text field that was set to [s]: every CR LF pair and
    every other CR is a LF. *)
Fixpoint normalizeNewlines (s : string) : string :=
  match s with
  | EmptyString => EmptyString
  | String c r =>
      if (nat_of_ascii c =? 13)%nat then
        match r with
        | String c' r' =>
            if (nat_of_ascii c' =? 10)%nat then String c' (normalizeNewlines r')
            else String (ascii_of_nat 10) (normalizeNewlines r)
        | EmptyString => String (ascii_of_nat 10) EmptyString
        end
      else String c (normalizeNewlines r)
  end.

(** A string is truthy when it is not empty. *)
Definition truthy (s : string) : bool := negb (s =? "").

(** [s.split(sep)] for a one-character separator. *)
Fixpoint split (sep : ascii) (s : string) : list string :=
  match s with
  | EmptyString => [EmptyString]
  | String c r =>
      if Ascii.eqb c sep then EmptyString :: split sep r
      else match split sep r with
           | h :: t => String c h :: t
           | [] => [String c EmptyString]
           end
  end.

(** [s.includes(sub)]. *)
Fixpoint includes (sub s : string) : bool :=
  String.prefix sub s ||
  match s with
  | EmptyString => false
  | String _ r => includes sub r
  end.

(** [s.indexOf(c)] for a one-character needle; [-1] when absent. *)
Fixpoint indexOf (c : ascii) (s : string) : Z :=
  match s with
  | EmptyString => (-1)%Z
  | String d r =>
      if Ascii.eqb d c then 0%Z
      else let i := indexOf c r in if (i <? 0)%Z then (-1)%Z else (i + 1)%Z
  end.

(** [s.slice(0, n)] and [s.slice(n)] for [0 <= n]. *)
Definition slice_to (n : Z) (s : string) : string := substring 0 (Z.to_nat n) s.
Definition slice_from (n : Z) (s : string) : string :=
  substring (Z.to_nat n) (String.length s - Z.to_nat n) s.

(** [arr.join(sep)]. *)
Definition join (sep : string) (l : list string) : string := String.concat sep l.

(** A non-negative integer in a template literal. *)
Definition toString (n : Z) : string := NilZero.string_of_int (Z.to_int n).

(** [arr.indexOf(x)]; [-1] when absent. *)
Fixpoint array_indexOf (x : positive) (l : list positive) : Z :=
  match l with
  | [] => (-1)%Z
  | y :: r =>
      if Pos.eqb y x then 0%Z
      else let i := array_indexOf x r in if (i <? 0)%Z then (-1)%Z else (i + 1)%Z
  end.

(** A plain object used as a mapping from property names to strings:
    its own keys in insertion order (CSS property names are never array
    indices, so no key is reordered). *)
Definition object := list (string * string).

Fixpoint get (k : string) (o : object) : option string :=
  match o with
  | [] => None
  | (k', v) :: r => if k' =? k then Some v else get k r
  end.

(** [o[k] = v]: an existing key keeps its place, a new key goes last. *)
Fixpoint set (k v : string) (o : object) : object :=
  match o with
  | [] => [(k, v)]
  | (k', v') :: r => if k' =? k then (k', v) :: r else (k', v') :: set k v r
  end.

(** [Object.assign(target, source)]. *)
Definition assign (target source : object) : object :=
  fold_left (fun acc kv => set (fst kv) (snd kv) acc) source target.

Definition keys (o : object) : list string := List.map fst o.

(** [arr.sort(cmp)] is stable; with a consistent comparator the result is
    the one of this insertion sort. *)
Fixpoint sort_insert {A} (cmp : A -> A -> Z) (x : A) (l : list A) : list A :=
  match l with
  | [] => [x]
  | y :: r => if (cmp x y <=? 0)%Z then x :: y :: r else y :: sort_insert cmp x r
  end.

Fixpoint sort {A} (cmp : A -> A -> Z) (l : list A) : list A :=
  match l with
  | [] => []
  | x :: r => sort_insert cmp x (sort cmp r)
  end.

End JS.

(** ** The page, the browser and the state of the script *)

(** [element.style]: the serialised declarations and the declared
    properties with their values, in order ([style.length] is the number
    of items, [style[i]] and [style.getPropertyValue] read them). *)
Record CSSStyleDeclaration : Type := mkStyle {
  cssText : string;
  items : JS.object
}.

(** [element.className]: on an HTML element the [class] attribute as a
    string; on an SVG element an [SVGAnimatedString], an object (so it is
    truthy, and has no [split]) whose [baseVal] is the [class] attribute. *)
Inductive ClassName : Type :=
| ClassName_string (value : string)
| ClassName_animated (baseVal : string).
Coercion ClassName_string : string >-> ClassName.

(** A DOM element as the script reads it.  [handle] is the identity of the
    node (the key of a [WeakMap], the operand of [===]); [tagName] and [id]
    are strings; [parentNode_children] is [None] when [parentNode] is null
    and otherwise lists the handles of [parentNode.children]. *)
#[warnings="-register-all"]
Inductive Element : Type := mkElement {
  handle : positive;
  tagName : string;
  id : string;
  className : ClassName;
  parentNode_children : option (list positive);
  parentElement : option Element;
  style : option CSSStyleDeclaration
}.

(** How a piece of code completes: with a value, by throwing an [Error]
    with a message, or not at all within the budget of the model. *)
Inductive Completion (A : Type) : Type :=
| Normal (value : A)
| Throw (message : string)
| Diverge.
Arguments Normal {A} value.
Arguments Throw {A} message.
Arguments Diverge {A}.

(** The answer of a browser call: a value or a thrown [Error]. *)
Inductive Outcome (A : Type) : Type :=
| Returns (value : A)
| Throws (message : string).
Arguments Returns {A} value.
Arguments Throws {A} message.

(** What the browser answers.  Calls whose answer may change over time
    are indexed by the number of earlier calls. *)
Record Platform : Type := mkPlatform {
  (** [Date.now()], milliseconds, n-th call *)
  Date_now_at : nat -> Z;
  (** [window.getComputedStyle(element).getPropertyValue(prop)], n-th call
      of [window.getComputedStyle]; the outer completion is the one of
      [window.getComputedStyle] *)
  window_getComputedStyle_at : nat -> Element -> Outcome (string -> Outcome string);
  (** [document.body], by handle *)
  document_body : option positive;
  (** [document.querySelectorAll(selector).length] *)
  document_querySelectorAll_length : string -> Outcome nat;
  (** [a.localeCompare(b)] *)
  localeCompare : string -> string -> Z;
  (** [navigator.clipboard && navigator.clipboard.writeText] is there *)
  navigator_clipboard_writeText_present : bool;
  (** [navigator.clipboard.writeText(text)] resolves *)
  navigator_clipboard_writeText_resolves : string -> bool;
  (** [document.execCommand('copy')] with the given text selected *)
  document_execCommand_copy : string -> Outcome bool;
  (** [window.innerWidth], [window.innerHeight] *)
  window_innerWidth : Q;
  window_innerHeight : Q
}.

(** [StyleCache.cache] entry. *)
Record CacheEntry : Type := mkCacheEntry {
  entry_style : JS.object;
  entry_timestamp : Z
}.

(** The popup node: its inline [left] and [top] (the number before [px],
    [None] while unset) and the size [getBoundingClientRect] reports. *)
Record Popup : Type := mkPopup {
  style_left : option Q;
  style_top : option Q;
  rect_width : Q;
  rect_height : Q
}.

Record World : Type := mkWorld {
  (** [ErrorHandler.errorCounts] *)
  errorCounts : gmap string nat;
  (** texts put on the system clipboard, newest first *)
  clipboard : list string;
  (** [StyleCache.cache], [StyleCache.selectorCache] *)
  cache : gmap positive CacheEntry;
  selectorCache : gmap positive string;
  (** number of calls made so far to [Date.now] and [window.getComputedStyle] *)
  dateNowCalls : nat;
  getComputedStyleCalls : nat;
  (** [PopupManager.popup], [.isPinned], [.pinnedPosition] *)
  popup : option Popup;
  isPinned : bool;
  pinnedPosition : option (option Q * option Q);
  (** [CSSScanner.isScanning], [EventHandler.mousePosition] *)
  isScanning : bool;
  mousePosition : Q * Q
}.

Definition set_errorCounts (f : gmap string nat -> gmap string nat) (w : World) : World :=
  mkWorld (f (errorCounts w)) (clipboard w) (cache w) (selectorCache w) (dateNowCalls w)
    (getComputedStyleCalls w) (popup w) (isPinned w) (pinnedPosition w) (isScanning w)
    (mousePosition w).
Definition set_clipboard (f : list string -> list string) (w : World) : World :=
  mkWorld (errorCounts w) (f (clipboard w)) (cache w) (selectorCache w) (dateNowCalls w)
    (getComputedStyleCalls w) (popup w) (isPinned w) (pinnedPosition w) (isScanning w)
    (mousePosition w).
Definition set_cache (f : gmap positive CacheEntry -> gmap positive CacheEntry) (w : World) : World :=
  mkWorld (errorCounts w) (clipboard w) (f (cache w)) (selectorCache w) (dateNowCalls w)
    (getComputedStyleCalls w) (popup w) (isPinned w) (pinnedPosition w) (isScanning w)
    (mousePosition w).
Definition set_selectorCache (f : gmap positive string -> gmap positive string) (w : World) : World :=
  mkWorld (errorCounts w) (clipboard w) (cache w) (f (selectorCache w)) (dateNowCalls w)
    (getComputedStyleCalls w) (popup w) (isPinned w) (pinnedPosition w) (isScanning w)
    (mousePosition w).
Definition set_dateNowCalls (f : nat -> nat) (w : World) : World :=
  mkWorld (errorCounts w) (clipboard w) (cache w) (selectorCache w) (f (dateNowCalls w))
    (getComputedStyleCalls w) (popup w) (isPinned w) (pinnedPosition w) (isScanning w)
    (mousePosition w).
Definition set_getComputedStyleCalls (f : nat -> nat) (w : World) : World :=
  mkWorld (errorCounts w) (clipboard w) (cache w) (selectorCache w) (dateNowCalls w)
    (f (getComputedStyleCalls w)) (popup w) (isPinned w) (pinnedPosition w) (isScanning w)
    (mousePosition w).
Definition set_popup (f : option Popup -> option Popup) (w : World) : World :=
  mkWorld (errorCounts w) (clipboard w) (cache w) (selectorCache w) (dateNowCalls w)
    (getComputedStyleCalls w) (f (popup w)) (isPinned w) (pinnedPosition w) (isScanning w)
    (mousePosition w).
Definition set_isPinned (b : bool) (w : World) : World :=
  mkWorld (errorCounts w) (clipboard w) (cache w) (selectorCache w) (dateNowCalls w)
    (getComputedStyleCalls w) (popup w) b (pinnedPosition w) (isScanning w)
    (mousePosition w).
Definition set_pinnedPosition (p : option (option Q * option Q)) (w : World) : World :=
  mkWorld (errorCounts w) (clipboard w) (cache w) (selectorCache w) (dateNowCalls w)
    (getComputedStyleCalls w) (popup w) (isPinned w) p (isScanning w)
    (mousePosition w).
Definition set_mousePosition (p : Q * Q) (w : World) : World :=
  mkWorld (errorCounts w) (clipboard w) (cache w) (selectorCache w) (dateNowCalls w)
    (getComputedStyleCalls w) (popup w) (isPinned w) (pinnedPosition w) (isScanning w)
    p.

(** ** The monad of the methods *)

Definition M (A : Type) : Type := World -> Completion A * World.

Definition ret {A} (a : A) : M A := fun w => (Normal a, w).
Definition throw {A} (message : string) : M A := fun w => (Throw message, w).
Definition bind {A B} (m : M A) (k : A -> M B) : M B :=
  fun w =>
    match m w with
    | (Normal a, w') => k a w'
    | (Throw e, w') => (Throw e, w')
    | (Diverge, w') => (Diverge, w')
    end.
Definition modify (f : World -> World) : M unit := fun w => (Normal tt, f w).
Definition gets {A} (f : World -> A) : M A := fun w => (Normal (f w), w).
Definition call {A} (o : Outcome A) : M A :=
  match o with
  | Returns a => ret a
  | Throws e => throw e
  end.

Notation "'let*' x ':=' m 'in' k" := (bind m (fun x => k))
  (at level 10, x name, m at level 100, k at level 200).
Notation "'do' m 'then' k" := (bind m (fun _ => k))
  (at level 10, m at level 100, k at level 200).

(** ** class ErrorHandler *)

Module ErrorHandler.

Definition maxRetries : nat := 3.

Section WithPlatform.
Context (P : Platform).

(** [recoverClipboardAccess(context)]: a hidden text field set to
    [context.text || 'No content to copy.'] is appended to the body,
    selected as a whole and copied with [document.execCommand('copy')]; any
    throw is swallowed by the method's own [try]/[catch]. *)
Definition recoverClipboardAccess (context_text : option string) (w : World) : World :=
  let text :=
    match context_text with
    | Some t => if JS.truthy t then t else "No content to copy."
    | None => "No content to copy."
    end in
  match document_body P with
  | None => w
  | Some _ =>
      match document_execCommand_copy P (JS.normalizeNewlines text) with
      | Returns true => set_clipboard (cons (JS.normalizeNewlines text)) w
      | _ => w
      end
  end.

(** [attemptRecovery(errorType, context)]: the part of it that runs inside
    the call that failed.  [handleError] is an [async] method that no
    caller waits for; it runs up to the first [await] that suspends it, and
    the [World] described here is the one at that moment, when the failing
    call returns.  [recoverClipboardAccess] has no [await]: all of it runs
    inside the call.  [recoverStyleCache] acts only on a
    [context.styleCache], which no caller passes.  [recoverCSSAnalysis],
    [recoverPopupRender] and [recoverDOMAccess] begin with
    [await this.delay(this.retryDelay)]: inside the call they start a timer
    and nothing else.  What they do in the later task, once the timer has
    fired, is not part of this function and no statement below speaks of
    it: [recoverCSSAnalysis] reads [window.getComputedStyle] once more and
    hands the result to nobody, [recoverPopupRender] removes every popup
    from the document and appends a plain one that the [PopupManager] does
    not know of, [recoverDOMAccess] waits for the document to load. *)
Definition attemptRecovery (errorType : string) (context_text : option string) (w : World) : World :=
  if errorType =? "CLIPBOARD_WRITE_FAILED" then recoverClipboardAccess context_text w
  else w.

(** [handleError(error, errorType, context)]: the count of this error is
    raised; from the fourth identical error on it is suppressed, before
    that a recovery is attempted.  Logging, the history and the message
    shown to the user are not part of [World]. *)
Definition handleError (message errorType : string) (context_text : option string) (w : World) : World :=
  let errorKey := errorType +:+ "_" +:+ message in
  let currentCount := default 0%nat (errorCounts w !! errorKey) in
  let w1 := set_errorCounts (insert errorKey (currentCount + 1)%nat) w in
  if (maxRetries <=? currentCount)%nat then w1
  else attemptRecovery errorType context_text w1.

End WithPlatform.
End ErrorHandler.

(** ** class SafeWrapper *)

(** [{ success: true, data }] or [{ success: false, error }]. *)
Inductive Result (A : Type) : Type :=
| Success (data : A)
| Failure (error : string).
Arguments Success {A} data.
Arguments Failure {A} error.

Module SafeWrapper.
Section WithPlatform.
Context (P : Platform).

(** [execute(fn, errorType, context)]; of the context only [text] is ever
    read by the handler. *)
Definition execute {A} (fn : M A) (errorType : string) (context_text : option string) : M (Result A) :=
  fun w =>
    match fn w with
    | (Normal a, w') => (Normal (Success a), w')
    | (Throw e, w') =>
        (Normal (Failure e), ErrorHandler.handleError P e errorType context_text w')
    | (Diverge, w') => (Diverge, w')
    end.

(** [executeAsync(fn, errorType, context)]: as [execute], the handler
    being awaited before the result is given. *)
Definition executeAsync {A} (fn : M A) (errorType : string) (context_text : option string) : M (Result A) :=
  execute fn errorType context_text.

(** [executeDOMOperation(fn, errorType, context)]. *)
Definition executeDOMOperation {A} (fn : M A) (errorType : string) (context_text : option string) : M (Result A) :=
  match document_body P with
  | None =>
      do modify (ErrorHandler.handleError P "Document not ready" "DOM_NOT_READY" context_text)
      then ret (Failure "DOM not ready")
  | Some _ => execute fn errorType context_text
  end.

End WithPlatform.
End SafeWrapper.

(** ** class StyleCache *)

Module StyleCache.

Definition maxCacheAge : Z := 30000.

Definition importantProps : list string :=
  [ "display"; "position"; "top"; "right"; "bottom"; "left"; "float"; "clear"; "z-index";
    "width"; "height"; "min-width"; "min-height"; "max-width"; "max-height";
    "margin"; "margin-top"; "margin-right"; "margin-bottom"; "margin-left";
    "padding"; "padding-top"; "padding-right"; "padding-bottom"; "padding-left";
    "border"; "border-width"; "border-style"; "border-color"; "border-radius";
    "background"; "background-color"; "background-image"; "background-size";
    "font-family"; "font-size"; "font-weight"; "line-height"; "color"; "text-align";
    "flex"; "flex-direction"; "justify-content"; "align-items"; "grid";
    "opacity"; "transform"; "transition"; "box-shadow" ].

Section WithPlatform.
Context (P : Platform).

(** [Date.now()]. *)
Definition Date_now : M Z :=
  fun w => (Normal (Date_now_at P (dateNowCalls w)), set_dateNowCalls S w).

(** [window.getComputedStyle(element)]; a [TypeError] for [null]. *)
Definition window_getComputedStyle (element : option Element) : M (string -> Outcome string) :=
  match element with
  | None => throw "Failed to execute 'getComputedStyle' on 'Window': parameter 1 is not of type 'Element'."
  | Some e =>
      fun w =>
        match window_getComputedStyle_at P (getComputedStyleCalls w) e with
        | Returns cs => (Normal cs, set_getComputedStyleCalls S w)
        | Throws m => (Throw m, set_getComputedStyleCalls S w)
        end
  end.

(** A [WeakMap] keyed by elements: [null] is never a key, and [set] with
    [null] throws a [TypeError]. *)
Definition weak_get {V} (key : option Element) (m : gmap positive V) : option V :=
  match key with
  | Some e => m !! handle e
  | None => None
  end.

Definition cache_set (key : option Element) (v : CacheEntry) : M unit :=
  match key with
  | Some e => modify (set_cache (insert (handle e) v))
  | None => throw "Invalid value used as weak map key"
  end.

Definition cache_delete (key : option Element) : M unit :=
  match key with
  | Some e => modify (set_cache (delete (handle e)))
  | None => ret tt
  end.

Definition selectorCache_set (key : option Element) (v : string) : M unit :=
  match key with
  | Some e => modify (set_selectorCache (insert (handle e) v))
  | None => throw "Invalid value used as weak map key"
  end.

(** The [forEach] of [cacheImportantProperties]. *)
Fixpoint cacheImportantProperties_forEach (computedStyle : string -> Outcome string)
    (props : list string) (cached : JS.object) : M JS.object :=
  match props with
  | [] => ret cached
  | prop :: rest =>
      let* result := SafeWrapper.execute P (call (computedStyle prop))
                       "STYLE_PROPERTY_ACCESS_ERROR" None in
      cacheImportantProperties_forEach computedStyle rest
        match result with
        | Success data => if JS.truthy data then JS.set prop data cached else cached
        | Failure _ => cached
        end
  end.

Definition cacheImportantProperties (computedStyle : string -> Outcome string) : M JS.object :=
  cacheImportantProperties_forEach computedStyle importantProps [].

(** [getComputedStyle(element)].  The method calls itself after dropping a
    stale entry; [fuel] bounds the depth of these calls.  [cache.get] right
    after [cache.set] gives the entry just stored. *)
Fixpoint getComputedStyle (fuel : nat) (element : option Element) : M JS.object :=
  match fuel with
  | O => fun w => (Diverge, w)
  | S fuel' =>
      let* result :=
        SafeWrapper.execute P
          (let* cached :=
             (let* present := gets (fun w => weak_get element (cache w)) in
              match present with
              | Some entry => ret entry
              | None =>
                  let* computedStyle := window_getComputedStyle element in
                  let* cachedStyle := cacheImportantProperties computedStyle in
                  let* timestamp := Date_now in
                  do cache_set element (mkCacheEntry cachedStyle timestamp)
                  then ret (mkCacheEntry cachedStyle timestamp)
              end) in
           let* now := Date_now in
           if (now - entry_timestamp cached >? maxCacheAge)%Z
           then do cache_delete element then getComputedStyle fuel' element
           else ret (entry_style cached))
          "STYLE_CACHE_ERROR" None in
      ret match result with
          | Success data => data
          | Failure _ => []
          end
  end.

(** [element === document.body]. *)
Definition isDocumentBody (e : Element) : bool :=
  match document_body P with
  | Some b => Pos.eqb (handle e) b
  | None => false
  end.

(** [element.className.split(' ').filter(...).slice(0, 3)], for a
    [className] that is a string. *)
Definition classes (className : string) : list string :=
  firstn 3
    (List.filter (fun cls => JS.truthy cls && negb (JS.includes "css-scanner" cls))
       (JS.split " " className)).

(** The [if (element.className)] block of [generateOptimizedSelector] for
    a [className] that is a string: [Some] of the selector it returns,
    [None] when control falls through (no class left, more than 5 matches,
    or [querySelectorAll] threw). *)
Definition classSelector (className : string) : option string :=
  if JS.truthy className then
    if (0 <? length (classes className))%nat then
      let classSelector := "." +:+ JS.join "." (classes className) in
      match document_querySelectorAll_length P classSelector with
      | Returns matches => if (matches <=? 5)%nat then Some classSelector else None
      | Throws _ => None
      end
    else None
  else None.

(** The same block for any [className]: on the object an SVG element has
    there, the call of [split] is a [TypeError]. *)
Definition classSelector_of (className : ClassName) : M (option string) :=
  match className with
  | ClassName_string value => ret (classSelector value)
  | ClassName_animated _ => throw "element.className.split is not a function"
  end.

(** One step of the path: the body of the [while] before [unshift]. *)
Definition pathStep (current : Element) : string :=
  let selector := JS.toLowerCase (tagName current) in
  match parentNode_children current with
  | Some siblings =>
      if (1 <? length siblings)%nat && (length siblings <=? 10)%nat
      then selector +:+ ":nth-child(" +:+
           JS.toString (JS.array_indexOf (handle current) siblings + 1) +:+ ")"
      else selector
  | None => selector
  end.

(** The [while (current && current !== document.body && depth < 3)] loop;
    [remaining] is [3 - depth]. *)
Fixpoint pathLoop (remaining : nat) (current : option Element) (path : list string) : list string :=
  match remaining with
  | O => path
  | S remaining' =>
      match current with
      | None => path
      | Some c =>
          if isDocumentBody c then path
          else pathLoop remaining' (parentElement c) (pathStep c :: path)
      end
  end.

(** [generateOptimizedSelector(element)]. *)
Definition generateOptimizedSelector (element : option Element) : M string :=
  match element with
  | None => ret "body"
  | Some e =>
      if isDocumentBody e then ret "body"
      else
        let* result :=
          SafeWrapper.execute P
            (if JS.truthy (id e) then ret ("#" +:+ id e)
             else
               let* fromClasses := classSelector_of (className e) in
               match fromClasses with
               | Some selector => ret selector
               | None =>
                   let path := pathLoop 3 (Some e) [] in
                   ret (if JS.truthy (JS.join " > " path) then JS.join " > " path
                        else if JS.truthy (JS.toLowerCase (tagName e))
                             then JS.toLowerCase (tagName e)
                             else "unknown")
               end)
            "SELECTOR_GENERATION_ERROR" None in
        ret match result with
            | Success data => data
            | Failure _ => "unknown"
            end
  end.

(** [getSelector(element)].  [selectorCache.get] right after
    [selectorCache.set] gives the selector just stored. *)
Definition getSelector (element : option Element) : M string :=
  let* result :=
    SafeWrapper.execute P
      (let* present := gets (fun w => weak_get element (selectorCache w)) in
       match present with
       | Some selector => ret selector
       | None =>
           let* selector := generateOptimizedSelector element in
           do selectorCache_set element selector
           then ret selector
       end)
      "SELECTOR_GENERATION_ERROR" None in
  ret match result with
      | Success data => data
      | Failure _ => "unknown"
      end.

End WithPlatform.
End StyleCache.

(** ** class CSSAnalyzer *)

(** The [element] part of an inspection result. *)
Record ElementInfo : Type := mkElementInfo {
  el_tagName : string;
  el_className : ClassName;
  el_id : string;
  el_selector : string
}.

(** The inspection result built by [extractCSSInfo].  [info_element] is
    [None] when the field is missing; [info_categorized] lists the
    categories in insertion order. *)
Record CSSInfo : Type := mkCSSInfo {
  info_element : option ElementInfo;
  info_computed : JS.object;
  info_inline : JS.object;
  info_categorized : list (string * JS.object)
}.

Module CSSAnalyzer.

(** [initializeCSSCategories()]. *)
Definition cssCategories : list (string * list string) :=
  [ ("layout", ["display"; "position"; "top"; "right"; "bottom"; "left"; "float"; "clear"; "z-index"]);
    ("boxModel", ["width"; "height"; "min-width"; "min-height"; "max-width"; "max-height";
                  "margin"; "margin-top"; "margin-right"; "margin-bottom"; "margin-left";
                  "padding"; "padding-top"; "padding-right"; "padding-bottom"; "padding-left"]);
    ("border", ["border"; "border-width"; "border-style"; "border-color"; "border-radius";
                "border-top"; "border-right"; "border-bottom"; "border-left"]);
    ("background", ["background"; "background-color"; "background-image"; "background-size";
                    "background-position"; "background-repeat"]);
    ("typography", ["font-family"; "font-size"; "font-weight"; "line-height"; "color";
                    "text-align"; "text-decoration"; "letter-spacing"]);
    ("flexGrid", ["flex"; "flex-direction"; "justify-content"; "align-items"; "grid";
                  "grid-template-columns"; "grid-template-rows"; "gap"]);
    ("effects", ["opacity"; "transform"; "transition"; "animation"; "box-shadow"; "filter"]) ].

Definition invalidValues : list string :=
  [ "auto"; "normal"; "none"; "initial"; "inherit"; "unset";
    "0px"; "0"; "rgba(0, 0, 0, 0)"; "transparent" ].

Section WithPlatform.
Context (P : Platform).

(** [isValidCSSValue(value)], for a string. *)
Definition isValidCSSValue (value : string) : M bool :=
  let* result :=
    SafeWrapper.execute P
      (if negb (JS.truthy value) then ret false
       else ret (negb (existsb (String.eqb (JS.trim value)) invalidValues)))
      "CSS_VALUE_VALIDATION_ERROR" None in
  ret match result with
      | Success data => data
      | Failure _ => false
      end.

(** The inner [for (const prop of properties)] of [categorizeStyles]. *)
Fixpoint categorizeStyles_properties (computedStyle : JS.object) (properties : list string)
    (categoryData : JS.object) : M JS.object :=
  match properties with
  | [] => ret categoryData
  | prop :: rest =>
      match JS.get prop computedStyle with
      | Some value =>
          if JS.truthy value then
            let* valid := isValidCSSValue value in
            categorizeStyles_properties computedStyle rest
              (if valid then JS.set prop value categoryData else categoryData)
          else categorizeStyles_properties computedStyle rest categoryData
      | None => categorizeStyles_properties computedStyle rest categoryData
      end
  end.

(** The outer [for (const [category, properties] of ...)]. *)
Fixpoint categorizeStyles_categories (computedStyle : JS.object)
    (categories : list (string * list string)) (categorized : list (string * JS.object))
    : M (list (string * JS.object)) :=
  match categories with
  | [] => ret categorized
  | (category, properties) :: rest =>
      let* categoryData := categorizeStyles_properties computedStyle properties [] in
      categorizeStyles_categories computedStyle rest
        (if (0 <? length (JS.keys categoryData))%nat
         then categorized ++ [(category, categoryData)]
         else categorized)
  end.

(** [categorizeStyles(computedStyle)]. *)
Definition categorizeStyles (computedStyle : JS.object) : M (list (string * JS.object)) :=
  let* result :=
    SafeWrapper.execute P (categorizeStyles_categories computedStyle cssCategories [])
      "STYLE_CATEGORIZATION_ERROR" None in
  ret match result with
      | Success data => data
      | Failure _ => []
      end.

(** One declaration of [style.cssText] in [extractInlineStyles]. *)
Definition extractInlineStyles_declaration (inline : JS.object) (declaration : string) : JS.object :=
  let colonIndex := JS.indexOf ":" declaration in
  if (0 <? colonIndex)%Z then
    let prop := JS.trim (JS.slice_to colonIndex declaration) in
    let value := JS.trim (JS.slice_from (colonIndex + 1) declaration) in
    if JS.truthy prop && JS.truthy value then JS.set prop value inline else inline
  else inline.

(** One index of the [for (let i = 0; i < style.length; i++)] loop. *)
Definition extractInlineStyles_item (style : CSSStyleDeclaration) (inline : JS.object)
    (item : string * string) : JS.object :=
  let prop := fst item in
  let value := default "" (JS.get prop (items style)) in
  if JS.truthy value then JS.set prop value inline else inline.

(** [extractInlineStyles(element)]. *)
Definition extractInlineStyles (element : Element) : M JS.object :=
  let* result :=
    SafeWrapper.execute P
      (match style element with
       | None => ret []
       | Some style =>
           if (length (items style) =? 0)%nat then ret []
           else if JS.truthy (cssText style) then
             let declarations :=
               List.filter (fun decl => JS.truthy (JS.trim decl)) (JS.split ";" (cssText style)) in
             ret (fold_left extractInlineStyles_declaration declarations [])
           else ret (fold_left (extractInlineStyles_item style) (items style) [])
       end)
      "INLINE_STYLE_EXTRACTION_ERROR" None in
  ret match result with
      | Success data => data
      | Failure _ => []
      end.

(** [extractCSSInfo(element)]; [fuel] is the one of
    [StyleCache.getComputedStyle]. *)
Definition extractCSSInfo (fuel : nat) (element : option Element) : M CSSInfo :=
  let* result :=
    SafeWrapper.execute P
      (match element with
       | None => throw "Element is null or undefined"
       | Some e =>
           let* computedStyle := StyleCache.getComputedStyle P fuel element in
           let* selector := StyleCache.getSelector P element in
           let* inlineStyle := extractInlineStyles e in
           let* categorized := categorizeStyles computedStyle in
           ret (mkCSSInfo
                  (Some (mkElementInfo (JS.toLowerCase (tagName e)) (className e) (id e) selector))
                  computedStyle inlineStyle categorized)
       end)
      "CSS_ANALYSIS_FAILED" None in
  match result with
  | Failure _ =>
      ret (mkCSSInfo
             (Some (mkElementInfo
                      match element with
                      | Some e => if JS.truthy (JS.toLowerCase (tagName e))
                                  then JS.toLowerCase (tagName e) else "unknown"
                      | None => "unknown"
                      end
                      match element with
                      | Some e => className e
                      | None => ClassName_string ""
                      end
                      match element with Some e => id e | None => "" end
                      "unknown"))
             [] [] [])
  | Success data => ret data
  end.

End WithPlatform.
End CSSAnalyzer.

(** ** class ClipboardManager *)

Module ClipboardManager.

(** [this.copyTypeNames[type] || 'Content']. *)
Definition copyTypeName (type : string) : string :=
  if type =? "selector" then "Selector"
  else if type =? "all" then "All CSS"
  else if type =? "computed" then "Computed styles"
  else if type =? "inline" then "Inline styles"
  else "Content".

Section WithPlatform.
Context (P : Platform).

(** The [filter] callback of [generateCSSText]. *)
Definition keepDeclaration (entry : string * string) : bool :=
  let value := snd entry in
  JS.truthy value &&
  negb (value =? "none") &&
  negb (value =? "auto") &&
  negb (value =? "normal") &&
  negb (value =? "initial") &&
  negb (value =? "0px") &&
  negb (value =? "rgba(0, 0, 0, 0)").

(** The entries [generateCSSText] keeps, in the order it prints them. *)
Definition sortedDeclarations (styles : JS.object) : JS.object :=
  JS.sort (fun a b => localeCompare P (fst a) (fst b)) (List.filter keepDeclaration styles).

(** The [map] callback of [generateCSSText]. *)
Definition declarationLine (entry : string * string) : string :=
  "  " +:+ fst entry +:+ ": " +:+ snd entry +:+ ";".

Definition cssLines (styles : JS.object) : list string :=
  List.map declarationLine (sortedDeclarations styles).

(** [generateCSSText(styles, selector)]; a missing selector is [""]. *)
Definition generateCSSText (styles : JS.object) (selector : string) : M string :=
  let* result :=
    SafeWrapper.execute P
      (if (length (JS.keys styles) =? 0)%nat then ret ""
       else if (length (cssLines styles) =? 0)%nat then ret ""
       else ret (if JS.truthy selector
                 then selector +:+ " {" +:+ JS.LF +:+ JS.join JS.LF (cssLines styles) +:+ JS.LF +:+ "}"
                 else "{" +:+ JS.LF +:+ JS.join JS.LF (cssLines styles) +:+ JS.LF +:+ "}"))
      "CSS_TEXT_FORMAT_ERROR" None in
  ret match result with
      | Success data => data
      | Failure _ => ""
      end.

(** The styles [generateAllCSSText] prints: the computed ones, or, when
    there is none, the categorised ones merged with [Object.assign]. *)
Definition allStyles (elementData : CSSInfo) : JS.object :=
  if (length (JS.keys (info_computed elementData)) =? 0)%nat
  then fold_left (fun allStyles category => JS.assign allStyles (snd category))
         (info_categorized elementData) []
  else info_computed elementData.

(** [generateAllCSSText(elementData, selector)]. *)
Definition generateAllCSSText (elementData : CSSInfo) (selector : string) : M string :=
  let* result :=
    SafeWrapper.execute P (generateCSSText (allStyles elementData) selector)
      "CSS_TEXT_GENERATION_ERROR" None in
  ret match result with
      | Success data => data
      | Failure _ => ""
      end.

(** [generateInlineCSSText(elementData, selector)]. *)
Definition generateInlineCSSText (elementData : CSSInfo) (selector : string) : M string :=
  let* result :=
    SafeWrapper.execute P
      (if (length (JS.keys (info_inline elementData)) =? 0)%nat
       then throw "No inline styles found."
       else generateCSSText (info_inline elementData) selector)
      "INLINE_CSS_GENERATION_ERROR" None in
  match result with
  | Failure error => throw error
  | Success data => ret data
  end.

(** [isValidCopyText(textToCopy, selector)], as a boolean. *)
Definition isValidCopyText (textToCopy selector : string) : M bool :=
  let* result :=
    SafeWrapper.execute P
      (ret (JS.truthy textToCopy &&
            negb (JS.trim textToCopy =? "") &&
            negb (textToCopy =? "{}") &&
            negb (textToCopy =? selector +:+ " {" +:+ JS.LF +:+ JS.LF +:+ "}")))
      "COPY_TEXT_VALIDATION_ERROR" None in
  ret match result with
      | Success data => data
      | Failure _ => false
      end.

(** What the hidden text field of [performCopy] has selected once it was
    set to [text] and [select()] and [setSelectionRange(0, 99999)] have
    run: the first 99999 code units of its value. *)
Definition selection (text : string) : string :=
  JS.utf16_slice_to 99999 (JS.normalizeNewlines text).

(** The fallback of [performCopy]: a hidden text field set to [text] is
    appended to [document.body], its first 99999 code units are selected
    and copied with [document.execCommand('copy')]. *)
Definition performCopy_fallback (text : string) : M bool :=
  match document_body P with
  | None => throw "Cannot read properties of null (reading 'appendChild')"
  | Some _ =>
      let* success := call (document_execCommand_copy P (selection text)) in
      do (if success : bool then modify (set_clipboard (cons (selection text))) else ret tt)
      then ret success
  end.

(** What [performCopy] puts on the clipboard when it answers [true]: the
    text itself through the clipboard API, the selection of the hidden
    text field through the fallback. *)
Definition copied (text : string) : string :=
  if navigator_clipboard_writeText_present P && navigator_clipboard_writeText_resolves P text
  then text
  else selection text.

(** [performCopy(text)]. *)
Definition performCopy (text : string) : M bool :=
  let* result :=
    SafeWrapper.executeAsync P
      (if navigator_clipboard_writeText_present P
          && navigator_clipboard_writeText_resolves P text
       then do modify (set_clipboard (cons text)) then ret true
       else performCopy_fallback text)
      "CLIPBOARD_ACCESS_DENIED" (Some text) in
  ret match result with
      | Success data => data
      | Failure _ => false
      end.

(** [copyToClipboard(elementData, type)]; the promise it returns resolves
    with the value or rejects with the thrown error. *)
Definition copyToClipboard (elementData : option CSSInfo) (type : string) : M string :=
  let* result :=
    SafeWrapper.executeAsync P
      (match elementData with
       | None => throw "No data available."
       | Some data =>
           let selector :=
             match info_element data with
             | Some element => el_selector element
             | None => ""
             end in
           let* textToCopy :=
             (if type =? "selector" then ret selector
              else if (type =? "all") || (type =? "computed") then generateAllCSSText data selector
              else if type =? "inline" then generateInlineCSSText data selector
              else throw "Unknown copy type.") in
           let* valid := isValidCopyText textToCopy selector in
           if negb valid then throw "No CSS content to copy."
           else
             let* success := performCopy textToCopy in
             if negb success then throw "Copy failed."
             else ret (copyTypeName type)
       end)
      "CLIPBOARD_WRITE_FAILED" None in
  match result with
  | Failure error => throw error
  | Success data => ret data
  end.

End WithPlatform.
End ClipboardManager.

(** ** class ElementSelector *)

(** A pointer event as the handlers read it.  [target_closest_popup] is
    [event.target.closest('.css-scanner-popup') !== null], and [false] when
    there is no target. *)
Record MouseEvent : Type := mkMouseEvent {
  clientX : Q;
  clientY : Q;
  target_closest_popup : bool
}.

Module ElementSelector.
Section WithPlatform.
Context (P : Platform).

(** [isPopupElement(event.target)]. *)
Definition isPopupElement (event : MouseEvent) : M bool :=
  let* result :=
    SafeWrapper.execute P (ret (target_closest_popup event)) "POPUP_ELEMENT_CHECK_ERROR" None in
  ret match result with
      | Success data => data
      | Failure _ => false
      end.

End WithPlatform.
End ElementSelector.

(** ** class PopupManager *)

Module PopupManager.
Local Open Scope Q_scope.
Section WithPlatform.
Context (P : Platform).

Definition offset : Q := 20.

(** [popupRect.width || 380]. *)
Definition popupWidth (p : Popup) : Q :=
  if Qeq_bool (rect_width p) 0 then 380 else rect_width p.

(** [popupRect.height || Math.min(500, window.innerHeight * 0.7)]. *)
Definition popupHeight (p : Popup) : Q :=
  if Qeq_bool (rect_height p) 0 then Qmin 500 (window_innerHeight P * (7 # 10))
  else rect_height p.

(** The four candidates, in the order of the array literal. *)
Definition positions (mousePosition : Q * Q) (popupWidth popupHeight : Q) : list (Q * Q) :=
  [ (fst mousePosition + offset, snd mousePosition + offset);
    (fst mousePosition - popupWidth - offset, snd mousePosition + offset);
    (fst mousePosition + offset, snd mousePosition - popupHeight - offset);
    (fst mousePosition - popupWidth - offset, snd mousePosition - popupHeight - offset) ].

(** The callback of [positions.find]. *)
Definition fits (popupWidth popupHeight : Q) (pos : Q * Q) : bool :=
  Qle_bool 10 (fst pos) && Qle_bool 10 (snd pos) &&
  Qle_bool (fst pos + popupWidth) (window_innerWidth P - 10) &&
  Qle_bool (snd pos + popupHeight) (window_innerHeight P - 10).

(** [positions.find(...) || positions[0]]. *)
Definition bestPosition (mousePosition : Q * Q) (popupWidth popupHeight : Q) : Q * Q :=
  match List.find (fits popupWidth popupHeight) (positions mousePosition popupWidth popupHeight) with
  | Some pos => pos
  | None => (fst mousePosition + offset, snd mousePosition + offset)
  end.

(** The two [Math.max(10, Math.min(..., ...))] assignments. *)
Definition clamped (popupWidth popupHeight : Q) (pos : Q * Q) : Q * Q :=
  (Qmax 10 (Qmin (fst pos) (window_innerWidth P - popupWidth - 10)),
   Qmax 10 (Qmin (snd pos) (window_innerHeight P - popupHeight - 10))).

(** Where [updatePopupPosition] puts a popup that is shown and not pinned. *)
Definition placement (p : Popup) (mousePosition : Q * Q) : Q * Q :=
  clamped (popupWidth p) (popupHeight p)
    (bestPosition mousePosition (popupWidth p) (popupHeight p)).

(** [updatePopupPosition(mousePosition)]. *)
Definition updatePopupPosition (mousePosition : Q * Q) : M bool :=
  let* result :=
    SafeWrapper.executeDOMOperation P
      (let* popup := gets popup in
       let* isPinned := gets isPinned in
       match popup with
       | None => ret tt
       | Some p =>
           if isPinned : bool then ret tt
           else
             let best := placement p mousePosition in
             modify (set_popup (fun _ =>
               Some (mkPopup (Some (fst best)) (Some (snd best)) (rect_width p) (rect_height p))))
       end)
      "POPUP_POSITION_UPDATE_ERROR" None in
  ret match result with
      | Success _ => true
      | Failure _ => false
      end.

(** [updatePinnedState()]: it only toggles the [pinned] class and the two
    indicator lines inside the popup, which [World] does not record. *)
Definition updatePinnedState : M bool :=
  let* result :=
    SafeWrapper.executeDOMOperation P (ret tt) "POPUP_STATE_UPDATE_ERROR" None in
  ret match result with
      | Success _ => true
      | Failure _ => false
      end.

(** [pinPopup()]. *)
Definition pinPopup : M bool :=
  let* result :=
    SafeWrapper.execute P
      (do modify (set_isPinned true) then
       let* popup := gets popup in
       match popup with
       | Some p =>
           do modify (set_pinnedPosition (Some (style_left p, style_top p)))
           then do updatePinnedState then ret tt
       | None => ret tt
       end)
      "POPUP_PIN_ERROR" None in
  ret match result with
      | Success _ => true
      | Failure _ => false
      end.

(** [unpinPopup()]. *)
Definition unpinPopup : M bool :=
  let* result :=
    SafeWrapper.execute P
      (do modify (set_isPinned false) then
       do modify (set_pinnedPosition None) then
       let* popup := gets popup in
       match popup with
       | Some _ => do updatePinnedState then ret tt
       | None => ret tt
       end)
      "POPUP_UNPIN_ERROR" None in
  ret match result with
      | Success _ => true
      | Failure _ => false
      end.

End WithPlatform.
End PopupManager.

(** ** class CSSScanner and class EventHandler *)

Module CSSScanner.
Section WithPlatform.
Context (P : Platform).

(** [handleMouseMove(event, mousePosition)]. *)
Definition handleMouseMove (event : MouseEvent) (mousePosition : Q * Q) : M unit :=
  do SafeWrapper.execute P
       (let* isScanning := gets isScanning in
        if negb isScanning then ret tt
        else
          let* popup := gets popup in
          match popup with
          | None => ret tt
          | Some _ =>
              let* isPinned := gets isPinned in
              if isPinned : bool then ret tt
              else
                let* overPopup := ElementSelector.isPopupElement P event in
                if overPopup : bool then ret tt
                else do PopupManager.updatePopupPosition P mousePosition then ret tt
          end)
       "MOUSE_MOVE_HANDLER_ERROR" None
  then ret tt.

End WithPlatform.
End CSSScanner.

Module EventHandler.
Section WithPlatform.
Context (P : Platform).

(** [handleMouseMove(event)], once the throttle lets the event through;
    [callbacks.onMouseMove] is [CSSScanner.handleMouseMove], registered by
    [CSSScanner.init]. *)
Definition handleMouseMove (event : MouseEvent) : M unit :=
  do SafeWrapper.execute P
       (do modify (set_mousePosition (clientX event, clientY event)) then
        let* mousePosition := gets mousePosition in
        CSSScanner.handleMouseMove P event mousePosition)
       "EVENT_HANDLER_ERROR" None
  then ret tt.


End WithPlatform.
End EventHandler.

(** ** Vocabulary of the statements *)

(** The element and its ancestors that the path of
    [generateOptimizedSelector] names: innermost first, at most [n] of
    them, stopping below the document body. *)
Fixpoint selfAndAncestors (P : Platform) (n : nat) (current : option Element) : list Element :=
  match n with
  | O => []
  | S n' =>
      match current with
      | None => []
      | Some c =>
          if StyleCache.isDocumentBody P c then []
          else c :: selfAndAncestors P n' (parentElement c)
      end
  end.

(** Two states that differ at most in the error counts. *)
Definition sameButErrorCounts (w w' : World) : Prop :=
  exists counts, w' = set_errorCounts (fun _ => counts) w.

(** The mapping [cacheImportantProperties] reads from a computed style:
    the important properties whose value could be read and is not empty. *)
Definition snapshotOf (computedStyle : string -> Outcome string) : JS.object :=
  fold_left
    (fun cached prop =>
       match computedStyle prop with
       | Returns data => if JS.truthy data then JS.set prop data cached else cached
       | Throws _ => cached
       end)
    StyleCache.importantProps [].

(** Code-unit order of two strings as a [localeCompare] result. *)
Definition compareCodeUnits (a b : string) : Z :=
  match String.compare a b with
  | Lt => (-1)%Z
  | Eq => 0%Z
  | Gt => 1%Z
  end.

(** An entry the inner loop of [categorizeStyles] may add to a category:
    read from the computed style, its trimmed value not uninteresting. *)
Definition categorised (computedStyle : JS.object) (entry : string * string) : Prop :=
  JS.get (fst entry) computedStyle = Some (snd entry) /\
  ~ In (JS.trim (snd entry)) CSSAnalyzer.invalidValues.

(** ** Sample pages *)

Module Sample.

(** A computed style with a flex display, a zero margin and a red colour. *)
Definition computedStyle (prop : string) : Outcome string :=
  if prop =? "display" then Returns "flex"
  else if prop =? "margin" then Returns "0px"
  else if prop =? "color" then Returns "red"
  else Returns "".

(** A browser whose clock advances by one millisecond per reading, where
    every call succeeds and every selector matches two elements, with a
    1000 by 800 viewport. *)
Definition platform : Platform :=
  mkPlatform
    (fun n => (1000 + Z.of_nat n)%Z)
    (fun _ _ => Returns computedStyle)
    (Some 1%positive)
    (fun _ => Returns 2%nat)
    compareCodeUnits
    true (fun _ => true) (fun _ => Returns true)
    1000%Q 800%Q.

(** The same browser when [window.getComputedStyle] throws. *)
Definition platform_styleReadThrows : Platform :=
  mkPlatform
    (Date_now_at platform)
    (fun _ _ => Throws "getComputedStyle failed")
    (document_body platform)
    (document_querySelectorAll_length platform)
    (localeCompare platform)
    true (fun _ => true) (fun _ => Returns true)
    1000%Q 800%Q.

(** The same browser in a window 300 wide. *)
Definition platform_narrow : Platform :=
  mkPlatform
    (Date_now_at platform)
    (window_getComputedStyle_at platform)
    (document_body platform)
    (document_querySelectorAll_length platform)
    (localeCompare platform)
    true (fun _ => true) (fun _ => Returns true)
    300%Q 800%Q.

(** The script just loaded: nothing cached, nothing shown. *)
Definition world : World :=
  mkWorld ∅ [] ∅ ∅ 0 0 None false None false (0%Q, 0%Q).

(** The cache holds a snapshot of [hero] taken 51 seconds before the
    next clock reading. *)
Definition world_staleEntry : World :=
  mkWorld ∅ [] {[ 2%positive := mkCacheEntry [("color", "blue")] (-50000)%Z ]} ∅ 0 0
    None false None false (0%Q, 0%Q).

(** Scanning, with a 380 by 200 popup shown at (120, 120). *)
Definition world_popupShown : World :=
  mkWorld ∅ [] ∅ ∅ 0 0 (Some (mkPopup (Some 120%Q) (Some 120%Q) 380%Q 200%Q))
    false None true (100%Q, 100%Q).

Definition body : Element :=
  mkElement 1 "BODY" "" "" (Some [9; 1]%positive) None None.

(** [<div id="hero" style="color: red">], second of three children of the body. *)
Definition hero : Element :=
  mkElement 2 "DIV" "hero" "" (Some [7; 2; 3]%positive) (Some body)
    (Some (mkStyle "color: red;" [("color", "red")])).

(** [<section class="card css-scanner-highlight wide">] under the body. *)
Definition card : Element :=
  mkElement 3 "SECTION" "" "card css-scanner-highlight wide" (Some [7; 2; 3]%positive)
    (Some body) None.

(** [<span>], only child of [card]. *)
Definition label : Element :=
  mkElement 4 "SPAN" "" "" (Some [4]%positive) (Some card) None.

(** [<svg class="icon">], only child of [hero]. *)
Definition icon : Element :=
  mkElement 5 "svg" "" (ClassName_animated "icon") (Some [5]%positive) (Some hero) None.

(** An inspection result without inline styles. *)
Definition info_noInline : CSSInfo :=
  mkCSSInfo (Some (mkElementInfo "div" "" "hero" "#hero")) [("color", "red")] [] [].

(** An inspection result whose selector is empty. *)
Definition info_noSelector : CSSInfo :=
  mkCSSInfo (Some (mkElementInfo "div" "" "" "")) [("color", "red")] [] [].

End Sample.

(** ** Vocabulary of the further statements *)

(** The properties of [properties] that [categorizeStyles] keeps from a
    computed style: those with a value that is not empty and, trimmed, not
    uninteresting. *)
Definition keptProperties (computedStyle : JS.object) (properties : list string) : JS.object :=
  fold_left
    (fun categoryData prop =>
       match JS.get prop computedStyle with
       | Some value =>
           if JS.truthy value
              && negb (existsb (String.eqb (JS.trim value)) CSSAnalyzer.invalidValues)
           then JS.set prop value categoryData
           else categoryData
       | None => categoryData
       end)
    properties [].

(** The categories of a computed style: each fixed category with the
    properties it keeps, the categories that keep none left out. *)
Definition categoriesOf (computedStyle : JS.object) : list (string * JS.object) :=
  List.filter (fun category => (0 <? length (snd category))%nat)
    (map (fun category => (fst category, keptProperties computedStyle (snd category)))
       CSSAnalyzer.cssCategories).

(** ** The scanner as a whole *)

(** [ErrorHandler.recordError] on the history alone: the record is pushed
    and, when the history has grown past [maxHistorySize], the oldest one
    is shifted out. *)
Definition maxHistorySize : nat := 50.

Definition recordError {R : Type} (errorHistory : list R) (errorRecord : R) : list R :=
  let pushed := (errorHistory ++ [errorRecord])%list in
  if (maxHistorySize <? length pushed)%nat then tl pushed else pushed.

(** [CSSScanner.currentElementData]: the object [analyzeElement] builds by
    spreading the result of [extractCSSInfo], adding [isPinned] and
    overwriting [element] with the DOM node. *)
Record ElementData : Type := mkElementData {
  data_element : Element;
  data_computed : JS.object;
  data_inline : JS.object;
  data_categorized : list (string * JS.object);
  data_isPinned : bool
}.

(** An [ElementData] as [ClipboardManager] reads it.  The element part is
    the DOM node, which has a [tagName], a [className] and an [id] but no
    [selector] property, so [elementData.element?.selector || ''] is [''].  *)
Definition asCSSInfo (data : ElementData) : CSSInfo :=
  mkCSSInfo
    (Some (mkElementInfo (tagName (data_element data)) (className (data_element data))
             (id (data_element data)) ""))
    (data_computed data) (data_inline data) (data_categorized data).

(** A [mouseover], [mouseout] or [click] event: what the pointer handlers
    read of it, its target and its [relatedTarget]. *)
Record TargetEvent : Type := mkTargetEvent {
  pointer : MouseEvent;
  target : option Element;
  relatedTarget : option Element
}.

(** The event as [isPopupElement(event.target)] reads it: without a target
    there is nothing to call [closest] on. *)
Definition asMouseEvent (event : TargetEvent) : MouseEvent :=
  mkMouseEvent (clientX (pointer event)) (clientY (pointer event))
    match target event with
    | Some _ => target_closest_popup (pointer event)
    | None => false
    end.

(** The state of the script: the part the methods above work on, and
    - [StyleCache.lastClearTime];
    - [ElementSelector.highlightedElement] and [.lastHoverElement], by handle;
    - the nodes whose [classList] holds [css-scanner-highlight];
    - [CSSScanner.currentElementData];
    - whether the five handlers of [EventHandler] are registered on the
      document;
    - [document.body.style.cursor];
    - the event of the pending [EventHandler.hoverTimeout] timer, if one is
      pending (a timer that has fired leaves its id in the field, where it
      is cleared like a pending one, to no effect);
    - [inThrottle] of the throttled pointer-move handler. *)
Record Session : Type := mkSession {
  world : World;
  lastClearTime : Z;
  highlightedElement : option positive;
  lastHoverElement : option positive;
  highlightClass : gset positive;
  currentElementData : option ElementData;
  listening : bool;
  body_style_cursor : string;
  hoverTimeout : option TargetEvent;
  inThrottle : bool
}.

Definition set_isScanning (b : bool) (w : World) : World :=
  mkWorld (errorCounts w) (clipboard w) (cache w) (selectorCache w) (dateNowCalls w)
    (getComputedStyleCalls w) (popup w) (isPinned w) (pinnedPosition w) b
    (mousePosition w).

Definition set_world (f : World -> World) (s : Session) : Session :=
  mkSession (f (world s)) (lastClearTime s) (highlightedElement s) (lastHoverElement s)
    (highlightClass s) (currentElementData s) (listening s) (body_style_cursor s)
    (hoverTimeout s) (inThrottle s).
Definition set_lastClearTime (t : Z) (s : Session) : Session :=
  mkSession (world s) t (highlightedElement s) (lastHoverElement s)
    (highlightClass s) (currentElementData s) (listening s) (body_style_cursor s)
    (hoverTimeout s) (inThrottle s).
Definition set_highlightedElement (e : option positive) (s : Session) : Session :=
  mkSession (world s) (lastClearTime s) e (lastHoverElement s)
    (highlightClass s) (currentElementData s) (listening s) (body_style_cursor s)
    (hoverTimeout s) (inThrottle s).
Definition set_lastHoverElement (e : option positive) (s : Session) : Session :=
  mkSession (world s) (lastClearTime s) (highlightedElement s) e
    (highlightClass s) (currentElementData s) (listening s) (body_style_cursor s)
    (hoverTimeout s) (inThrottle s).
Definition set_highlightClass (f : gset positive -> gset positive) (s : Session) : Session :=
  mkSession (world s) (lastClearTime s) (highlightedElement s) (lastHoverElement s)
    (f (highlightClass s)) (currentElementData s) (listening s) (body_style_cursor s)
    (hoverTimeout s) (inThrottle s).
Definition set_currentElementData (d : option ElementData) (s : Session) : Session :=
  mkSession (world s) (lastClearTime s) (highlightedElement s) (lastHoverElement s)
    (highlightClass s) d (listening s) (body_style_cursor s)
    (hoverTimeout s) (inThrottle s).
Definition set_listening (b : bool) (s : Session) : Session :=
  mkSession (world s) (lastClearTime s) (highlightedElement s) (lastHoverElement s)
    (highlightClass s) (currentElementData s) b (body_style_cursor s)
    (hoverTimeout s) (inThrottle s).
Definition set_body_style_cursor (c : string) (s : Session) : Session :=
  mkSession (world s) (lastClearTime s) (highlightedElement s) (lastHoverElement s)
    (highlightClass s) (currentElementData s) (listening s) c
    (hoverTimeout s) (inThrottle s).
Definition set_hoverTimeout (t : option TargetEvent) (s : Session) : Session :=
  mkSession (world s) (lastClearTime s) (highlightedElement s) (lastHoverElement s)
    (highlightClass s) (currentElementData s) (listening s) (body_style_cursor s)
    t (inThrottle s).
Definition set_inThrottle (b : bool) (s : Session) : Session :=
  mkSession (world s) (lastClearTime s) (highlightedElement s) (lastHoverElement s)
    (highlightClass s) (currentElementData s) (listening s) (body_style_cursor s)
    (hoverTimeout s) b.

(** The monad of the methods that work on the whole state. *)
Definition MS (A : Type) : Type := Session -> Completion A * Session.

Definition retS {A} (a : A) : MS A := fun s => (Normal a, s).
Definition throwS {A} (message : string) : MS A := fun s => (Throw message, s).
Definition bindS {A B} (m : MS A) (k : A -> MS B) : MS B :=
  fun s =>
    match m s with
    | (Normal a, s') => k a s'
    | (Throw e, s') => (Throw e, s')
    | (Diverge, s') => (Diverge, s')
    end.
Definition modifyS (f : Session -> Session) : MS unit := fun s => (Normal tt, f s).
Definition getsS {A} (f : Session -> A) : MS A := fun s => (Normal (f s), s).

(** A method of the classes above, run on its part of the state. *)
Definition lift {A} (m : M A) : MS A :=
  fun s => (fst (m (world s)), set_world (fun _ => snd (m (world s))) s).

Declare Scope session_scope.
Delimit Scope session_scope with session.
Notation "'let*' x ':=' m 'in' k" := (bindS m (fun x => k))
  (at level 10, x name, m at level 100, k at level 200) : session_scope.
Notation "'do' m 'then' k" := (bindS m (fun _ => k))
  (at level 10, m at level 100, k at level 200) : session_scope.

(** The [css-scanner-highlight] token of [classList]. *)
Definition highlightToken : string := "css-scanner-highlight".

(** [DOMTokenList]: the tokens of a [class] attribute are its maximal runs
    of characters other than ASCII whitespace, each once, in order of first
    occurrence; [add] and [remove] write the attribute back as the tokens
    joined by single spaces. *)
Definition isASCIIWhitespace (c : ascii) : bool :=
  let n := nat_of_ascii c in
  ((n =? 9) || (n =? 10) || (n =? 12) || (n =? 13) || (n =? 32))%nat.

Fixpoint splitOnWhitespace (current : string) (s : string) : list string :=
  match s with
  | EmptyString => if JS.truthy current then [current] else []
  | String c rest =>
      if isASCIIWhitespace c
      then if JS.truthy current then current :: splitOnWhitespace "" rest
           else splitOnWhitespace "" rest
      else splitOnWhitespace (current +:+ String c EmptyString) rest
  end.

Fixpoint orderedSet (tokens seen : list string) : list string :=
  match tokens with
  | [] => []
  | t :: rest =>
      if existsb (String.eqb t) seen then orderedSet rest seen
      else t :: orderedSet rest (t :: seen)
  end.

Definition tokens (className : string) : list string :=
  orderedSet (splitOnWhitespace "" className) [].

Definition classList_add (token className : string) : string :=
  let set := tokens className in
  JS.join " " (if existsb (String.eqb token) set then set else (set ++ [token])%list).

Definition classList_remove (token className : string) : string :=
  JS.join " " (List.filter (fun t => negb (t =? token)) (tokens className)).

(** The [class] attribute behind [element.className], which [classList]
    reads and writes. *)
Definition classAttribute (e : Element) : string :=
  match className e with
  | ClassName_string value => value
  | ClassName_animated baseVal => baseVal
  end.

Definition withClassAttribute (value : string) (e : Element) : Element :=
  mkElement (handle e) (tagName e) (id e)
    match className e with
    | ClassName_string _ => ClassName_string value
    | ClassName_animated _ => ClassName_animated value
    end
    (parentNode_children e) (parentElement e) (style e).

(** [a.contains(b)]: [b] is [a] or a descendant of [a]. *)
Fixpoint contains (a : positive) (b : Element) : bool :=
  Pos.eqb a (handle b) ||
  match parentElement b with
  | Some parent => contains a parent
  | None => false
  end.

(** A message of the extension, by its [action], and the answers the
    content script gives with [sendResponse]. *)
Inductive Response : Type :=
| Response_pong
| Response_toggled (isScanning : bool)
| Response_status (isScanning : bool)
| Response_error (error : string).

(** What reaches the script from outside: the events of the document, the
    timers it has started, the listeners of the popup, the messages of the
    extension and the cleanup interval. *)
Inductive Input : Type :=
| Input_mouseover (event : TargetEvent)
| Input_mouseout (event : TargetEvent)
| Input_mousemove (event : MouseEvent)
| Input_click (event : TargetEvent)
| Input_keydown (key : string)
| Input_hoverTimeout
| Input_throttleTimeout
| Input_mouseOutTimeout (mouseOverPopup : bool)
| Input_copyButton (type : string)
| Input_closeButton
| Input_popupMouseEnter
| Input_popupMouseLeave
| Input_message (action : string)
| Input_interval.

(** Two states of the classes above in which the user sees the same: the
    clipboard, the popup, the pin, the scan mode and the recorded cursor. *)
Definition sameOnScreen (w w' : World) : Prop :=
  clipboard w' = clipboard w /\ popup w' = popup w /\ isPinned w' = isPinned w /\
  pinnedPosition w' = pinnedPosition w /\ isScanning w' = isScanning w /\
  mousePosition w' = mousePosition w.

(** A method that leaves the scan mode as it is and shows no popup that
    was not there, however it completes. *)
Definition showsNoPopup {A} (m : M A) : Prop :=
  forall w,
    isScanning (snd (m w)) = isScanning w /\
    (popup (snd (m w)) <> None -> popup w <> None).

Module Scanner.

Section OnWorld.
Context (P : Platform).

(** What [getBoundingClientRect] reports, as width and height, for the
    popup rendered from an element's data. *)
Context (popup_getBoundingClientRect : ElementData -> Q * Q).

Definition succeeded {A} (result : Result A) : bool :=
  match result with
  | Success _ => true
  | Failure _ => false
  end.

(** *** class NotificationManager *)

(** [showMessage(message, type)]: the message element is appended to the
    body; neither it nor its text is part of the state. *)
Definition NotificationManager_showMessage : M unit :=
  do SafeWrapper.executeDOMOperation P (ret tt) "NOTIFICATION_DISPLAY_ERROR" None then ret tt.

(** *** class PopupManager, continued *)

(** [closePopup()].  The popup node of the state is attached to the
    document: the script itself detaches it only here. *)
Definition PopupManager_closePopup : M bool :=
  let* result :=
    SafeWrapper.executeDOMOperation P
      (let* shown := gets popup in
       match shown with
       | Some _ => modify (set_popup (fun _ => None))
       | None => ret tt
       end)
      "POPUP_CLOSE_ERROR" None in
  ret (succeeded result).

(** [generatePopupHTML(data)]: the markup is not part of the state, the
    way the method completes is.  Its template reads [element.tagName],
    [element.id] and, when [element.className] is truthy,
    [element.className.split(' ')], which is a [TypeError] on the object an
    SVG element has there; the method's own wrapper catches it. *)
Definition PopupManager_generatePopupHTML (data : ElementData) : M unit :=
  do SafeWrapper.execute P
       (match className (data_element data) with
        | ClassName_string _ => ret tt
        | ClassName_animated _ => throw "element.className.split is not a function"
        end)
       "POPUP_HTML_GENERATION_ERROR" None
  then ret tt.

(** [showPopup(elementData, mousePosition)].  The timing and the animation
    frame are not part of the state; the new node has no [left] and [top]
    yet. *)
Definition PopupManager_showPopup (elementData : option ElementData) (mousePosition : Q * Q)
    : M (option Popup) :=
  let* result :=
    SafeWrapper.executeDOMOperation P
      (match elementData with
       | None => throw "No element data to show"
       | Some data =>
           do PopupManager_closePopup then
           do PopupManager_generatePopupHTML data then
           do modify (set_popup (fun _ =>
                Some (mkPopup None None (fst (popup_getBoundingClientRect data))
                        (snd (popup_getBoundingClientRect data))))) then
           let* pinned := gets isPinned in
           let* position := gets pinnedPosition in
           do match position with
              | Some (pinnedLeft, pinnedTop) =>
                  if pinned : bool
                  then modify (set_popup (option_map (fun p =>
                         mkPopup pinnedLeft pinnedTop (rect_width p) (rect_height p))))
                  else do PopupManager.updatePopupPosition P mousePosition then ret tt
              | None => do PopupManager.updatePopupPosition P mousePosition then ret tt
              end then
           do PopupManager.updatePinnedState P then
           gets popup
       end)
      "POPUP_RENDER_FAILED" None in
  ret match result with
      | Success data => data
      | Failure _ => None
      end.

(** [setupPopupEvents(popup)] for a popup that is there: the listeners it
    registers are kept by the popup node. *)
Definition CSSScanner_setupPopupEvents : M bool :=
  let* result :=
    SafeWrapper.executeDOMOperation P (ret tt) "POPUP_EVENT_SETUP_ERROR" None in
  ret (succeeded result).

End OnWorld.

Local Open Scope session_scope.
Section OnSession.
Context (P : Platform).
Context (popup_getBoundingClientRect : ElementData -> Q * Q).

(** The depth of the calls of [StyleCache.getComputedStyle] to itself that
    the model follows. *)
Context (fuel : nat).

(** [SafeWrapper.execute] and [.executeDOMOperation] around a method that
    works on the whole state; no caller below passes a [context.text]. *)
Definition execute {A} (fn : MS A) (errorType : string) : MS (Result A) :=
  fun s =>
    match fn s with
    | (Normal a, s') => (Normal (Success a), s')
    | (Throw e, s') =>
        (Normal (Failure e), set_world (ErrorHandler.handleError P e errorType None) s')
    | (Diverge, s') => (Diverge, s')
    end.

Definition executeDOMOperation {A} (fn : MS A) (errorType : string) : MS (Result A) :=
  match document_body P with
  | None =>
      do modifyS (set_world (ErrorHandler.handleError P "Document not ready" "DOM_NOT_READY" None))
      then retS (Failure "DOM not ready")
  | Some _ => execute fn errorType
  end.

(** *** class StyleCache, continued *)

(** [clear()]. *)
Definition StyleCache_clear : MS bool :=
  let* result :=
    execute
      (do lift (modify (set_cache (fun _ => ∅))) then
       do lift (modify (set_selectorCache (fun _ => ∅))) then
       let* now := lift (StyleCache.Date_now P) in
       modifyS (set_lastClearTime now))
      "CACHE_CLEAR_ERROR" in
  retS (succeeded result).

(** [periodicCleanup()]. *)
Definition StyleCache_periodicCleanup : MS unit :=
  do execute
       (let* now := lift (StyleCache.Date_now P) in
        let* last := getsS lastClearTime in
        if (now - last >? 60000)%Z
        then do StyleCache_clear then retS tt
        else retS tt)
       "CACHE_CLEANUP_ERROR"
  then retS tt.

(** *** class ElementSelector, continued *)

(** [removeHighlight()]; a highlighted element always has a [classList]. *)
Definition ElementSelector_removeHighlight : MS bool :=
  let* result :=
    executeDOMOperation
      (let* highlighted := getsS highlightedElement in
       match highlighted with
       | Some h =>
           do modifyS (set_highlightClass (fun nodes => nodes ∖ {[h]})) then
           modifyS (set_highlightedElement None)
       | None => retS tt
       end)
      "HIGHLIGHT_REMOVAL_ERROR" in
  retS (succeeded result).

(** [highlightElement(element)]. *)
Definition ElementSelector_highlightElement (element : option Element) : MS bool :=
  let* result :=
    executeDOMOperation
      (match element with
       | None => retS false
       | Some e =>
           do ElementSelector_removeHighlight then
           do modifyS (set_highlightClass (fun nodes => nodes ∪ {[handle e]})) then
           do modifyS (set_highlightedElement (Some (handle e))) then
           do modifyS (set_lastHoverElement (Some (handle e))) then
           retS true
       end)
      "ELEMENT_HIGHLIGHT_ERROR" in
  retS match result with
       | Success data => data
       | Failure _ => false
       end.

(** [isSameElement(element)]. *)
Definition ElementSelector_isSameElement (element : option Element) : MS bool :=
  let* result :=
    execute
      (let* lastHover := getsS lastHoverElement in
       retS (bool_decide (lastHover = option_map handle element)))
      "ELEMENT_COMPARISON_ERROR" in
  retS match result with
       | Success data => data
       | Failure _ => false
       end.

(** [reset()]. *)
Definition ElementSelector_reset : MS bool :=
  let* result :=
    execute
      (do ElementSelector_removeHighlight then
       modifyS (set_lastHoverElement None))
      "ELEMENT_SELECTOR_RESET_ERROR" in
  retS (succeeded result).

(** *** class EventHandler, continued *)

(** [addEventListeners()] and [removeEventListeners()]: registering a
    handler that is registered already, or removing one that is not,
    changes nothing. *)
Definition EventHandler_addEventListeners : MS bool :=
  let* result := execute (modifyS (set_listening true)) "EVENT_LISTENER_ADD_ERROR" in
  retS (succeeded result).

Definition EventHandler_removeEventListeners : MS bool :=
  let* result := execute (modifyS (set_listening false)) "EVENT_LISTENER_REMOVE_ERROR" in
  retS (succeeded result).

(** [clearHoverTimeout()]. *)
Definition EventHandler_clearHoverTimeout : MS bool :=
  let* result := execute (modifyS (set_hoverTimeout None)) "TIMEOUT_CLEAR_ERROR" in
  retS (succeeded result).

(** *** class CSSScanner, continued *)

(** [document.body.style.cursor = value]; a [TypeError] without a body. *)
Definition document_body_style_cursor (value : string) : MS unit :=
  match document_body P with
  | None => throwS "Cannot read properties of null (reading 'style')"
  | Some _ => modifyS (set_body_style_cursor value)
  end.

(** [analyzeElement(element, willPin)]. *)
Definition CSSScanner_analyzeElement (element : option Element) (willPin : bool) : MS unit :=
  do execute
       (match element with
        | None => throwS "No element to analyze"
        | Some e =>
            let* cssInfo := lift (CSSAnalyzer.extractCSSInfo P fuel element) in
            let data :=
              mkElementData e (info_computed cssInfo) (info_inline cssInfo)
                (info_categorized cssInfo) willPin in
            do modifyS (set_currentElementData (Some data)) then
            let* mousePosition := lift (gets mousePosition) in
            let* popup :=
              lift (PopupManager_showPopup P popup_getBoundingClientRect (Some data)
                      mousePosition) in
            match popup with
            | Some _ => do lift (CSSScanner_setupPopupEvents P) then retS tt
            | None => retS tt
            end
        end)
       "CSS_ANALYSIS_FAILED"
  then retS tt.

(** [startScan()]. *)
Definition CSSScanner_startScan : MS bool :=
  let* result :=
    execute
      (do lift (modify (set_isScanning true)) then
       do ElementSelector_reset then
       do lift (PopupManager.unpinPopup P) then
       do StyleCache_clear then
       do EventHandler_addEventListeners then
       do document_body_style_cursor "crosshair" then
       lift (NotificationManager_showMessage P))
      "SCAN_START_ERROR" in
  retS (succeeded result).

(** [stopScan()]; the animation frame [cancelRenderFrame] cancels is not
    part of the state. *)
Definition CSSScanner_stopScan : MS bool :=
  let* result :=
    execute
      (do lift (modify (set_isScanning false)) then
       do EventHandler_removeEventListeners then
       do ElementSelector_reset then
       do lift (PopupManager_closePopup P) then
       do modifyS (set_currentElementData None) then
       do document_body_style_cursor "" then
       lift (NotificationManager_showMessage P))
      "SCAN_STOP_ERROR" in
  retS (succeeded result).

(** [toggleScan()]. *)
Definition CSSScanner_toggleScan : MS bool :=
  let* result :=
    execute
      (let* scanning := lift (gets isScanning) in
       do (if scanning : bool then CSSScanner_stopScan else CSSScanner_startScan) then
       lift (gets isScanning))
      "SCAN_TOGGLE_ERROR" in
  retS match result with
       | Success data => data
       | Failure _ => false
       end.

(** [handleClick(event)]. *)
Definition CSSScanner_handleClick (event : TargetEvent) : MS unit :=
  do execute
       (let* scanning := lift (gets isScanning) in
        if negb scanning then retS tt
        else
          let* overPopup := lift (ElementSelector.isPopupElement P (asMouseEvent event)) in
          if overPopup : bool then retS tt
          else
            let* pinned := lift (gets isPinned) in
            if pinned : bool then
              do lift (PopupManager.unpinPopup P) then
              lift (NotificationManager_showMessage P)
            else
              do CSSScanner_analyzeElement (target event) true then
              do lift (PopupManager.pinPopup P) then
              lift (NotificationManager_showMessage P))
       "CLICK_HANDLER_ERROR"
  then retS tt.

(** [handleKeyDown(event)], by [event.key]. *)
Definition CSSScanner_handleKeyDown (key : string) : MS unit :=
  do execute
       (let* scanning := lift (gets isScanning) in
        if negb scanning then retS tt
        else if (key =? "Escape")%string then
          let* pinned := lift (gets isPinned) in
          if pinned : bool then
            do lift (PopupManager.unpinPopup P) then
            lift (NotificationManager_showMessage P)
          else do CSSScanner_stopScan then retS tt
        else retS tt)
       "KEY_DOWN_HANDLER_ERROR"
  then retS tt.

(** The target of a [mouseover] as the document has it once
    [highlightElement] has answered [ok]: the token was taken off the
    element that was highlighted before, if that was the target itself,
    and then added to the target. *)
Definition highlightedTarget (before : option positive) (ok : bool) (e : Element) : Element :=
  if ok then
    withClassAttribute
      (classList_add highlightToken
         (if bool_decide (before = Some (handle e))
          then classList_remove highlightToken (classAttribute e)
          else classAttribute e))
      e
  else e.

(** [handleMouseOver(event)]. *)
Definition CSSScanner_handleMouseOver (event : TargetEvent) : MS unit :=
  do execute
       (let* scanning := lift (gets isScanning) in
        if negb scanning then retS tt
        else
          let* overPopup := lift (ElementSelector.isPopupElement P (asMouseEvent event)) in
          if overPopup : bool then retS tt
          else
            let* pinned := lift (gets isPinned) in
            if pinned : bool then retS tt
            else
              let* same := ElementSelector_isSameElement (target event) in
              if same : bool then retS tt
              else
                let* before := getsS highlightedElement in
                let* ok := ElementSelector_highlightElement (target event) in
                let* stillScanning := lift (gets isScanning) in
                let* highlighted := getsS highlightedElement in
                let* pinnedNow := lift (gets isPinned) in
                if stillScanning
                   && bool_decide (highlighted = option_map handle (target event))
                   && negb pinnedNow
                then CSSScanner_analyzeElement
                       (option_map (highlightedTarget before ok) (target event)) false
                else retS tt)
       "MOUSE_OVER_HANDLER_ERROR"
  then retS tt.

(** [handleMouseOut(event)], up to the timer it starts. *)
Definition CSSScanner_handleMouseOut (event : TargetEvent) : MS unit :=
  do execute
       (let* scanning := lift (gets isScanning) in
        if negb scanning then retS tt
        else
          let* overPopup := lift (ElementSelector.isPopupElement P (asMouseEvent event)) in
          if overPopup : bool then retS tt
          else
            let* pinned := lift (gets isPinned) in
            if pinned : bool then retS tt
            else
              match relatedTarget event with
              | Some related =>
                  match target event with
                  | None => throwS "Cannot read properties of null (reading 'contains')"
                  | Some e =>
                      if contains (handle e) related || contains (handle related) e
                      then retS tt
                      else do ElementSelector_removeHighlight then retS tt
                  end
              | None => do ElementSelector_removeHighlight then retS tt
              end)
       "MOUSE_OUT_HANDLER_ERROR"
  then retS tt.

(** The timer of [handleMouseOut], 100 ms later; [mouseOverPopup] is what
    [isMouseOverPopup()] answers then. *)
Definition CSSScanner_handleMouseOut_timer (mouseOverPopup : bool) : MS unit :=
  let* pinned := lift (gets isPinned) in
  if negb pinned && negb mouseOverPopup
  then do lift (PopupManager_closePopup P) then retS tt
  else retS tt.

(** A click on an enabled copy button of the popup, [type] being its
    [data-copy], with nothing else handled while the copy is awaited: the
    answer is [result.success]. *)
Definition CSSScanner_copyButton (type : string) : MS bool :=
  let* result :=
    execute
      (let* data := getsS currentElementData in
       do lift (ClipboardManager.copyToClipboard P (option_map asCSSInfo data) type)
       then lift (NotificationManager_showMessage P))
      "COPY_BUTTON_ERROR" in
  do (if succeeded result then retS tt else lift (NotificationManager_showMessage P)) then
  retS (succeeded result).

(** The close button of the popup. *)
Definition CSSScanner_closeButton : MS unit :=
  do execute
       (do lift (PopupManager.unpinPopup P) then
        do lift (PopupManager_closePopup P) then retS tt)
       "CLOSE_BUTTON_ERROR"
  then retS tt.

(** *** class EventHandler: the handlers registered on the document *)

(** [handleMouseOver(event)]: the callback is put off by 100 ms, in place
    of the one that may be pending. *)
Definition EventHandler_handleMouseOver (event : TargetEvent) : MS unit :=
  do execute
       (do EventHandler_clearHoverTimeout then
        modifyS (set_hoverTimeout (Some event)))
       "EVENT_HANDLER_ERROR"
  then retS tt.

(** The timer of [handleMouseOver] fires. *)
Definition EventHandler_hoverTimeout_fires : MS unit :=
  let* pending := getsS hoverTimeout in
  match pending with
  | Some event =>
      do modifyS (set_hoverTimeout None) then
      do execute (CSSScanner_handleMouseOver event) "MOUSE_OVER_CALLBACK_ERROR"
      then retS tt
  | None => retS tt
  end.

(** A run of [mouseover] events with no timer firing in between. *)
Fixpoint EventHandler_handleMouseOvers (events : list TargetEvent) : MS unit :=
  match events with
  | [] => retS tt
  | event :: rest =>
      do EventHandler_handleMouseOver event then EventHandler_handleMouseOvers rest
  end.

(** [handleMouseOut(event)]. *)
Definition EventHandler_handleMouseOut (event : TargetEvent) : MS unit :=
  do execute
       (do EventHandler_clearHoverTimeout then
        CSSScanner_handleMouseOut event)
       "EVENT_HANDLER_ERROR"
  then retS tt.

(** [handleClick(event)] and [handleKeyDown(event)]. *)
Definition EventHandler_handleClick (event : TargetEvent) : MS unit :=
  do execute (CSSScanner_handleClick event) "EVENT_HANDLER_ERROR" then retS tt.

Definition EventHandler_handleKeyDown (key : string) : MS unit :=
  do execute (CSSScanner_handleKeyDown key) "EVENT_HANDLER_ERROR" then retS tt.

(** [boundHandlers.mouseMove], the function [throttle] returns for
    [handleMouseMove]: an error of the handler is logged and dropped. *)
Definition EventHandler_mouseMove (event : MouseEvent) : MS unit :=
  let* throttled := getsS inThrottle in
  if throttled : bool then retS tt
  else
    do (fun s =>
          match lift (EventHandler.handleMouseMove P event) s with
          | (Throw _, s') => (Normal tt, s')
          | other => other
          end) then
    modifyS (set_inThrottle true).

(** A run of [mousemove] events with no timer firing in between. *)
Fixpoint EventHandler_mouseMoves (events : list MouseEvent) : MS unit :=
  match events with
  | [] => retS tt
  | event :: rest => do EventHandler_mouseMove event then EventHandler_mouseMoves rest
  end.

(** The timer of [throttle] fires, 16 ms after the call it let through. *)
Definition EventHandler_throttle_timer : MS unit :=
  modifyS (set_inThrottle false).

(** The [mouseenter] and [mouseleave] listeners of the popup. *)
Definition CSSScanner_popupMouseEnter : MS unit :=
  do EventHandler_clearHoverTimeout then retS tt.

Definition CSSScanner_popupMouseLeave : MS unit :=
  let* pinned := lift (gets isPinned) in
  if pinned : bool then retS tt
  else do lift (PopupManager_closePopup P) then retS tt.

(** The callback of the interval [init] starts: the cleanup, and now and
    then a line on the console. *)
Definition CSSScanner_interval : MS unit :=
  do execute StyleCache_periodicCleanup "PERIODIC_CLEANUP_ERROR" then retS tt.

(** *** class MessageHandler *)

(** [handleMessage(request, sender, sendResponse)] for a request object
    with the given [action]: the answers sent, in order.  The two callbacks
    are the ones [CSSScanner.init] sets. *)
Definition MessageHandler_handleMessage (action : string) : MS (list Response) :=
  let* result :=
    execute
      (let* attempt :=
         execute
           (if (action =? "ping")%string then retS [Response_pong]
            else if (action =? "toggleScan")%string then
              let* toggled := CSSScanner_toggleScan in
              retS [Response_toggled toggled]
            else if (action =? "getScanStatus")%string then
              let* status := lift (gets isScanning) in
              retS [Response_status status]
            else retS [Response_error "Unknown action"])
           "MESSAGE_CALLBACK_ERROR" in
       retS match attempt with
            | Success sent => sent
            | Failure error => [Response_error error]
            end)
      "MESSAGE_HANDLER_ERROR" in
  retS match result with
       | Success sent => sent
       | Failure _ => []
       end.

(** *** The script at work *)

(** The state [new CSSScanner()] leaves: [StyleCache] has read the clock
    once; no node of the page carries the highlight class. *)
Definition loaded (cursor : string) : Session :=
  mkSession (mkWorld ∅ [] ∅ ∅ 1 0 None false None false (0%Q, 0%Q))
    (Date_now_at P 0) None None ∅ None false cursor None false.

(** One input handled.  The handlers of [EventHandler] are called while
    they are registered on the document, the listeners of the popup while
    a popup is shown, the two timers of [EventHandler] while they are
    pending; the timer of [handleMouseOut] and every button of the popup
    are allowed whenever they may be there at all. *)
Definition dispatch (input : Input) : MS unit :=
  let* registered := getsS listening in
  let* shown := lift (gets popup) in
  let* throttled := getsS inThrottle in
  match input with
  | Input_mouseover event =>
      if registered : bool then EventHandler_handleMouseOver event else retS tt
  | Input_mouseout event =>
      if registered : bool then EventHandler_handleMouseOut event else retS tt
  | Input_mousemove event =>
      if registered : bool then EventHandler_mouseMove event else retS tt
  | Input_click event =>
      if registered : bool then EventHandler_handleClick event else retS tt
  | Input_keydown key =>
      if registered : bool then EventHandler_handleKeyDown key else retS tt
  | Input_hoverTimeout => EventHandler_hoverTimeout_fires
  | Input_throttleTimeout =>
      if throttled : bool then EventHandler_throttle_timer else retS tt
  | Input_mouseOutTimeout mouseOverPopup => CSSScanner_handleMouseOut_timer mouseOverPopup
  | Input_copyButton type =>
      match shown with
      | Some _ => do CSSScanner_copyButton type then retS tt
      | None => retS tt
      end
  | Input_closeButton =>
      match shown with
      | Some _ => CSSScanner_closeButton
      | None => retS tt
      end
  | Input_popupMouseEnter =>
      match shown with
      | Some _ => CSSScanner_popupMouseEnter
      | None => retS tt
      end
  | Input_popupMouseLeave =>
      match shown with
      | Some _ => CSSScanner_popupMouseLeave
      | None => retS tt
      end
  | Input_message action => do MessageHandler_handleMessage action then retS tt
  | Input_interval => CSSScanner_interval
  end.

(** The inputs handled one after the other. *)
Fixpoint run (inputs : list Input) : MS unit :=
  match inputs with
  | [] => retS tt
  | input :: rest => do dispatch input then run rest
  end.

(** What holds of the state whenever the script is idle: the handlers are
    registered exactly while the scan is on; no node but the highlighted
    one carries the highlight class; while the scan is off there is no
    popup, no highlight and no element data; a popup is never shown
    without element data; and a document without a body has neither popup
    nor highlight. *)
Definition consistent (s : Session) : Prop :=
  listening s = isScanning (world s) /\
  (forall h, h ∈ highlightClass s -> highlightedElement s = Some h) /\
  (isScanning (world s) = false ->
   popup (world s) = None /\ highlightedElement s = None /\ highlightClass s = ∅ /\
   currentElementData s = None) /\
  (popup (world s) <> None -> currentElementData s <> None) /\
  (document_body P = None ->
   popup (world s) = None /\ highlightedElement s = None /\ highlightClass s = ∅).

(** A method that takes consistent states to consistent states, however
    it completes. *)
Definition staysConsistent {A} (m : MS A) : Prop :=
  forall s, consistent s -> consistent (snd (m s)).

End OnSession.
End Scanner.

(** * Properties *)

(** ** The monad and the wrappers *)

Lemma execute_Normal {A} (P : Platform) (fn : M A) errorType context_text w a w' :
  fn w = (Normal a, w') ->
  SafeWrapper.execute P fn errorType context_text w = (Normal (Success a), w').
Proof. intros H. unfold SafeWrapper.execute. now rewrite H. Qed.

Lemma execute_Throw {A} (P : Platform) (fn : M A) errorType context_text w e w' :
  fn w = (Throw e, w') ->
  SafeWrapper.execute P fn errorType context_text w
  = (Normal (Failure e), ErrorHandler.handleError P e errorType context_text w').
Proof. intros H. unfold SafeWrapper.execute. now rewrite H. Qed.

Lemma bind_Normal {A B} (m : M A) (k : A -> M B) w a w' :
  m w = (Normal a, w') -> bind m k w = k a w'.
Proof. intros H. unfold bind. now rewrite H. Qed.

(** ** JavaScript lists and objects *)

Lemma existsb_eqb_In (x : string) (l : list string) :
  existsb (String.eqb x) l = true <-> In x l.
Proof.
  rewrite existsb_exists. split.
  - intros [y [Hy Hxy]]. apply String.eqb_eq in Hxy. now subst.
  - intros H. exists x. split; [assumption | apply String.eqb_refl].
Qed.

Lemma set_In (k v : string) (o : JS.object) (entry : string * string) :
  In entry (JS.set k v o) -> entry = (k, v) \/ In entry o.
Proof.
  induction o as [| [k' v'] r IH]; simpl.
  - intros [H | []]. now left.
  - destruct (String.eqb_spec k' k) as [-> | Hne]; simpl.
    + intros [H | H]; [now left | right; now right].
    + intros [H | H]; [right; now left |].
      destruct (IH H) as [H' | H']; [now left | right; now right].
Qed.

Lemma sort_insert_In {A} (cmp : A -> A -> Z) (x y : A) (l : list A) :
  In y (JS.sort_insert cmp x l) <-> y = x \/ In y l.
Proof.
  induction l as [| z r IH]; simpl.
  - intuition.
  - destruct (cmp x z <=? 0)%Z; simpl; [intuition |].
    rewrite IH. intuition.
Qed.

Lemma sort_In {A} (cmp : A -> A -> Z) (y : A) (l : list A) :
  In y (JS.sort cmp l) <-> In y l.
Proof.
  induction l as [| x r IH]; simpl; [reflexivity |].
  rewrite sort_insert_In, IH. intuition.
Qed.

Lemma sort_length {A} (cmp : A -> A -> Z) (l : list A) :
  length (JS.sort cmp l) = length l.
Proof.
  induction l as [| x r IH]; simpl; [reflexivity |].
  rewrite <- IH. generalize (JS.sort cmp r). intros s.
  induction s as [| z s IHs]; simpl; [reflexivity |].
  destruct (cmp x z <=? 0)%Z; simpl; [reflexivity | now rewrite IHs].
Qed.

(** ** Text fields *)

(** A text without a carriage return is the value of the text field it is
    put into. *)
Lemma normalizeNewlines_without_CR (s : string) :
  JS.includes JS.CR s = false -> JS.normalizeNewlines s = s.
Proof.
  induction s as [| c r IH]; [reflexivity |].
  intros Hnone. cbn [JS.includes JS.CR String.prefix] in Hnone.
  apply orb_false_iff in Hnone. destruct Hnone as [Hhead Hrest].
  cbn [JS.normalizeNewlines].
  destruct (Nat.eqb_spec (nat_of_ascii c) 13) as [Hcr | _].
  - exfalso. apply (f_equal ascii_of_nat) in Hcr. rewrite ascii_nat_embedding in Hcr.
    subst c. cbn in Hhead. destruct r; discriminate Hhead.
  - now rewrite IH.
Qed.

(** A slice that is long enough keeps the whole string. *)
Lemma utf16_slice_to_all (s : string) :
  forall n, (JS.utf16_length s <= n)%N -> JS.utf16_slice_to n s = s.
Proof.
  induction s as [| c r IH]; intros n Hlength; [reflexivity |].
  cbn [JS.utf16_length] in Hlength. cbn [JS.utf16_slice_to]. cbv zeta.
  destruct (N.leb_spec (JS.utf16_units c) n) as [Hfits | Hlong]; [| lia].
  rewrite IH by lia. reflexivity.
Qed.

(** The selection of the hidden text field is the whole text when that
    has no carriage return and at most 99999 code units. *)
Lemma selection_whole (text : string) :
  JS.includes JS.CR text = false -> (JS.utf16_length text <= 99999)%N ->
  ClipboardManager.selection text = text.
Proof.
  intros Hnone Hshort. unfold ClipboardManager.selection.
  rewrite (normalizeNewlines_without_CR text Hnone). now apply utf16_slice_to_all.
Qed.

(** ** Categorised and copy-formatted styles *)

Lemma isValidCSSValue_eq (P : Platform) (value : string) (w : World) :
  CSSAnalyzer.isValidCSSValue P value w
  = (Normal (JS.truthy value
             && negb (existsb (String.eqb (JS.trim value)) CSSAnalyzer.invalidValues)), w).
Proof.
  unfold CSSAnalyzer.isValidCSSValue, SafeWrapper.execute, bind, ret.
  destruct (JS.truthy value); reflexivity.
Qed.

Lemma categorizeStyles_properties_spec (P : Platform) (computedStyle : JS.object)
    (properties : list string) :
  forall (categoryData : JS.object) (w : World),
    Forall (categorised computedStyle) categoryData ->
    exists categoryData',
      CSSAnalyzer.categorizeStyles_properties P computedStyle properties categoryData w
      = (Normal categoryData', w) /\
      Forall (categorised computedStyle) categoryData'.
Proof.
  induction properties as [| prop rest IH]; intros categoryData w Hdata; simpl.
  - exists categoryData. now split.
  - destruct (JS.get prop computedStyle) as [value |] eqn:Hget; [| now apply IH].
    destruct (JS.truthy value) eqn:Htruthy; [| now apply IH].
    unfold bind. rewrite isValidCSSValue_eq, Htruthy. cbn [andb].
    destruct (existsb (String.eqb (JS.trim value)) CSSAnalyzer.invalidValues) eqn:Hinvalid;
      cbn [negb]; [now apply IH |].
    apply IH. apply List.Forall_forall. intros entry Hentry.
    apply set_In in Hentry. destruct Hentry as [-> | Hentry].
    + split; [exact Hget |]. cbn [snd]. intros Hin.
      apply existsb_eqb_In in Hin. congruence.
    + rewrite List.Forall_forall in Hdata. now apply Hdata.
Qed.

Lemma categorizeStyles_categories_spec (P : Platform) (computedStyle : JS.object)
    (categories : list (string * list string)) :
  forall (categorized : list (string * JS.object)) (w : World),
    Forall (fun category => Forall (categorised computedStyle) (snd category)) categorized ->
    exists categorized',
      CSSAnalyzer.categorizeStyles_categories P computedStyle categories categorized w
      = (Normal categorized', w) /\
      Forall (fun category => Forall (categorised computedStyle) (snd category)) categorized'.
Proof.
  induction categories as [| [category properties] rest IH]; intros categorized w Hall; simpl.
  - exists categorized. now split.
  - destruct (categorizeStyles_properties_spec P computedStyle properties [] w (List.Forall_nil _))
      as [categoryData [Hrun Hdata]].
    unfold bind. rewrite Hrun. apply IH.
    destruct (0 <? length (JS.keys categoryData))%nat; [| exact Hall].
    apply Forall_app. split; [exact Hall |]. constructor; [exact Hdata | constructor].
Qed.

Lemma categorizeStyles_spec (P : Platform) (computedStyle : JS.object) (w : World) :
  exists categorized,
    CSSAnalyzer.categorizeStyles P computedStyle w = (Normal categorized, w) /\
    Forall (fun category => Forall (categorised computedStyle) (snd category)) categorized.
Proof.
  destruct (categorizeStyles_categories_spec P computedStyle CSSAnalyzer.cssCategories [] w
              (List.Forall_nil _)) as [categorized [Hrun Hall]].
  exists categorized. split; [| exact Hall].
  unfold CSSAnalyzer.categorizeStyles, bind.
  now rewrite (execute_Normal P _ _ _ _ _ _ Hrun).
Qed.

Lemma keepDeclaration_true (entry : string * string) :
  ClipboardManager.keepDeclaration entry = true <->
  snd entry <> "" /\
  ~ In (snd entry) ["none"; "auto"; "normal"; "initial"; "0px"; "rgba(0, 0, 0, 0)"].
Proof.
  unfold ClipboardManager.keepDeclaration, JS.truthy. simpl.
  repeat rewrite andb_true_iff. repeat rewrite negb_true_iff.
  repeat rewrite String.eqb_neq. intuition congruence.
Qed.

Lemma sortedDeclarations_In (P : Platform) (styles : JS.object) (entry : string * string) :
  In entry (ClipboardManager.sortedDeclarations P styles) <->
  In entry styles /\ ClipboardManager.keepDeclaration entry = true.
Proof.
  unfold ClipboardManager.sortedDeclarations. now rewrite sort_In, filter_In.
Qed.

Lemma append_assoc (a b c : string) : (a +:+ b) +:+ c = a +:+ b +:+ c.
Proof.
  induction a as [| x a IH]; [reflexivity |].
  change (String x ((a +:+ b) +:+ c) = String x (a +:+ b +:+ c)). now rewrite IH.
Qed.

Lemma generateCSSText_eq (P : Platform) (styles : JS.object) (selector : string) (w : World) :
  ClipboardManager.generateCSSText P styles selector w
  = (Normal match ClipboardManager.sortedDeclarations P styles with
            | [] => ""
            | _ :: _ =>
                (if JS.truthy selector then selector +:+ " {" else "{")
                +:+ JS.LF +:+ JS.join JS.LF (ClipboardManager.cssLines P styles)
                +:+ JS.LF +:+ "}"
            end, w).
Proof.
  unfold ClipboardManager.generateCSSText, SafeWrapper.execute, bind, ret.
  unfold ClipboardManager.cssLines, JS.keys. rewrite !length_map.
  destruct styles as [| entry styles]; [reflexivity |].
  cbn [length Nat.eqb].
  destruct (ClipboardManager.sortedDeclarations P (entry :: styles)) as [| d ds] eqn:Hsorted;
    [reflexivity |].
  cbn [length Nat.eqb].
  destruct (JS.truthy selector); [| reflexivity].
  now rewrite append_assoc.
Qed.

Lemma append_empty (a : string) : a +:+ "" = a.
Proof.
  induction a as [| x a IH]; [reflexivity |].
  change (String x (a +:+ "") = String x a). now rewrite IH.
Qed.

(** A joined array holds each of its elements. *)
Lemma join_In (sep x : string) (l : list string) :
  In x l -> exists before after, JS.join sep l = before +:+ x +:+ after.
Proof.
  induction l as [| y r IH]; [intros [] |].
  intros [-> | Hin].
  - exists "". destruct r as [| z r]; [exists "" | exists (sep +:+ JS.join sep (z :: r))].
    + cbn. now rewrite append_empty.
    + reflexivity.
  - destruct (IH Hin) as [before [after Hjoin]].
    destruct r as [| z r]; [destruct Hin |].
    exists (y +:+ sep +:+ before), after.
    change (JS.join sep (y :: z :: r)) with (y +:+ sep +:+ JS.join sep (z :: r)).
    now rewrite Hjoin, !append_assoc.
Qed.

(** Four of the ten values the categoriser drops are printed by
    [generateCSSText]. *)
Lemma C1_generateCSSText_prints_uninteresting_values :
  (In "transparent" CSSAnalyzer.invalidValues /\ In "inherit" CSSAnalyzer.invalidValues /\
   In "0" CSSAnalyzer.invalidValues /\ In "unset" CSSAnalyzer.invalidValues) /\
  ClipboardManager.generateCSSText Sample.platform
    [("background-color", "transparent"); ("font-family", "inherit");
     ("opacity", "0"); ("width", "unset")] ".box" Sample.world
  = (Normal (".box {" +:+ JS.LF +:+
             "  background-color: transparent;" +:+ JS.LF +:+
             "  font-family: inherit;" +:+ JS.LF +:+
             "  opacity: 0;" +:+ JS.LF +:+
             "  width: unset;" +:+ JS.LF +:+ "}"),
     Sample.world).
Proof.
  split; [| reflexivity].
  unfold CSSAnalyzer.invalidValues. cbn [In]. tauto.
Qed.

(** C1: the two filters differ.  [categorizeStyles] never keeps a property
    whose trimmed value is one of the ten uninteresting values.
    [generateCSSText] keeps exactly the entries whose value is not empty
    and is none of [none], [auto], [normal], [initial], [0px] and
    [rgba(0, 0, 0, 0)]; its text is empty when it keeps no entry and is
    otherwise the block of the kept entries, one line each; so every entry
    whose value is [inherit], [unset], [0] or [transparent] is printed,
    with its line in the text. *)
Theorem C1_uninteresting_values_filtered :
  forall (P : Platform) (computedStyle styles : JS.object) (selector : string) (w : World),
    (exists categorized,
       CSSAnalyzer.categorizeStyles P computedStyle w = (Normal categorized, w) /\
       forall category data prop value,
         In (category, data) categorized -> In (prop, value) data ->
         JS.get prop computedStyle = Some value /\
         ~ In (JS.trim value) CSSAnalyzer.invalidValues) /\
    (exists text,
       ClipboardManager.generateCSSText P styles selector w = (Normal text, w) /\
       text
       = match ClipboardManager.sortedDeclarations P styles with
         | [] => ""
         | _ :: _ =>
             (if JS.truthy selector then selector +:+ " {" else "{")
             +:+ JS.LF
             +:+ JS.join JS.LF
                   (map ClipboardManager.declarationLine
                      (ClipboardManager.sortedDeclarations P styles))
             +:+ JS.LF +:+ "}"
         end /\
       (forall prop value,
           In (prop, value) (ClipboardManager.sortedDeclarations P styles) <->
           In (prop, value) styles /\ value <> "" /\
           ~ In value ["none"; "auto"; "normal"; "initial"; "0px"; "rgba(0, 0, 0, 0)"]) /\
       (forall prop value,
           In (prop, value) styles ->
           In value ["inherit"; "unset"; "0"; "transparent"] ->
           In value CSSAnalyzer.invalidValues /\
           exists before after,
             text = before +:+ "  " +:+ prop +:+ ": " +:+ value +:+ ";" +:+ after)).
Proof.
  intros P computedStyle styles selector w. split.
  - destruct (categorizeStyles_spec P computedStyle w) as [categorized [Hrun Hall]].
    exists categorized. split; [exact Hrun |].
    intros category data prop value Hcategory Hentry.
    rewrite List.Forall_forall in Hall. specialize (Hall _ Hcategory). cbn [snd] in Hall.
    rewrite List.Forall_forall in Hall. exact (Hall _ Hentry).
  - assert (Hkept : forall prop value,
               In (prop, value) (ClipboardManager.sortedDeclarations P styles) <->
               In (prop, value) styles /\ value <> "" /\
               ~ In value ["none"; "auto"; "normal"; "initial"; "0px"; "rgba(0, 0, 0, 0)"])
      by (intros prop value; rewrite sortedDeclarations_In, keepDeclaration_true; reflexivity).
    eexists. split; [apply generateCSSText_eq |]. split; [reflexivity |].
    split; [exact Hkept |].
    intros prop value Hentry Hvalue. split.
    + unfold CSSAnalyzer.invalidValues. cbn [In] in *. tauto.
    + assert (Hin : In (prop, value) (ClipboardManager.sortedDeclarations P styles)).
      { apply Hkept. split; [exact Hentry |].
        cbn [In] in *. destruct Hvalue as [<- | [<- | [<- | [<- | []]]]];
          (split; [discriminate | intuition discriminate]). }
      unfold ClipboardManager.cssLines.
      destruct (join_In JS.LF (ClipboardManager.declarationLine (prop, value))
                  (map ClipboardManager.declarationLine
                     (ClipboardManager.sortedDeclarations P styles))
                  (in_map _ _ _ Hin)) as [before [after Hjoin]].
      destruct (ClipboardManager.sortedDeclarations P styles) as [| d ds]; [destruct Hin |].
      rewrite Hjoin. unfold ClipboardManager.declarationLine. cbn [fst snd].
      exists ((if JS.truthy selector then selector +:+ " {" else "{") +:+ JS.LF +:+ before),
        (after +:+ JS.LF +:+ "}").
      now rewrite !append_assoc.
Qed.

(** ** The clipboard *)

Lemma handleError_clipboard_other (P : Platform) (message errorType : string)
    (context_text : option string) (w : World) :
  errorType <> "CLIPBOARD_WRITE_FAILED" ->
  clipboard (ErrorHandler.handleError P message errorType context_text w) = clipboard w.
Proof.
  intros Hne. unfold ErrorHandler.handleError, ErrorHandler.attemptRecovery.
  destruct (String.eqb_spec errorType "CLIPBOARD_WRITE_FAILED") as [Heq | _]; [contradiction |].
  now destruct (ErrorHandler.maxRetries <=? _)%nat.
Qed.

Lemma handleError_clipboard_write_failed (P : Platform) (message : string) (w : World) :
  clipboard (ErrorHandler.handleError P message "CLIPBOARD_WRITE_FAILED" None w)
  = if (default 0%nat (errorCounts w !! ("CLIPBOARD_WRITE_FAILED_" +:+ message)) <? 3)%nat
    then match document_body P, document_execCommand_copy P "No content to copy." with
         | Some _, Returns true => "No content to copy." :: clipboard w
         | _, _ => clipboard w
         end
    else clipboard w.
Proof.
  unfold ErrorHandler.handleError, ErrorHandler.attemptRecovery, ErrorHandler.maxRetries.
  change ("CLIPBOARD_WRITE_FAILED" +:+ "_" +:+ message)
    with ("CLIPBOARD_WRITE_FAILED_" +:+ message).
  set (count := default 0%nat (errorCounts w !! ("CLIPBOARD_WRITE_FAILED_" +:+ message))).
  change ("CLIPBOARD_WRITE_FAILED" =? "CLIPBOARD_WRITE_FAILED") with true. cbv iota.
  destruct (Nat.leb_spec 3 count) as [Hle | Hlt].
  - apply Nat.ltb_ge in Hle. now rewrite Hle.
  - apply Nat.ltb_lt in Hlt. rewrite Hlt.
    unfold ErrorHandler.recoverClipboardAccess.
    change (JS.normalizeNewlines "No content to copy.") with "No content to copy.".
    destruct (document_body P); [| reflexivity].
    now destruct (document_execCommand_copy P "No content to copy.") as [[|] | ?].
Qed.

Lemma generateAllCSSText_eq (P : Platform) (elementData : CSSInfo) (selector : string) (w : World) :
  ClipboardManager.generateAllCSSText P elementData selector w
  = ClipboardManager.generateCSSText P (ClipboardManager.allStyles elementData) selector w.
Proof.
  unfold ClipboardManager.generateAllCSSText, SafeWrapper.execute, bind, ret.
  now rewrite generateCSSText_eq.
Qed.

Lemma isValidCopyText_eq (P : Platform) (textToCopy selector : string) (w : World) :
  ClipboardManager.isValidCopyText P textToCopy selector w
  = (Normal (JS.truthy textToCopy &&
             negb (JS.trim textToCopy =? "") &&
             negb (textToCopy =? "{}") &&
             negb (textToCopy =? selector +:+ " {" +:+ JS.LF +:+ JS.LF +:+ "}")), w).
Proof. reflexivity. Qed.

(** [performCopy] always answers; when the answer is [true] the clipboard
    has received the text, or its selection in the hidden text field, and
    otherwise nothing. *)
Lemma performCopy_spec (P : Platform) (text : string) (w : World) :
  exists success w',
    ClipboardManager.performCopy P text w = (Normal success, w') /\
    clipboard w'
    = if success : bool then ClipboardManager.copied P text :: clipboard w else clipboard w.
Proof.
  unfold ClipboardManager.performCopy, SafeWrapper.executeAsync, SafeWrapper.execute, bind, ret.
  unfold ClipboardManager.copied.
  destruct (navigator_clipboard_writeText_present P && navigator_clipboard_writeText_resolves P text).
  - exists true. eexists. split; reflexivity.
  - unfold ClipboardManager.performCopy_fallback, bind, throw, call, ret, modify.
    destruct (document_body P).
    + destruct (document_execCommand_copy P (ClipboardManager.selection text))
        as [[|] | message].
      * exists true. eexists. split; reflexivity.
      * exists false. eexists. split; reflexivity.
      * exists false. eexists. split; [reflexivity |].
        now apply handleError_clipboard_other.
    + exists false. eexists. split; [reflexivity |].
      now apply handleError_clipboard_other.
Qed.

(** What is copied: the text through the clipboard API, its selection
    through the fallback, which is the whole text unless that has a
    carriage return or more than 99999 code units. *)
Lemma copied_spec (P : Platform) (text : string) :
  (navigator_clipboard_writeText_present P && navigator_clipboard_writeText_resolves P text
   = true -> ClipboardManager.copied P text = text) /\
  (navigator_clipboard_writeText_present P && navigator_clipboard_writeText_resolves P text
   = false ->
   ClipboardManager.copied P text = JS.utf16_slice_to 99999 (JS.normalizeNewlines text)) /\
  (JS.includes JS.CR text = false -> (JS.utf16_length text <= 99999)%N ->
   ClipboardManager.copied P text = text).
Proof.
  unfold ClipboardManager.copied. split; [| split].
  - now intros ->.
  - now intros ->.
  - intros Hnone Hshort. rewrite (selection_whole text Hnone Hshort).
    now destruct (_ && _).
Qed.

(** A comparator that is total gives a sorted array. *)
Lemma sort_insert_Sorted {A} (cmp : A -> A -> Z) (x : A) (l : list A) :
  (forall a b, (0 < cmp a b)%Z -> (cmp b a <= 0)%Z) ->
  Sorted (fun a b => (cmp a b <= 0)%Z) l ->
  Sorted (fun a b => (cmp a b <= 0)%Z) (JS.sort_insert cmp x l).
Proof.
  intros Htotal. induction l as [| y r IH]; intros Hsorted; simpl.
  - repeat constructor.
  - destruct (Z.leb_spec (cmp x y) 0) as [Hle | Hgt].
    + constructor; [exact Hsorted | now constructor].
    + inversion Hsorted as [| ? ? Hr Hhd]; subst.
      constructor; [now apply IH |].
      destruct r as [| z r']; simpl.
      * constructor. now apply Htotal.
      * destruct (cmp x z <=? 0)%Z; constructor; [now apply Htotal |].
        now inversion Hhd.
Qed.

Lemma sort_Sorted {A} (cmp : A -> A -> Z) (l : list A) :
  (forall a b, (0 < cmp a b)%Z -> (cmp b a <= 0)%Z) ->
  Sorted (fun a b => (cmp a b <= 0)%Z) (JS.sort cmp l).
Proof.
  intros Htotal. induction l as [| x r IH]; simpl; [constructor |].
  now apply sort_insert_Sorted.
Qed.

Lemma compareCodeUnits_total (a b : string) :
  (0 < compareCodeUnits a b)%Z -> (compareCodeUnits b a <= 0)%Z.
Proof.
  unfold compareCodeUnits. rewrite (String.compare_antisym b a).
  destruct (String.compare a b); simpl; lia.
Qed.

(** The selector [copyToClipboard] reads: [elementData.element?.selector || '']. *)
Lemma copyToClipboard_all_eq (P : Platform) (data : CSSInfo) (type : string) (w : World) :
  type = "all" \/ type = "computed" ->
  ClipboardManager.copyToClipboard P (Some data) type w
  = let selector := match info_element data with
                    | Some element => el_selector element
                    | None => ""
                    end in
    let text := match ClipboardManager.sortedDeclarations P (ClipboardManager.allStyles data) with
                | [] => ""
                | _ :: _ =>
                    (if JS.truthy selector then selector +:+ " {" else "{")
                    +:+ JS.LF
                    +:+ JS.join JS.LF (ClipboardManager.cssLines P (ClipboardManager.allStyles data))
                    +:+ JS.LF +:+ "}"
                end in
    if JS.truthy text && negb (JS.trim text =? "") && negb (text =? "{}")
       && negb (text =? selector +:+ " {" +:+ JS.LF +:+ JS.LF +:+ "}")
    then match ClipboardManager.performCopy P text w with
         | (Normal true, w') => (Normal (ClipboardManager.copyTypeName type), w')
         | (Normal false, w') =>
             (Throw "Copy failed.",
              ErrorHandler.handleError P "Copy failed." "CLIPBOARD_WRITE_FAILED" None w')
         | (Throw e, w') =>
             (Throw e, ErrorHandler.handleError P e "CLIPBOARD_WRITE_FAILED" None w')
         | (Diverge, w') => (Diverge, w')
         end
    else (Throw "No CSS content to copy.",
          ErrorHandler.handleError P "No CSS content to copy." "CLIPBOARD_WRITE_FAILED" None w).
Proof.
  intros Htype. cbv zeta.
  unfold ClipboardManager.copyToClipboard, SafeWrapper.executeAsync, SafeWrapper.execute.
  unfold bind at 1.
  assert (Hswitch :
    (if type =? "selector" then ret (match info_element data with
                                     | Some element => el_selector element
                                     | None => ""
                                     end)
     else if (type =? "all") || (type =? "computed")
          then ClipboardManager.generateAllCSSText P data
                 (match info_element data with
                  | Some element => el_selector element
                  | None => ""
                  end)
          else if type =? "inline"
               then ClipboardManager.generateInlineCSSText P data
                      (match info_element data with
                       | Some element => el_selector element
                       | None => ""
                       end)
               else throw "Unknown copy type.")
    = ClipboardManager.generateAllCSSText P data
        (match info_element data with
         | Some element => el_selector element
         | None => ""
         end)) by (destruct Htype as [-> | ->]; reflexivity).
  rewrite Hswitch. unfold bind.
  rewrite generateAllCSSText_eq, generateCSSText_eq, isValidCopyText_eq.
  destruct (JS.truthy _ && _ && _ && _); cbn [negb]; [| reflexivity].
  destruct (ClipboardManager.performCopy P _ w) as [[[|] | e |] w']; reflexivity.
Qed.

(** With an empty selector the copied text is a bare block, without the
    selector and the space of [selector { ... }]. *)
Lemma C8_no_selector_copies_bare_block :
  fst (ClipboardManager.copyToClipboard Sample.platform (Some Sample.info_noSelector) "all"
         Sample.world) = Normal "All CSS" /\
  clipboard (snd (ClipboardManager.copyToClipboard Sample.platform (Some Sample.info_noSelector)
                    "all" Sample.world))
  = ["{" +:+ JS.LF +:+ "  color: red;" +:+ JS.LF +:+ "}"].
Proof. split; reflexivity. Qed.

(** C8, amended: for the modes [all] and [computed], when the copy
    succeeds the text handed to the clipboard is one block: the selector
    and a space when the selector is not empty, then an opening brace, one
    [  prop: value;] line per kept property of the computed styles (of the
    merged categorised styles when there is no computed style), and a
    closing brace; the kept properties are those that pass the filter of
    [generateCSSText], in the order of [localeCompare] on their names
    whenever that comparison is total.  The clipboard API receives the
    block as it is; the fallback copies what the hidden text field has
    selected, the first 99999 code units of the block with every carriage
    return read as a line feed, which is the whole block when it has no
    carriage return and at most 99999 code units. *)
Theorem C8_copied_text_for_all_and_computed :
  forall (P : Platform) (data : CSSInfo) (type label : string) (w w' : World),
    (forall a b, (0 < localeCompare P a b)%Z -> (localeCompare P b a <= 0)%Z) ->
    type = "all" \/ type = "computed" ->
    ClipboardManager.copyToClipboard P (Some data) type w = (Normal label, w') ->
    let selector := match info_element data with
                    | Some element => el_selector element
                    | None => ""
                    end in
    let declarations :=
      ClipboardManager.sortedDeclarations P (ClipboardManager.allStyles data) in
    let block :=
      (if JS.truthy selector then selector +:+ " {" else "{")
      +:+ JS.LF
      +:+ JS.join JS.LF (map ClipboardManager.declarationLine declarations)
      +:+ JS.LF +:+ "}" in
    (exists text,
        clipboard w' = text :: clipboard w /\
        (navigator_clipboard_writeText_present P
         && navigator_clipboard_writeText_resolves P block = true -> text = block) /\
        (navigator_clipboard_writeText_present P
         && navigator_clipboard_writeText_resolves P block = false ->
         text = JS.utf16_slice_to 99999 (JS.normalizeNewlines block)) /\
        (JS.includes JS.CR block = false -> (JS.utf16_length block <= 99999)%N ->
         text = block)) /\
    declarations <> [] /\
    (forall entry,
        In entry declarations <->
        In entry (ClipboardManager.allStyles data) /\
        ClipboardManager.keepDeclaration entry = true) /\
    Sorted (fun a b => (localeCompare P (fst a) (fst b) <= 0)%Z) declarations /\
    label = ClipboardManager.copyTypeName type.
Proof.
  intros P data type label w w' Htotal Htype Hrun selector declarations block.
  rewrite (copyToClipboard_all_eq P data type w Htype) in Hrun. cbv zeta in Hrun.
  fold selector in Hrun. fold declarations in Hrun.
  assert (Hsorted : Sorted (fun a b => (localeCompare P (fst a) (fst b) <= 0)%Z) declarations).
  { unfold declarations, ClipboardManager.sortedDeclarations.
    apply (sort_Sorted (fun a b => localeCompare P (fst a) (fst b))).
    intros a b. apply Htotal. }
  assert (Hin : forall entry,
             In entry declarations <->
             In entry (ClipboardManager.allStyles data) /\
             ClipboardManager.keepDeclaration entry = true)
    by (intros entry; apply sortedDeclarations_In).
  unfold ClipboardManager.cssLines in Hrun. fold declarations in Hrun.
  destruct declarations as [| d ds] eqn:Hdecl.
  - cbn in Hrun. discriminate Hrun.
  - match type of Hrun with
    | (if ?valid then _ else _) = _ => destruct valid; [| discriminate Hrun]
    end.
    match type of Hrun with
    | context [ClipboardManager.performCopy P ?text w] =>
        destruct (performCopy_spec P text w) as [success [w1 [Hcopy Hclip]]];
        rewrite Hcopy in Hrun
    end.
    destruct success; [| discriminate Hrun].
    injection Hrun as Hlabel Hw. subst w1.
    split; [| split; [discriminate | split; [exact Hin |]]].
    + eexists. split; [exact Hclip |]. apply copied_spec.
    + split; [exact Hsorted | now symmetry].
Qed.

(** C8 at the sample page: copying all styles of a result whose only
    computed style is a red colour and whose selector is [#hero]. *)
Lemma C8_copied_text_witness :
  let P := Sample.platform in
  let data := Sample.info_noInline in
  let w' := snd (ClipboardManager.copyToClipboard P (Some data) "all" Sample.world) in
  let declarations := ClipboardManager.sortedDeclarations P (ClipboardManager.allStyles data) in
  let block :=
    ("#hero" +:+ " {") +:+ JS.LF
    +:+ JS.join JS.LF (map ClipboardManager.declarationLine declarations)
    +:+ JS.LF +:+ "}" in
  (exists text,
      clipboard w' = text :: clipboard Sample.world /\
      (navigator_clipboard_writeText_present P
       && navigator_clipboard_writeText_resolves P block = true -> text = block) /\
      (navigator_clipboard_writeText_present P
       && navigator_clipboard_writeText_resolves P block = false ->
       text = JS.utf16_slice_to 99999 (JS.normalizeNewlines block)) /\
      (JS.includes JS.CR block = false -> (JS.utf16_length block <= 99999)%N ->
       text = block)) /\
  declarations <> [] /\
  (forall entry,
      In entry declarations <->
      In entry (ClipboardManager.allStyles data) /\
      ClipboardManager.keepDeclaration entry = true) /\
  Sorted (fun a b => (localeCompare P (fst a) (fst b) <= 0)%Z) declarations /\
  "All CSS" = ClipboardManager.copyTypeName "all".
Proof.
  exact (C8_copied_text_for_all_and_computed Sample.platform Sample.info_noInline "all"
           "All CSS" Sample.world
           (snd (ClipboardManager.copyToClipboard Sample.platform (Some Sample.info_noInline)
                   "all" Sample.world))
           compareCodeUnits_total (or_introl eq_refl) eq_refl).
Defined.

(** ** Copies that are refused *)

Lemma handleError_errorCounts (P : Platform) (message errorType : string)
    (context_text : option string) (w : World) :
  errorCounts (ErrorHandler.handleError P message errorType context_text w)
  = <[errorType +:+ "_" +:+ message :=
        (default 0%nat (errorCounts w !! (errorType +:+ "_" +:+ message)) + 1)%nat]>
      (errorCounts w).
Proof.
  unfold ErrorHandler.handleError, ErrorHandler.attemptRecovery,
    ErrorHandler.recoverClipboardAccess.
  destruct (ErrorHandler.maxRetries <=? _)%nat; [reflexivity |].
  destruct (errorType =? "CLIPBOARD_WRITE_FAILED"); [| reflexivity].
  destruct (document_body P); [| reflexivity].
  now destruct (document_execCommand_copy P _) as [[|] | ?].
Qed.

(** C4 on the code: with no inline style, [copyToClipboard(result, 'inline')]
    rejects with [No inline styles found.] and never reaches [performCopy];
    but the handler of the rejection runs [recoverClipboardAccess], which
    copies the text [No content to copy.] unless the same error was already
    counted three times, the body is missing or the copy command fails. *)
Theorem C4_copy_inline_without_inline_styles :
  forall (P : Platform) (data : CSSInfo) (w : World),
    info_inline data = [] ->
    exists w',
      ClipboardManager.copyToClipboard P (Some data) "inline" w
      = (Throw "No inline styles found.", w') /\
      clipboard w'
      = if (default 0%nat (errorCounts w !! "CLIPBOARD_WRITE_FAILED_No inline styles found.")
            <? 3)%nat
        then match document_body P, document_execCommand_copy P "No content to copy." with
             | Some _, Returns true => "No content to copy." :: clipboard w
             | _, _ => clipboard w
             end
        else clipboard w.
Proof.
  intros P data w Hinline.
  unfold ClipboardManager.copyToClipboard, SafeWrapper.executeAsync, SafeWrapper.execute.
  unfold bind at 1.
  change ("inline" =? "selector") with false.
  change (("inline" =? "all") || ("inline" =? "computed")) with false.
  change ("inline" =? "inline") with true. cbv iota.
  unfold bind at 1.
  unfold ClipboardManager.generateInlineCSSText, SafeWrapper.execute, bind, throw.
  rewrite Hinline. cbn [JS.keys map length Nat.eqb].
  eexists. split; [reflexivity |].
  rewrite handleError_clipboard_write_failed.
  rewrite (handleError_clipboard_other P _ "INLINE_CSS_GENERATION_ERROR") by discriminate.
  rewrite handleError_errorCounts.
  change ("INLINE_CSS_GENERATION_ERROR" +:+ "_" +:+ "No inline styles found.")
    with "INLINE_CSS_GENERATION_ERROR_No inline styles found.".
  change ("CLIPBOARD_WRITE_FAILED_" +:+ "No inline styles found.")
    with "CLIPBOARD_WRITE_FAILED_No inline styles found.".
  now rewrite lookup_insert_ne.
Qed.

(** C4 at the sample page: the first refused copy of inline styles leaves
    the placeholder text on the clipboard. *)
Lemma C4_placeholder_copied_at_sample :
  exists w',
    ClipboardManager.copyToClipboard Sample.platform (Some Sample.info_noInline) "inline"
      Sample.world
    = (Throw "No inline styles found.", w') /\
    clipboard Sample.world = [] /\
    clipboard w' = ["No content to copy."].
Proof.
  destruct (C4_copy_inline_without_inline_styles Sample.platform Sample.info_noInline
              Sample.world eq_refl) as [w' [Hrun Hclipboard]].
  exists w'. split; [exact Hrun |]. split; [reflexivity |].
  rewrite Hclipboard. reflexivity.
Defined.

(** C10 on the code: a mode that is none of [selector], [all], [computed]
    and [inline] makes [copyToClipboard] reject with [Unknown copy type.]
    before [performCopy]; the handler of the rejection then copies the text
    [No content to copy.] unless the same error was already counted three
    times, the body is missing or the copy command fails. *)
Theorem C10_copy_with_unknown_type :
  forall (P : Platform) (data : CSSInfo) (type : string) (w : World),
    type <> "selector" -> type <> "all" -> type <> "computed" -> type <> "inline" ->
    exists w',
      ClipboardManager.copyToClipboard P (Some data) type w
      = (Throw "Unknown copy type.", w') /\
      clipboard w'
      = if (default 0%nat (errorCounts w !! "CLIPBOARD_WRITE_FAILED_Unknown copy type.")
            <? 3)%nat
        then match document_body P, document_execCommand_copy P "No content to copy." with
             | Some _, Returns true => "No content to copy." :: clipboard w
             | _, _ => clipboard w
             end
        else clipboard w.
Proof.
  intros P data type w Hselector Hall Hcomputed Hinline.
  unfold ClipboardManager.copyToClipboard, SafeWrapper.executeAsync, SafeWrapper.execute.
  unfold bind at 1.
  apply String.eqb_neq in Hselector, Hall, Hcomputed, Hinline.
  rewrite Hselector, Hall, Hcomputed, Hinline. cbn [orb].
  unfold bind, throw.
  eexists. split; [reflexivity |].
  apply handleError_clipboard_write_failed.
Qed.

(** C10 at the sample page: the first copy with the mode [html] leaves the
    placeholder text on the clipboard. *)
Lemma C10_placeholder_copied_at_sample :
  exists w',
    ClipboardManager.copyToClipboard Sample.platform (Some Sample.info_noInline) "html"
      Sample.world
    = (Throw "Unknown copy type.", w') /\
    clipboard Sample.world = [] /\
    clipboard w' = ["No content to copy."].
Proof.
  destruct (C10_copy_with_unknown_type Sample.platform Sample.info_noInline "html"
              Sample.world) as [w' [Hrun Hclipboard]]; try discriminate.
  exists w'. split; [exact Hrun |]. split; [reflexivity |].
  rewrite Hclipboard. reflexivity.
Defined.

(** ** States that differ in the error counts *)

Lemma sameButErrorCounts_refl (w : World) : sameButErrorCounts w w.
Proof. exists (errorCounts w). now destruct w. Qed.

Lemma sameButErrorCounts_trans (w1 w2 w3 : World) :
  sameButErrorCounts w1 w2 -> sameButErrorCounts w2 w3 -> sameButErrorCounts w1 w3.
Proof. intros [c1 ->] [c2 ->]. now exists c2. Qed.

Lemma handleError_sameButErrorCounts (P : Platform) (message errorType : string)
    (context_text : option string) (w : World) :
  errorType <> "CLIPBOARD_WRITE_FAILED" ->
  sameButErrorCounts w (ErrorHandler.handleError P message errorType context_text w).
Proof.
  intros Hne. unfold ErrorHandler.handleError, ErrorHandler.attemptRecovery.
  destruct (String.eqb_spec errorType "CLIPBOARD_WRITE_FAILED") as [Heq | _]; [contradiction |].
  destruct (ErrorHandler.maxRetries <=? _)%nat; eexists; reflexivity.
Qed.

(** ** Selectors *)

Lemma pathLoop_selfAndAncestors (P : Platform) (n : nat) :
  forall (current : option Element) (path : list string),
    StyleCache.pathLoop P n current path
    = (map StyleCache.pathStep (rev (selfAndAncestors P n current)) ++ path)%list.
Proof.
  induction n as [| n IH]; intros current path; simpl; [reflexivity |].
  destruct current as [c |]; [| reflexivity].
  destruct (StyleCache.isDocumentBody P c); [reflexivity |].
  rewrite IH. simpl. rewrite map_app, <- app_assoc. reflexivity.
Qed.

Lemma selfAndAncestors_length (P : Platform) (n : nat) (current : option Element) :
  (length (selfAndAncestors P n current) <= n)%nat.
Proof.
  revert current. induction n as [| n IH]; intros current; simpl; [lia |].
  destruct current as [c |]; simpl; [| lia].
  destruct (StyleCache.isDocumentBody P c); simpl; [lia |].
  specialize (IH (parentElement c)). lia.
Qed.

Lemma generateOptimizedSelector_eq (P : Platform) (e : Element) (w : World) :
  StyleCache.generateOptimizedSelector P (Some e) w
  = if StyleCache.isDocumentBody P e then (Normal "body", w)
    else if JS.truthy (id e) then (Normal ("#" +:+ id e), w)
    else match className e with
         | ClassName_string name =>
             (Normal match StyleCache.classSelector P name with
                     | Some selector => selector
                     | None =>
                         let steps :=
                           map StyleCache.pathStep (rev (selfAndAncestors P 3 (Some e))) in
                         if JS.truthy (JS.join " > " steps) then JS.join " > " steps
                         else if JS.truthy (JS.toLowerCase (tagName e))
                              then JS.toLowerCase (tagName e)
                              else "unknown"
                     end, w)
         | ClassName_animated _ =>
             (Normal "unknown",
              ErrorHandler.handleError P "element.className.split is not a function"
                "SELECTOR_GENERATION_ERROR" None w)
         end.
Proof.
  unfold StyleCache.generateOptimizedSelector.
  destruct (StyleCache.isDocumentBody P e); [reflexivity |].
  unfold SafeWrapper.execute, bind, ret.
  destruct (JS.truthy (id e)); [reflexivity |].
  destruct (className e) as [name | baseVal]; [| reflexivity].
  cbn [StyleCache.classSelector_of]. unfold ret.
  destruct (StyleCache.classSelector P name); [reflexivity |].
  rewrite pathLoop_selfAndAncestors, app_nil_r. reflexivity.
Qed.

(** [generateOptimizedSelector] always answers; it changes nothing but,
    on an element whose [className] is an object, the error counts. *)
Lemma generateOptimizedSelector_returns (P : Platform) (e : Element) (w : World) :
  exists selector w',
    StyleCache.generateOptimizedSelector P (Some e) w = (Normal selector, w') /\
    sameButErrorCounts w w' /\
    (forall name, className e = ClassName_string name -> w' = w).
Proof.
  rewrite generateOptimizedSelector_eq.
  destruct (StyleCache.isDocumentBody P e);
    [eexists; eexists; split; [reflexivity | split; [apply sameButErrorCounts_refl | reflexivity]] |].
  destruct (JS.truthy (id e));
    [eexists; eexists; split; [reflexivity | split; [apply sameButErrorCounts_refl | reflexivity]] |].
  destruct (className e) as [name | baseVal].
  - eexists; eexists. split; [reflexivity |].
    split; [apply sameButErrorCounts_refl | reflexivity].
  - eexists; eexists. split; [reflexivity |].
    split; [now apply handleError_sameButErrorCounts | discriminate].
Qed.

Lemma truthy_true (s : string) : JS.truthy s = true <-> s <> "".
Proof. unfold JS.truthy. now rewrite negb_true_iff, String.eqb_neq. Qed.

Lemma truthy_false (s : string) : JS.truthy s = false <-> s = "".
Proof. unfold JS.truthy. now rewrite negb_false_iff, String.eqb_eq. Qed.

(** The classes of the compound selector, spelled out: of the pieces
    between the spaces of [className], those that are not empty and do not
    contain [css-scanner], the first three. *)
Lemma classes_eq (name : string) :
  StyleCache.classes name
  = firstn 3
      (List.filter (fun cls => negb (cls =? "") && negb (JS.includes "css-scanner" cls))
         (JS.split " " name)).
Proof. reflexivity. Qed.

(** No class survives an empty [className]. *)
Lemma classes_empty_className : StyleCache.classes "" = [].
Proof. reflexivity. Qed.

Lemma firstn_nil_iff {A} (l : list A) : firstn 3 l = [] <-> l = [].
Proof. destruct l; cbn; split; intros H; try reflexivity; discriminate H. Qed.

Lemma classSelector_accepts (P : Platform) (name : string) (matches : nat) :
  StyleCache.classes name <> [] ->
  document_querySelectorAll_length P ("." +:+ JS.join "." (StyleCache.classes name))
  = Returns matches ->
  (matches <= 5)%nat ->
  StyleCache.classSelector P name = Some ("." +:+ JS.join "." (StyleCache.classes name)).
Proof.
  intros Hclasses Hquery Hfew. unfold StyleCache.classSelector.
  destruct (JS.truthy name) eqn:Hname.
  - destruct (StyleCache.classes name) as [| cls rest] eqn:Heq; [contradiction |].
    cbn [length Nat.ltb Nat.leb]. rewrite Hquery.
    apply Nat.leb_le in Hfew. now rewrite Hfew.
  - apply truthy_false in Hname. subst name. now contradiction Hclasses.
Qed.

Lemma classSelector_falls_through (P : Platform) (name : string) :
  StyleCache.classes name = [] \/
  (exists message,
      document_querySelectorAll_length P ("." +:+ JS.join "." (StyleCache.classes name))
      = Throws message) \/
  (exists matches,
      document_querySelectorAll_length P ("." +:+ JS.join "." (StyleCache.classes name))
      = Returns matches /\ (5 < matches)%nat) ->
  StyleCache.classSelector P name = None.
Proof.
  intros Hcase. unfold StyleCache.classSelector.
  destruct (JS.truthy name); [| reflexivity].
  destruct (StyleCache.classes name) as [| cls rest] eqn:Heq; [reflexivity |].
  cbn [length Nat.ltb Nat.leb].
  destruct Hcase as [Hnil | [[message Hthrows] | [matches [Hquery Hmany]]]].
  - discriminate Hnil.
  - now rewrite Hthrows.
  - rewrite Hquery. apply Nat.leb_gt in Hmany. now rewrite Hmany.
Qed.

Lemma pathStep_spec (c : Element) :
  (forall siblings,
      parentNode_children c = Some siblings ->
      (2 <= length siblings <= 10)%nat ->
      StyleCache.pathStep c
      = JS.toLowerCase (tagName c) +:+ ":nth-child(" +:+
        JS.toString (JS.array_indexOf (handle c) siblings + 1) +:+ ")") /\
  (parentNode_children c = None \/
   (exists siblings,
       parentNode_children c = Some siblings /\
       (length siblings < 2 \/ 10 < length siblings)%nat) ->
   StyleCache.pathStep c = JS.toLowerCase (tagName c)).
Proof.
  unfold StyleCache.pathStep. split.
  - intros siblings Hparent [Hlow Hhigh]. rewrite Hparent.
    apply Nat.ltb_lt in Hlow. apply Nat.leb_le in Hhigh. now rewrite Hlow, Hhigh.
  - intros [Hnone | [siblings [Hparent Hrange]]]; [now rewrite Hnone |].
    rewrite Hparent.
    destruct (Nat.ltb_spec 1 (length siblings)) as [Hlow | Hlow];
      destruct (Nat.leb_spec (length siblings) 10) as [Hhigh | Hhigh];
      cbn [andb]; try reflexivity; lia.
Qed.

(** C2: what [generateOptimizedSelector] returns for an element, in this
    order of priority.  [body] for the document body; [#id] when the
    element has an id.  Then, for an element whose [className] is a string
    (an HTML element): the compound selector of its first non-internal
    classes (of the pieces between the spaces of [className], those that
    are not empty and do not contain [css-scanner], the first three) when
    there is one and it matches at most 5 elements; otherwise the path of
    the element and its ancestors below the body (at most 3 steps,
    outermost first, joined with [ > ]), each step the lower-case tag name,
    followed by [:nth-child(n)] exactly when the parent has between 2 and
    10 children; and the lower-case tag name or [unknown] should that path
    be empty.  None of this changes the state.  But for an element whose
    [className] is an object (an SVG element) and that has no id, the call
    of [split] throws, the error is counted, and the answer is [unknown],
    whatever its classes and its place in the document. *)
Theorem C2_generateOptimizedSelector_priority :
  forall (P : Platform) (e : Element) (w : World),
    exists selector w',
      StyleCache.generateOptimizedSelector P (Some e) w = (Normal selector, w') /\
      (StyleCache.isDocumentBody P e = true -> selector = "body" /\ w' = w) /\
      (StyleCache.isDocumentBody P e = false -> id e <> "" ->
       selector = "#" +:+ id e /\ w' = w) /\
      (forall name,
          StyleCache.isDocumentBody P e = false -> id e = "" ->
          className e = ClassName_string name ->
          let classes :=
            firstn 3
              (List.filter
                 (fun cls => negb (cls =? "") && negb (JS.includes "css-scanner" cls))
                 (JS.split " " name)) in
          let steps := map StyleCache.pathStep (rev (selfAndAncestors P 3 (Some e))) in
          w' = w /\
          (forall matches,
              classes <> [] ->
              document_querySelectorAll_length P ("." +:+ JS.join "." classes)
              = Returns matches ->
              (matches <= 5)%nat ->
              selector = "." +:+ JS.join "." classes) /\
          (classes = [] \/
           (exists message,
               document_querySelectorAll_length P ("." +:+ JS.join "." classes)
               = Throws message) \/
           (exists matches,
               document_querySelectorAll_length P ("." +:+ JS.join "." classes)
               = Returns matches /\ (5 < matches)%nat) ->
           (1 <= length steps <= 3)%nat /\
           selector = if JS.truthy (JS.join " > " steps) then JS.join " > " steps
                      else if JS.truthy (JS.toLowerCase (tagName e))
                           then JS.toLowerCase (tagName e)
                           else "unknown")) /\
      (forall baseVal,
          StyleCache.isDocumentBody P e = false -> id e = "" ->
          className e = ClassName_animated baseVal ->
          selector = "unknown" /\
          sameButErrorCounts w w' /\
          errorCounts w'
          = <["SELECTOR_GENERATION_ERROR_element.className.split is not a function" :=
                (default 0%nat
                   (errorCounts w
                    !! "SELECTOR_GENERATION_ERROR_element.className.split is not a function")
                 + 1)%nat]> (errorCounts w)) /\
      (forall c,
          (forall siblings,
              parentNode_children c = Some siblings ->
              (2 <= length siblings <= 10)%nat ->
              StyleCache.pathStep c
              = JS.toLowerCase (tagName c) +:+ ":nth-child(" +:+
                JS.toString (JS.array_indexOf (handle c) siblings + 1) +:+ ")") /\
          (parentNode_children c = None \/
           (exists siblings,
               parentNode_children c = Some siblings /\
               (length siblings < 2 \/ 10 < length siblings)%nat) ->
           StyleCache.pathStep c = JS.toLowerCase (tagName c))).
Proof.
  intros P e w.
  pose proof (generateOptimizedSelector_eq P e w) as Hrun.
  destruct (StyleCache.isDocumentBody P e) eqn:Hbody.
  { exists "body", w. split; [exact Hrun |].
    split; [now split |]. split; [discriminate |].
    split; [discriminate |]. split; [discriminate |].
    intros c. apply pathStep_spec. }
  destruct (JS.truthy (id e)) eqn:Hid.
  { exists ("#" +:+ id e), w. split; [exact Hrun |].
    apply truthy_true in Hid.
    split; [discriminate |]. split; [now split |].
    split; [intros name _ Hnone; contradiction |].
    split; [intros baseVal _ Hnone; contradiction |].
    intros c. apply pathStep_spec. }
  apply truthy_false in Hid.
  destruct (className e) as [name | baseVal] eqn:Hname.
  - eexists. exists w. split; [exact Hrun |].
    split; [discriminate |]. split; [intros _ Hsome; contradiction |].
    split; [| split; [discriminate | intros c; apply pathStep_spec]].
    intros name' _ _ Hname' classes steps. injection Hname' as <-.
    change classes with (StyleCache.classes name).
    split; [reflexivity |]. split.
    + intros matches Hclasses Hquery Hfew.
      now rewrite (classSelector_accepts P name matches Hclasses Hquery Hfew).
    + intros Hcase. rewrite (classSelector_falls_through P name Hcase).
      split; [| reflexivity].
      unfold steps. rewrite length_map, length_rev. split.
      * cbn [selfAndAncestors]. rewrite Hbody. cbn [length]. lia.
      * apply selfAndAncestors_length.
  - exists "unknown". eexists. split; [exact Hrun |].
    split; [discriminate |]. split; [intros _ Hsome; contradiction |].
    split; [discriminate |].
    split; [| intros c; apply pathStep_spec].
    intros baseVal' _ _ _. split; [reflexivity |]. split.
    + now apply handleError_sameButErrorCounts.
    + apply handleError_errorCounts.
Qed.

(** C2 at the sample page: a [span], only child of a [section] that is the
    third of three children of the body, with no id and no class, gets the
    path of two steps; the [section], of classes [card],
    [css-scanner-highlight] and [wide], gets [.card.wide]; and the [svg]
    with the class [icon] inside [hero] gets [unknown]. *)
Lemma C2_selectors_at_sample :
  (exists selector,
      StyleCache.generateOptimizedSelector Sample.platform (Some Sample.label) Sample.world
      = (Normal selector, Sample.world) /\
      selector = "section:nth-child(3) > span") /\
  (exists selector,
      StyleCache.generateOptimizedSelector Sample.platform (Some Sample.card) Sample.world
      = (Normal selector, Sample.world) /\
      selector = ".card.wide") /\
  (exists w',
      StyleCache.generateOptimizedSelector Sample.platform (Some Sample.icon) Sample.world
      = (Normal "unknown", w') /\
      errorCounts w'
      = {["SELECTOR_GENERATION_ERROR_element.className.split is not a function" := 1%nat]}).
Proof.
  split; [| split].
  - destruct (C2_generateOptimizedSelector_priority Sample.platform Sample.label Sample.world)
      as [selector [w' [Hrun [_ [_ [Hhtml _]]]]]].
    destruct (Hhtml "" eq_refl eq_refl eq_refl) as [Hsame [_ Hpath]].
    subst w'. exists selector. split; [exact Hrun |].
    destruct (Hpath (or_introl eq_refl)) as [_ Hselector]. exact Hselector.
  - destruct (C2_generateOptimizedSelector_priority Sample.platform Sample.card Sample.world)
      as [selector [w' [Hrun [_ [_ [Hhtml _]]]]]].
    destruct (Hhtml "card css-scanner-highlight wide" eq_refl eq_refl eq_refl)
      as [Hsame [Hclass _]].
    subst w'. exists selector. split; [exact Hrun |].
    apply (Hclass 2%nat); [discriminate | reflexivity | lia].
  - destruct (C2_generateOptimizedSelector_priority Sample.platform Sample.icon Sample.world)
      as [selector [w' [Hrun [_ [_ [_ [Hsvg _]]]]]]].
    destruct (Hsvg "icon" eq_refl eq_refl eq_refl) as [Hselector [_ Hcounts]].
    subst selector. exists w'. split; [exact Hrun |].
    rewrite Hcounts. reflexivity.
Defined.

(** [getSelector(null)] does not give [body]: the selector cache refuses a
    [null] key, the wrapper catches the [TypeError]. *)
Lemma C9_getSelector_null_is_unknown :
  fst (StyleCache.getSelector Sample.platform None Sample.world) = Normal "unknown".
Proof. reflexivity. Qed.

(** C9, amended: [generateOptimizedSelector] returns [body] for the document
    body and for [null] or [undefined]; [getSelector] returns [body] for the
    document body (here: not yet cached) and [unknown] for [null] or
    [undefined]. *)
Theorem C9_body_selector :
  forall (P : Platform) (w : World),
    StyleCache.generateOptimizedSelector P None w = (Normal "body", w) /\
    (forall e, StyleCache.isDocumentBody P e = true ->
               StyleCache.generateOptimizedSelector P (Some e) w = (Normal "body", w)) /\
    fst (StyleCache.getSelector P None w) = Normal "unknown" /\
    (forall e, StyleCache.isDocumentBody P e = true ->
               selectorCache w !! handle e = None ->
               StyleCache.getSelector P (Some e) w
               = (Normal "body", set_selectorCache (insert (handle e) "body") w)).
Proof.
  intros P w. split; [reflexivity |]. split; [| split].
  - intros e Hbody. rewrite generateOptimizedSelector_eq. now rewrite Hbody.
  - reflexivity.
  - intros e Hbody Hmiss.
    unfold StyleCache.getSelector, SafeWrapper.execute.
    unfold bind at 1. unfold bind at 1. unfold gets, StyleCache.weak_get.
    rewrite Hmiss. unfold bind at 1.
    rewrite generateOptimizedSelector_eq, Hbody. reflexivity.
Qed.

(** C9 at the sample page: the body element, not yet cached. *)
Lemma C9_body_selector_at_sample :
  StyleCache.getSelector Sample.platform (Some Sample.body) Sample.world
  = (Normal "body", set_selectorCache (insert (handle Sample.body) "body") Sample.world).
Proof.
  exact (proj2 (proj2 (proj2 (C9_body_selector Sample.platform Sample.world)))
           Sample.body eq_refl eq_refl).
Defined.

(** ** The style cache *)

Lemma cacheImportantProperties_forEach_spec (P : Platform)
    (computedStyle : string -> Outcome string) (props : list string) :
  forall (cached : JS.object) (w : World),
    exists w',
      StyleCache.cacheImportantProperties_forEach P computedStyle props cached w
      = (Normal
           (fold_left
              (fun cached prop =>
                 match computedStyle prop with
                 | Returns data => if JS.truthy data then JS.set prop data cached else cached
                 | Throws _ => cached
                 end)
              props cached), w') /\
      sameButErrorCounts w w'.
Proof.
  induction props as [| prop rest IH]; intros cached w.
  - exists w. split; [reflexivity | apply sameButErrorCounts_refl].
  - cbn [StyleCache.cacheImportantProperties_forEach fold_left].
    unfold bind, SafeWrapper.execute, call.
    destruct (computedStyle prop) as [data | message].
    + unfold ret. apply IH.
    + unfold throw.
      destruct (IH cached
                  (ErrorHandler.handleError P message "STYLE_PROPERTY_ACCESS_ERROR" None w))
        as [w' [Hrun Hsame]].
      exists w'. split; [exact Hrun |].
      eapply sameButErrorCounts_trans; [| exact Hsame].
      now apply handleError_sameButErrorCounts.
Qed.

Lemma cacheImportantProperties_spec (P : Platform) (computedStyle : string -> Outcome string)
    (w : World) :
  exists w',
    StyleCache.cacheImportantProperties P computedStyle w = (Normal (snapshotOf computedStyle), w')
    /\ sameButErrorCounts w w'.
Proof. apply cacheImportantProperties_forEach_spec. Qed.

Lemma execute_cases {A} (P : Platform) (fn : M A) (errorType : string)
    (context_text : option string) (w : World) :
  (exists r w', SafeWrapper.execute P fn errorType context_text w = (Normal r, w')) \/
  (exists w', SafeWrapper.execute P fn errorType context_text w = (Diverge, w')).
Proof.
  unfold SafeWrapper.execute.
  destruct (fn w) as [[a | message |] w']; [left | left | right]; eexists; try eexists;
    reflexivity.
Qed.

(** [getComputedStyle] never lets an error out. *)
Lemma getComputedStyle_no_throw (P : Platform) (fuel : nat) (element : option Element)
    (w : World) :
  (exists data w', StyleCache.getComputedStyle P fuel element w = (Normal data, w')) \/
  (exists w', StyleCache.getComputedStyle P fuel element w = (Diverge, w')).
Proof.
  destruct fuel as [| fuel]; [right; now exists w |].
  cbn [StyleCache.getComputedStyle].
  match goal with
  | |- context [SafeWrapper.execute P ?fn ?errorType ?context] =>
      destruct (execute_cases P fn errorType context w) as [[r [w' Hrun]] | [w' Hrun]]
  end.
  - left. unfold bind at 1. rewrite Hrun. eexists; eexists; reflexivity.
  - right. unfold bind at 1. rewrite Hrun. eexists; reflexivity.
Qed.

(** A fresh enough entry is returned as it is: one clock reading, no
    platform read, the cache untouched. *)
Lemma getComputedStyle_hit (P : Platform) (fuel : nat) (e : Element) (entry : CacheEntry)
    (w : World) :
  cache w !! handle e = Some entry ->
  (Date_now_at P (dateNowCalls w) - entry_timestamp entry <= StyleCache.maxCacheAge)%Z ->
  StyleCache.getComputedStyle P (S fuel) (Some e) w
  = (Normal (entry_style entry), set_dateNowCalls S w).
Proof.
  intros Hentry Hage.
  cbn [StyleCache.getComputedStyle]. unfold bind at 1. unfold SafeWrapper.execute.
  unfold bind at 1. unfold bind at 1. unfold gets, StyleCache.weak_get.
  rewrite Hentry. unfold ret at 1. unfold bind at 1. unfold StyleCache.Date_now at 1.
  destruct (Z.gtb_spec (Date_now_at P (dateNowCalls w) - entry_timestamp entry)
              StyleCache.maxCacheAge) as [Hgt | _]; [lia |].
  reflexivity.
Qed.

(** A stale entry is dropped and the method starts over. *)
Lemma getComputedStyle_stale (P : Platform) (fuel : nat) (e : Element) (entry : CacheEntry)
    (w : World) :
  cache w !! handle e = Some entry ->
  (Date_now_at P (dateNowCalls w) - entry_timestamp entry > StyleCache.maxCacheAge)%Z ->
  StyleCache.getComputedStyle P (S fuel) (Some e) w
  = StyleCache.getComputedStyle P fuel (Some e)
      (set_cache (delete (handle e)) (set_dateNowCalls S w)).
Proof.
  intros Hentry Hage.
  cbn [StyleCache.getComputedStyle]. unfold bind at 1. unfold SafeWrapper.execute.
  unfold bind at 1. unfold bind at 1. unfold gets, StyleCache.weak_get.
  rewrite Hentry. unfold ret at 1. unfold bind at 1. unfold StyleCache.Date_now at 1.
  destruct (Z.gtb_spec (Date_now_at P (dateNowCalls w) - entry_timestamp entry)
              StyleCache.maxCacheAge) as [_ | Hle]; [| lia].
  unfold bind at 1. unfold StyleCache.cache_delete, modify.
  destruct (getComputedStyle_no_throw P fuel (Some e)
              (set_cache (delete (handle e)) (set_dateNowCalls S w)))
    as [[data [w' Hrun]] | [w' Hrun]]; rewrite Hrun; reflexivity.
Qed.

(** Without an entry the platform is read once, the snapshot is stored with
    the time of the next clock reading and returned, provided the clock
    reading after that is within the maximum age of it. *)
Lemma getComputedStyle_miss (P : Platform) (fuel : nat) (e : Element)
    (computedStyle : string -> Outcome string) (w : World) :
  cache w !! handle e = None ->
  window_getComputedStyle_at P (getComputedStyleCalls w) e = Returns computedStyle ->
  (Date_now_at P (S (dateNowCalls w)) - Date_now_at P (dateNowCalls w)
   <= StyleCache.maxCacheAge)%Z ->
  exists w',
    StyleCache.getComputedStyle P (S fuel) (Some e) w
    = (Normal (snapshotOf computedStyle), w') /\
    getComputedStyleCalls w' = S (getComputedStyleCalls w) /\
    dateNowCalls w' = S (S (dateNowCalls w)) /\
    cache w'
    = <[handle e := mkCacheEntry (snapshotOf computedStyle) (Date_now_at P (dateNowCalls w))]>
        (cache w).
Proof.
  intros Hmiss Hread Hage.
  destruct (cacheImportantProperties_spec P computedStyle (set_getComputedStyleCalls S w))
    as [w0 [Hsnapshot [counts Hw0]]].
  cbn [StyleCache.getComputedStyle]. unfold bind at 1. unfold SafeWrapper.execute.
  unfold bind at 1. unfold bind at 1. unfold gets, StyleCache.weak_get.
  rewrite Hmiss. unfold bind at 1.
  unfold StyleCache.window_getComputedStyle. rewrite Hread.
  unfold bind at 1. rewrite Hsnapshot.
  unfold bind at 1. unfold StyleCache.Date_now at 1.
  unfold bind at 1. unfold StyleCache.cache_set, modify, ret.
  unfold bind at 1. unfold StyleCache.Date_now at 1.
  subst w0. cbn [dateNowCalls set_dateNowCalls set_cache set_errorCounts
                  set_getComputedStyleCalls entry_timestamp].
  destruct (Z.gtb_spec (Date_now_at P (S (dateNowCalls w)) - Date_now_at P (dateNowCalls w))
              StyleCache.maxCacheAge) as [Hgt | _]; [lia |].
  eexists. split; [reflexivity |]. repeat split.
Qed.

(** Without an entry, a platform read that throws gives the empty mapping
    and stores nothing. *)
Lemma getComputedStyle_miss_throws (P : Platform) (fuel : nat) (e : Element)
    (message : string) (w : World) :
  cache w !! handle e = None ->
  window_getComputedStyle_at P (getComputedStyleCalls w) e = Throws message ->
  exists w',
    StyleCache.getComputedStyle P (S fuel) (Some e) w = (Normal [], w') /\
    getComputedStyleCalls w' = S (getComputedStyleCalls w) /\
    cache w' = cache w.
Proof.
  intros Hmiss Hread.
  cbn [StyleCache.getComputedStyle]. unfold bind at 1. unfold SafeWrapper.execute.
  unfold bind at 1. unfold bind at 1. unfold gets, StyleCache.weak_get.
  rewrite Hmiss. unfold bind at 1.
  unfold StyleCache.window_getComputedStyle. rewrite Hread.
  eexists. split; [reflexivity |].
  destruct (handleError_sameButErrorCounts P message "STYLE_CACHE_ERROR" None
              (set_getComputedStyleCalls S w)) as [counts Hsame]; [discriminate |].
  rewrite Hsame. split; reflexivity.
Qed.

(** C3: a first lookup that finds no entry reads the computed style once
    and stores the snapshot with the clock reading taken at that moment; any
    later lookup that still finds this entry and reads a clock at most 30000
    ms past that time returns the same snapshot without reading the computed
    style and without touching the cache.  A lookup that finds an entry more
    than 30000 ms old never returns it: the entry is deleted, the computed
    style is read again, and the new snapshot is stored and returned (the
    empty mapping is returned, and nothing stored, when that read throws).
    The lookups return as soon as two clock readings taken in a row inside
    one lookup are at most 30000 ms apart. *)
Theorem C3_snapshot_cache_age :
  forall (P : Platform) (e : Element) (fuel : nat) (w : World),
    (forall computedStyle,
        cache w !! handle e = None ->
        window_getComputedStyle_at P (getComputedStyleCalls w) e = Returns computedStyle ->
        (Date_now_at P (S (dateNowCalls w)) - Date_now_at P (dateNowCalls w) <= 30000)%Z ->
        exists w1,
          StyleCache.getComputedStyle P (S fuel) (Some e) w
          = (Normal (snapshotOf computedStyle), w1) /\
          getComputedStyleCalls w1 = S (getComputedStyleCalls w) /\
          dateNowCalls w1 = S (S (dateNowCalls w)) /\
          cache w1 !! handle e
          = Some (mkCacheEntry (snapshotOf computedStyle) (Date_now_at P (dateNowCalls w))) /\
          forall fuel' w2,
            cache w2 !! handle e = cache w1 !! handle e ->
            (Date_now_at P (dateNowCalls w2) - Date_now_at P (dateNowCalls w) <= 30000)%Z ->
            exists w3,
              StyleCache.getComputedStyle P (S fuel') (Some e) w2
              = (Normal (snapshotOf computedStyle), w3) /\
              getComputedStyleCalls w3 = getComputedStyleCalls w2 /\
              cache w3 = cache w2) /\
    (forall entry computedStyle,
        cache w !! handle e = Some entry ->
        (30000 < Date_now_at P (dateNowCalls w) - entry_timestamp entry)%Z ->
        window_getComputedStyle_at P (getComputedStyleCalls w) e = Returns computedStyle ->
        (Date_now_at P (S (S (dateNowCalls w))) - Date_now_at P (S (dateNowCalls w))
         <= 30000)%Z ->
        exists w1,
          StyleCache.getComputedStyle P (S (S fuel)) (Some e) w
          = (Normal (snapshotOf computedStyle), w1) /\
          getComputedStyleCalls w1 = S (getComputedStyleCalls w) /\
          cache w1 !! handle e
          = Some (mkCacheEntry (snapshotOf computedStyle)
                    (Date_now_at P (S (dateNowCalls w))))) /\
    (forall entry message,
        cache w !! handle e = Some entry ->
        (30000 < Date_now_at P (dateNowCalls w) - entry_timestamp entry)%Z ->
        window_getComputedStyle_at P (getComputedStyleCalls w) e = Throws message ->
        exists w1,
          StyleCache.getComputedStyle P (S (S fuel)) (Some e) w = (Normal [], w1) /\
          getComputedStyleCalls w1 = S (getComputedStyleCalls w) /\
          cache w1 !! handle e = None).
Proof.
  intros P e fuel w. split; [| split].
  - intros computedStyle Hmiss Hread Hage.
    destruct (getComputedStyle_miss P fuel e computedStyle w Hmiss Hread Hage)
      as [w1 [Hrun [Hcalls [Hclock Hcache]]]].
    revert Hrun Hcache. generalize (snapshotOf computedStyle). intros snapshot Hrun Hcache.
    exists w1. split; [exact Hrun |]. split; [exact Hcalls |]. split; [exact Hclock |].
    assert (Hentry : cache w1 !! handle e
                     = Some (mkCacheEntry snapshot (Date_now_at P (dateNowCalls w))))
      by (rewrite Hcache; apply lookup_insert_eq).
    split; [exact Hentry |].
    intros fuel' w2 Hsame Hage2. rewrite Hentry in Hsame.
    exists (set_dateNowCalls S w2).
    split; [| split; reflexivity].
    exact (getComputedStyle_hit P fuel' e _ w2 Hsame Hage2).
  - intros entry computedStyle Hentry Hstale Hread Hage.
    assert (Hold : (Date_now_at P (dateNowCalls w) - entry_timestamp entry
                    > StyleCache.maxCacheAge)%Z)
      by (unfold StyleCache.maxCacheAge; lia).
    rewrite (getComputedStyle_stale P (S fuel) e entry w Hentry Hold).
    destruct (getComputedStyle_miss P fuel e computedStyle
                (set_cache (delete (handle e)) (set_dateNowCalls S w))
                (lookup_delete_eq (cache w) (handle e)) Hread Hage)
      as [w1 [Hrun [Hcalls [_ Hcache]]]].
    revert Hrun Hcache. generalize (snapshotOf computedStyle). intros snapshot Hrun Hcache.
    exists w1. split; [exact Hrun |]. split; [exact Hcalls |].
    rewrite Hcache. apply lookup_insert_eq.
  - intros entry message Hentry Hstale Hread.
    assert (Hold : (Date_now_at P (dateNowCalls w) - entry_timestamp entry
                    > StyleCache.maxCacheAge)%Z)
      by (unfold StyleCache.maxCacheAge; lia).
    rewrite (getComputedStyle_stale P (S fuel) e entry w Hentry Hold).
    destruct (getComputedStyle_miss_throws P fuel e message
                (set_cache (delete (handle e)) (set_dateNowCalls S w))
                (lookup_delete_eq (cache w) (handle e)) Hread)
      as [w1 [Hrun [Hcalls Hcache]]].
    exists w1. split; [exact Hrun |]. split; [exact Hcalls |].
    rewrite Hcache. apply (lookup_delete_eq (cache w) (handle e)).
Qed.

(** C3 at the sample page: two lookups of [hero] in a row read the computed
    style once and return the same snapshot; a lookup that finds the
    51-second-old entry returns the snapshot read anew. *)
Lemma C3_snapshot_cache_age_at_sample :
  (exists w1 w2,
      StyleCache.getComputedStyle Sample.platform 1 (Some Sample.hero) Sample.world
      = (Normal (snapshotOf Sample.computedStyle), w1) /\
      StyleCache.getComputedStyle Sample.platform 1 (Some Sample.hero) w1
      = (Normal (snapshotOf Sample.computedStyle), w2) /\
      getComputedStyleCalls w2 = 1%nat) /\
  (exists w1,
      StyleCache.getComputedStyle Sample.platform 2 (Some Sample.hero) Sample.world_staleEntry
      = (Normal (snapshotOf Sample.computedStyle), w1) /\
      getComputedStyleCalls w1 = 1%nat) /\
  snapshotOf Sample.computedStyle = [("display", "flex"); ("margin", "0px"); ("color", "red")].
Proof.
  split; [| split].
  - destruct (proj1 (C3_snapshot_cache_age Sample.platform Sample.hero 0 Sample.world)
                Sample.computedStyle)
      as [w1 [Hfirst [Hcalls [Hclock [_ Hsecond]]]]];
      [vm_compute; reflexivity | reflexivity | vm_compute; discriminate |].
    destruct (Hsecond 0%nat w1 eq_refl) as [w2 [Hrun [Hcalls2 _]]].
    + rewrite Hclock. vm_compute. discriminate.
    + exists w1, w2. split; [exact Hfirst |]. split; [exact Hrun |].
      rewrite Hcalls2. exact Hcalls.
  - destruct (proj1 (proj2 (C3_snapshot_cache_age Sample.platform Sample.hero 0
                              Sample.world_staleEntry))
                (mkCacheEntry [("color", "blue")] (-50000)%Z) Sample.computedStyle)
      as [w1 [Hrun [Hcalls _]]];
      [vm_compute; reflexivity | vm_compute; reflexivity | reflexivity
       | vm_compute; discriminate |].
    exists w1. split; [exact Hrun | exact Hcalls].
  - vm_compute. reflexivity.
Defined.

(** ** Inspection results *)

Lemma getSelector_returns (P : Platform) (element : option Element) (w : World) :
  exists selector w', StyleCache.getSelector P element w = (Normal selector, w').
Proof.
  destruct element as [e |].
  - unfold StyleCache.getSelector, SafeWrapper.execute.
    unfold bind at 1. unfold bind at 1. unfold gets, StyleCache.weak_get.
    destruct (selectorCache w !! handle e) as [selector |].
    + eexists; eexists; reflexivity.
    + unfold bind at 1.
      destruct (generateOptimizedSelector_returns P e w) as [selector [w' [Hrun _]]].
      rewrite Hrun. eexists; eexists; reflexivity.
  - eexists; eexists; reflexivity.
Qed.

Lemma extractInlineStyles_returns (P : Platform) (e : Element) (w : World) :
  exists inline, CSSAnalyzer.extractInlineStyles P e w = (Normal inline, w).
Proof.
  unfold CSSAnalyzer.extractInlineStyles, SafeWrapper.execute, bind, ret.
  destruct (style e) as [style |]; [| eexists; reflexivity].
  destruct (length (items style) =? 0)%nat; [eexists; reflexivity |].
  destruct (JS.truthy (cssText style)); eexists; reflexivity.
Qed.

Lemma categorizeStyles_nothing (P : Platform) (w : World) :
  CSSAnalyzer.categorizeStyles P [] w = (Normal [], w).
Proof. reflexivity. Qed.

(** The shape of [extractCSSInfo] for an element: when the style lookup
    returns, every other step returns too and the result is assembled from
    them. *)
Lemma extractCSSInfo_element (P : Platform) (fuel : nat) (e : Element)
    (computedStyle : JS.object) (w w1 : World) :
  StyleCache.getComputedStyle P fuel (Some e) w = (Normal computedStyle, w1) ->
  exists selector inline categorized w2,
    StyleCache.getSelector P (Some e) w1 = (Normal selector, w2) /\
    CSSAnalyzer.extractInlineStyles P e w2 = (Normal inline, w2) /\
    CSSAnalyzer.categorizeStyles P computedStyle w2 = (Normal categorized, w2) /\
    CSSAnalyzer.extractCSSInfo P fuel (Some e) w
    = (Normal (mkCSSInfo
                 (Some (mkElementInfo (JS.toLowerCase (tagName e)) (className e) (id e)
                          selector))
                 computedStyle inline categorized), w2).
Proof.
  intros Hstyle.
  destruct (getSelector_returns P (Some e) w1) as [selector [w2 Hselector]].
  destruct (extractInlineStyles_returns P e w2) as [inline Hinline].
  destruct (categorizeStyles_spec P computedStyle w2) as [categorized [Hcategorized _]].
  exists selector, inline, categorized, w2.
  split; [exact Hselector |]. split; [exact Hinline |]. split; [exact Hcategorized |].
  unfold CSSAnalyzer.extractCSSInfo, SafeWrapper.execute.
  unfold bind at 1. unfold bind at 1. rewrite Hstyle.
  unfold bind at 1. rewrite Hselector.
  unfold bind at 1. rewrite Hinline.
  unfold bind at 1. rewrite Hcategorized.
  reflexivity.
Qed.

Lemma extractCSSInfo_diverges (P : Platform) (fuel : nat) (e : Element) (w w1 : World) :
  StyleCache.getComputedStyle P fuel (Some e) w = (Diverge, w1) ->
  CSSAnalyzer.extractCSSInfo P fuel (Some e) w = (Diverge, w1).
Proof.
  intros Hstyle.
  unfold CSSAnalyzer.extractCSSInfo, SafeWrapper.execute.
  unfold bind at 1. unfold bind at 1. now rewrite Hstyle.
Qed.

(** With two clock readings in a row at most the maximum age apart, the
    style lookup returns. *)
Lemma getComputedStyle_returns (P : Platform) (fuel : nat) (e : Element) (w : World) :
  (Date_now_at P (S (dateNowCalls w)) - Date_now_at P (dateNowCalls w)
   <= StyleCache.maxCacheAge)%Z ->
  (Date_now_at P (S (S (dateNowCalls w))) - Date_now_at P (S (dateNowCalls w))
   <= StyleCache.maxCacheAge)%Z ->
  exists data w', StyleCache.getComputedStyle P (S (S fuel)) (Some e) w = (Normal data, w').
Proof.
  intros Hage1 Hage2.
  destruct (cache w !! handle e) as [entry |] eqn:Hentry.
  - destruct (Z_le_gt_dec (Date_now_at P (dateNowCalls w) - entry_timestamp entry)
                StyleCache.maxCacheAge) as [Hfresh | Hstale].
    + rewrite (getComputedStyle_hit P (S fuel) e entry w Hentry Hfresh).
      eexists; eexists; reflexivity.
    + rewrite (getComputedStyle_stale P (S fuel) e entry w Hentry Hstale).
      destruct (window_getComputedStyle_at P (getComputedStyleCalls w) e)
        as [computedStyle | message] eqn:Hread.
      * destruct (getComputedStyle_miss P fuel e computedStyle
                    (set_cache (delete (handle e)) (set_dateNowCalls S w))
                    (lookup_delete_eq (cache w) (handle e)) Hread Hage2)
          as [w' [Hrun _]].
        eexists; eexists; exact Hrun.
      * destruct (getComputedStyle_miss_throws P fuel e message
                    (set_cache (delete (handle e)) (set_dateNowCalls S w))
                    (lookup_delete_eq (cache w) (handle e)) Hread)
          as [w' [Hrun _]].
        eexists; eexists; exact Hrun.
  - destruct (window_getComputedStyle_at P (getComputedStyleCalls w) e)
      as [computedStyle | message] eqn:Hread.
    + destruct (getComputedStyle_miss P (S fuel) e computedStyle w Hentry Hread Hage1)
        as [w' [Hrun _]].
      eexists; eexists; exact Hrun.
    + destruct (getComputedStyle_miss_throws P (S fuel) e message w Hentry Hread)
        as [w' [Hrun _]].
      eexists; eexists; exact Hrun.
Qed.

(** A style read that throws does not give the degraded result: the
    selector and the inline styles are reported all the same. *)
Lemma C7_failed_style_read_keeps_selector_and_inline :
  fst (CSSAnalyzer.extractCSSInfo Sample.platform_styleReadThrows 2 (Some Sample.hero)
         Sample.world)
  = Normal (mkCSSInfo (Some (mkElementInfo "div" "" "hero" "#hero")) []
              [("color", "red")] []).
Proof. vm_compute. reflexivity. Qed.

(** C7, amended: [extractCSSInfo] never raises.  For [null] or [undefined]
    it returns the degraded result: tag name [unknown], empty class and id,
    selector [unknown], empty computed, inline and categorised mappings.
    For an element it returns whenever the style lookup does (which it does
    once two clock readings in a row are at most 30000 ms apart), and a step
    that throws degrades only its own part: after a style read that throws,
    the computed and categorised mappings are empty while the tag name, the
    class, the id, the selector of [getSelector] and the inline styles are
    those of the element. *)
Theorem C7_extractCSSInfo_fails_closed :
  forall (P : Platform) (fuel : nat) (w : World),
    (forall element,
        (exists info w', CSSAnalyzer.extractCSSInfo P fuel element w = (Normal info, w')) \/
        (exists w', CSSAnalyzer.extractCSSInfo P fuel element w = (Diverge, w'))) /\
    (exists w',
        CSSAnalyzer.extractCSSInfo P fuel None w
        = (Normal (mkCSSInfo (Some (mkElementInfo "unknown" "" "" "unknown")) [] [] []), w')) /\
    (forall e,
        (Date_now_at P (S (dateNowCalls w)) - Date_now_at P (dateNowCalls w) <= 30000)%Z ->
        (Date_now_at P (S (S (dateNowCalls w))) - Date_now_at P (S (dateNowCalls w))
         <= 30000)%Z ->
        exists info w',
          CSSAnalyzer.extractCSSInfo P (S (S fuel)) (Some e) w = (Normal info, w')) /\
    (forall e message,
        cache w !! handle e = None ->
        window_getComputedStyle_at P (getComputedStyleCalls w) e = Throws message ->
        exists selector inline w1 w2,
          StyleCache.getSelector P (Some e) w1 = (Normal selector, w2) /\
          CSSAnalyzer.extractInlineStyles P e w2 = (Normal inline, w2) /\
          CSSAnalyzer.extractCSSInfo P (S fuel) (Some e) w
          = (Normal (mkCSSInfo
                       (Some (mkElementInfo (JS.toLowerCase (tagName e)) (className e)
                                (id e) selector))
                       [] inline []), w2)).
Proof.
  intros P fuel w. split; [| split; [| split]].
  - intros [e |].
    + destruct (getComputedStyle_no_throw P fuel (Some e) w)
        as [[computedStyle [w1 Hstyle]] | [w1 Hstyle]].
      * left.
        destruct (extractCSSInfo_element P fuel e computedStyle w w1 Hstyle)
          as [selector [inline [categorized [w2 [_ [_ [_ Hrun]]]]]]].
        eexists; eexists; exact Hrun.
      * right. exists w1. now apply extractCSSInfo_diverges.
    + left. eexists; eexists; reflexivity.
  - eexists. reflexivity.
  - intros e Hage1 Hage2.
    destruct (getComputedStyle_returns P fuel e w Hage1 Hage2)
      as [computedStyle [w1 Hstyle]].
    destruct (extractCSSInfo_element P (S (S fuel)) e computedStyle w w1 Hstyle)
      as [selector [inline [categorized [w2 [_ [_ [_ Hrun]]]]]]].
    eexists; eexists; exact Hrun.
  - intros e message Hmiss Hread.
    destruct (getComputedStyle_miss_throws P fuel e message w Hmiss Hread)
      as [w1 [Hstyle _]].
    destruct (extractCSSInfo_element P (S fuel) e [] w w1 Hstyle)
      as [selector [inline [categorized [w2 [Hselector [Hinline [Hcategorized Hrun]]]]]]].
    rewrite categorizeStyles_nothing in Hcategorized.
    injection Hcategorized as Hempty. subst categorized.
    exists selector, inline, w1, w2.
    split; [exact Hselector |]. split; [exact Hinline | exact Hrun].
Qed.

(** C7 at the sample page: [hero] inspected while the style read throws. *)
Lemma C7_extractCSSInfo_at_sample :
  exists selector inline w1 w2,
    StyleCache.getSelector Sample.platform_styleReadThrows (Some Sample.hero) w1
    = (Normal selector, w2) /\
    CSSAnalyzer.extractInlineStyles Sample.platform_styleReadThrows Sample.hero w2
    = (Normal inline, w2) /\
    CSSAnalyzer.extractCSSInfo Sample.platform_styleReadThrows 1 (Some Sample.hero)
      Sample.world
    = (Normal (mkCSSInfo (Some (mkElementInfo "div" "" "hero" selector)) [] inline []), w2).
Proof.
  exact (proj2 (proj2 (proj2 (C7_extractCSSInfo_fails_closed
                                Sample.platform_styleReadThrows 0 Sample.world)))
           Sample.hero "getComputedStyle failed" eq_refl eq_refl).
Defined.

(** ** The popup *)

Lemma updatePinnedState_sameButErrorCounts (P : Platform) (w : World) :
  exists ok w', PopupManager.updatePinnedState P w = (Normal ok, w') /\ sameButErrorCounts w w'.
Proof.
  unfold PopupManager.updatePinnedState, SafeWrapper.executeDOMOperation.
  destruct (document_body P).
  - exists true, w. split; [reflexivity | apply sameButErrorCounts_refl].
  - eexists; eexists. split; [reflexivity |].
    now apply handleError_sameButErrorCounts.
Qed.





(** A popup that is shown and not pinned goes where [placement] says. *)
Lemma updatePopupPosition_moves (P : Platform) (mousePosition : Q * Q) (p : Popup) (w : World) :
  document_body P <> None ->
  popup w = Some p ->
  isPinned w = false ->
  PopupManager.updatePopupPosition P mousePosition w
  = (Normal true,
     set_popup (fun _ =>
       Some (mkPopup (Some (fst (PopupManager.placement P p mousePosition)))
               (Some (snd (PopupManager.placement P p mousePosition)))
               (rect_width p) (rect_height p))) w).
Proof.
  intros Hbody Hpopup Hpinned.
  unfold PopupManager.updatePopupPosition, SafeWrapper.executeDOMOperation.
  destruct (document_body P); [| contradiction].
  unfold SafeWrapper.execute, bind, gets, modify, ret.
  now rewrite Hpopup, Hpinned.
Qed.


Lemma bestPosition_none_fit (P : Platform) (mousePosition : Q * Q) (popupWidth popupHeight : Q) :
  (forall pos, In pos (PopupManager.positions mousePosition popupWidth popupHeight) ->
               PopupManager.fits P popupWidth popupHeight pos = false) ->
  PopupManager.bestPosition P mousePosition popupWidth popupHeight
  = ((fst mousePosition + 20)%Q, (snd mousePosition + 20)%Q).
Proof.
  intros Hnone. unfold PopupManager.bestPosition.
  destruct (List.find _ _) as [pos |] eqn:Hfind; [| reflexivity].
  apply find_some in Hfind. destruct Hfind as [Hin Hfits].
  rewrite (Hnone pos Hin) in Hfits. discriminate Hfits.
Qed.

(** [Math.max(10, Math.min(v, bound))]. *)
Lemma clamp_spec (v bound : Q) :
  (10 <= Qmax 10 (Qmin v bound))%Q /\
  ((10 <= bound)%Q -> (Qmax 10 (Qmin v bound) <= bound)%Q) /\
  ((bound < 10)%Q -> (Qmax 10 (Qmin v bound) == 10)%Q).
Proof.
  destruct (Q.max_spec 10 (Qmin v bound)) as [[Hlt Hmax] | [Hle Hmax]];
    destruct (Q.min_spec v bound) as [[Hlt' Hmin] | [Hle' Hmin]];
    rewrite Hmax in *; try rewrite Hmin in *; repeat split; intros; lra.
Qed.

(** With a 380 by 200 popup in a window 300 wide no candidate fits, and
    the clamped first candidate is at [x = 10], right of the upper bound
    [300 - 380 - 10 = -90] of the interval. *)
Lemma C5_popup_wider_than_viewport :
  forallb
    (fun pos => negb (PopupManager.fits Sample.platform_narrow 380 200 pos))
    (PopupManager.positions (100%Q, 100%Q) 380 200) = true /\
  fst (PopupManager.updatePopupPosition Sample.platform_narrow (100%Q, 100%Q)
         Sample.world_popupShown) = Normal true /\
  popup (snd (PopupManager.updatePopupPosition Sample.platform_narrow (100%Q, 100%Q)
                Sample.world_popupShown))
  = Some (mkPopup (Some 10%Q) (Some (100 + 20)%Q) 380 200) /\
  (window_innerWidth Sample.platform_narrow - 380 - 10 < 10)%Q.
Proof.
  split; [vm_compute; reflexivity |]. split; [vm_compute; reflexivity |].
  split; vm_compute; reflexivity.
Qed.

(** C5, amended: when none of the four candidates fits, [updatePopupPosition]
    puts the popup at the first candidate clamped,
    [x = max(10, min(cursor x + 20, W - w - 10))] and likewise [y]; so
    [10 <= x] and [10 <= y] always, [x <= W - w - 10] when [w <= W - 20] and
    [y <= H - h - 10] when [h <= H - 20], and the coordinate is 10 when the
    popup is larger than that. *)
Theorem C5_clamped_first_candidate :
  forall (P : Platform) (p : Popup) (mousePosition : Q * Q) (w : World),
    document_body P <> None ->
    popup w = Some p ->
    isPinned w = false ->
    (forall pos,
        In pos (PopupManager.positions mousePosition (PopupManager.popupWidth p)
                  (PopupManager.popupHeight P p)) ->
        PopupManager.fits P (PopupManager.popupWidth p) (PopupManager.popupHeight P p) pos
        = false) ->
    let x := Qmax 10 (Qmin (fst mousePosition + 20)
                        (window_innerWidth P - PopupManager.popupWidth p - 10)) in
    let y := Qmax 10 (Qmin (snd mousePosition + 20)
                        (window_innerHeight P - PopupManager.popupHeight P p - 10)) in
    PopupManager.updatePopupPosition P mousePosition w
    = (Normal true,
       set_popup (fun _ => Some (mkPopup (Some x) (Some y) (rect_width p) (rect_height p))) w) /\
    (10 <= x)%Q /\ (10 <= y)%Q /\
    ((10 <= window_innerWidth P - PopupManager.popupWidth p - 10)%Q ->
     (x <= window_innerWidth P - PopupManager.popupWidth p - 10)%Q) /\
    ((10 <= window_innerHeight P - PopupManager.popupHeight P p - 10)%Q ->
     (y <= window_innerHeight P - PopupManager.popupHeight P p - 10)%Q) /\
    ((window_innerWidth P - PopupManager.popupWidth p - 10 < 10)%Q -> (x == 10)%Q) /\
    ((window_innerHeight P - PopupManager.popupHeight P p - 10 < 10)%Q -> (y == 10)%Q).
Proof.
  intros P p mousePosition w Hbody Hpopup Hpinned Hnone x y.
  split.
  - rewrite (updatePopupPosition_moves P mousePosition p w Hbody Hpopup Hpinned).
    unfold PopupManager.placement.
    rewrite (bestPosition_none_fit P mousePosition _ _ Hnone).
    reflexivity.
  - destruct (clamp_spec (fst mousePosition + 20)
                (window_innerWidth P - PopupManager.popupWidth p - 10))
      as [Hx1 [Hx2 Hx3]].
    destruct (clamp_spec (snd mousePosition + 20)
                (window_innerHeight P - PopupManager.popupHeight P p - 10))
      as [Hy1 [Hy2 Hy3]].
    repeat split; assumption.
Qed.

(** C5 at the sample page: a 380 by 700 popup, cursor at (500, 400) in the
    1000 by 800 viewport, too tall to fit below or above the cursor: the
    popup goes to the clamped first candidate, inside the interval. *)
Lemma C5_clamped_first_candidate_at_sample :
  let P := Sample.platform in
  let p := mkPopup (Some 120%Q) (Some 120%Q) 380 700 in
  let w := mkWorld ∅ [] ∅ ∅ 0 0 (Some p) false None true (0%Q, 0%Q) in
  let x := Qmax 10 (Qmin (500 + 20) (window_innerWidth P - PopupManager.popupWidth p - 10)) in
  let y := Qmax 10 (Qmin (400 + 20)
                      (window_innerHeight P - PopupManager.popupHeight P p - 10)) in
  PopupManager.updatePopupPosition P (500%Q, 400%Q) w
  = (Normal true,
     set_popup (fun _ => Some (mkPopup (Some x) (Some y) (rect_width p) (rect_height p))) w) /\
  (10 <= x)%Q /\ (10 <= y)%Q /\
  ((10 <= window_innerWidth P - PopupManager.popupWidth p - 10)%Q ->
   (x <= window_innerWidth P - PopupManager.popupWidth p - 10)%Q) /\
  ((10 <= window_innerHeight P - PopupManager.popupHeight P p - 10)%Q ->
   (y <= window_innerHeight P - PopupManager.popupHeight P p - 10)%Q) /\
  ((window_innerWidth P - PopupManager.popupWidth p - 10 < 10)%Q -> (x == 10)%Q) /\
  ((window_innerHeight P - PopupManager.popupHeight P p - 10 < 10)%Q -> (y == 10)%Q).
Proof.
  apply (C5_clamped_first_candidate Sample.platform
           (mkPopup (Some 120%Q) (Some 120%Q) 380 700) (500%Q, 400%Q)
           (mkWorld ∅ [] ∅ ∅ 0 0 (Some (mkPopup (Some 120%Q) (Some 120%Q) 380 700))
              false None true (0%Q, 0%Q))).
  - discriminate.
  - reflexivity.
  - reflexivity.
  - intros pos Hin. cbn [PopupManager.positions In] in Hin.
    destruct Hin as [<- | [<- | [<- | [<- | []]]]]; vm_compute; reflexivity.
Defined.



(** * Further properties *)

(** ** Objects *)

Lemma get_set_same (k v : string) (o : JS.object) : JS.get k (JS.set k v o) = Some v.
Proof.
  induction o as [| [k' v'] r IH]; simpl.
  - now rewrite String.eqb_refl.
  - destruct (String.eqb_spec k' k) as [-> | Hne]; simpl.
    + now rewrite String.eqb_refl.
    + destruct (String.eqb_spec k' k); [contradiction | exact IH].
Qed.

Lemma get_set_other (k k' v : string) (o : JS.object) :
  k <> k' -> JS.get k' (JS.set k v o) = JS.get k' o.
Proof.
  intros Hne. induction o as [| [k0 v0] r IH]; simpl.
  - destruct (String.eqb_spec k k'); [contradiction | reflexivity].
  - destruct (String.eqb_spec k0 k) as [-> | Hne0]; simpl.
    + destruct (String.eqb_spec k k'); [contradiction | reflexivity].
    + destruct (String.eqb_spec k0 k'); [reflexivity | exact IH].
Qed.

Lemma keys_set (k v : string) (o : JS.object) :
  JS.keys (JS.set k v o)
  = if existsb (String.eqb k) (JS.keys o) then JS.keys o else (JS.keys o ++ [k])%list.
Proof.
  unfold JS.keys. induction o as [| [k' v'] r IH]; [reflexivity |].
  cbn [JS.set map fst existsb]. rewrite (String.eqb_sym k k').
  destruct (String.eqb_spec k' k) as [-> | Hne]; cbn [orb map fst]; [reflexivity |].
  rewrite IH. now destruct (existsb (String.eqb k) (map fst r)).
Qed.

Lemma set_NoDup (k v : string) (o : JS.object) :
  NoDup (JS.keys o) -> NoDup (JS.keys (JS.set k v o)).
Proof.
  intros Hnodup. rewrite keys_set.
  destruct (existsb (String.eqb k) (JS.keys o)) eqn:Hin; [exact Hnodup |].
  apply NoDup_app. split; [exact Hnodup |]. split.
  - intros x Hx Hx'. apply list_elem_of_In in Hx, Hx'.
    destruct Hx' as [<- | []].
    assert (Htrue : existsb (String.eqb k) (JS.keys o) = true)
      by (apply existsb_eqb_In; exact Hx).
    congruence.
  - apply NoDup_singleton.
Qed.

Lemma get_In (k v : string) (o : JS.object) :
  NoDup (JS.keys o) -> (In (k, v) o <-> JS.get k o = Some v).
Proof.
  induction o as [| [k' v'] r IH]; simpl; intros Hnodup.
  - split; [tauto | discriminate].
  - apply NoDup_cons in Hnodup. destruct Hnodup as [Hfresh Hnodup].
    destruct (String.eqb_spec k' k) as [-> | Hne].
    + split.
      * intros [Heq | Hin]; [congruence |].
        exfalso. apply Hfresh. apply list_elem_of_In.
        change (In (fst (k, v)) (map fst r)). now apply in_map.
      * intros Heq. left. congruence.
    + rewrite <- (IH Hnodup). split; [| tauto].
      intros [Heq | Hin]; [congruence | exact Hin].
Qed.

(** A loop that stores [f prop] under [prop] for each [prop] of a list. *)
Lemma collect_get (f : string -> option string) (step : JS.object -> string -> JS.object) :
  (forall acc prop,
      step acc prop = match f prop with Some v => JS.set prop v acc | None => acc end) ->
  forall (props : list string) (acc : JS.object) (k : string),
    JS.get k (fold_left step props acc)
    = match (if existsb (String.eqb k) props then f k else None) with
      | Some v => Some v
      | None => JS.get k acc
      end.
Proof.
  intros Hstep. induction props as [| p rest IH]; intros acc k; [reflexivity |].
  cbn [fold_left existsb]. rewrite IH, Hstep.
  destruct (String.eqb_spec k p) as [-> | Hne]; cbn [orb].
  - destruct (f p) as [v |] eqn:Hf.
    + destruct (existsb (String.eqb p) rest); [reflexivity | apply get_set_same].
    + now destruct (existsb (String.eqb p) rest).
  - destruct (if existsb (String.eqb k) rest then f k else None); [reflexivity |].
    destruct (f p) as [v |]; [| reflexivity].
    apply get_set_other. congruence.
Qed.

Lemma collect_NoDup (f : string -> option string) (step : JS.object -> string -> JS.object) :
  (forall acc prop,
      step acc prop = match f prop with Some v => JS.set prop v acc | None => acc end) ->
  forall (props : list string) (acc : JS.object),
    NoDup (JS.keys acc) -> NoDup (JS.keys (fold_left step props acc)).
Proof.
  intros Hstep. induction props as [| p rest IH]; intros acc Hnodup; [exact Hnodup |].
  cbn [fold_left]. apply IH. rewrite Hstep.
  destruct (f p); [now apply set_NoDup | exact Hnodup].
Qed.

(** ** Categories *)

Lemma categorizeStyles_properties_eq (P : Platform) (computedStyle : JS.object)
    (properties : list string) :
  forall (categoryData : JS.object) (w : World),
    CSSAnalyzer.categorizeStyles_properties P computedStyle properties categoryData w
    = (Normal
         (fold_left
            (fun categoryData prop =>
               match JS.get prop computedStyle with
               | Some value =>
                   if JS.truthy value
                      && negb (existsb (String.eqb (JS.trim value)) CSSAnalyzer.invalidValues)
                   then JS.set prop value categoryData
                   else categoryData
               | None => categoryData
               end)
            properties categoryData), w).
Proof.
  induction properties as [| prop rest IH]; intros categoryData w; [reflexivity |].
  cbn [CSSAnalyzer.categorizeStyles_properties fold_left].
  destruct (JS.get prop computedStyle) as [value |]; [| apply IH].
  destruct (JS.truthy value) eqn:Htruthy; [| apply IH].
  unfold bind. rewrite isValidCSSValue_eq, Htruthy. apply IH.
Qed.

Lemma categorizeStyles_categories_eq (P : Platform) (computedStyle : JS.object)
    (categories : list (string * list string)) :
  forall (categorized : list (string * JS.object)) (w : World),
    CSSAnalyzer.categorizeStyles_categories P computedStyle categories categorized w
    = (Normal
         (categorized ++
          List.filter (fun category => (0 <? length (snd category))%nat)
            (map (fun category => (fst category, keptProperties computedStyle (snd category)))
               categories))%list, w).
Proof.
  induction categories as [| [category properties] rest IH]; intros categorized w.
  - cbn. now rewrite app_nil_r.
  - cbn [CSSAnalyzer.categorizeStyles_categories map List.filter fst snd].
    unfold bind. rewrite categorizeStyles_properties_eq. fold (keptProperties computedStyle properties).
    rewrite IH. unfold JS.keys. rewrite length_map.
    destruct (0 <? length (keptProperties computedStyle properties))%nat;
      [now rewrite <- app_assoc | reflexivity].
Qed.

Lemma categorizeStyles_eq (P : Platform) (computedStyle : JS.object) (w : World) :
  CSSAnalyzer.categorizeStyles P computedStyle w = (Normal (categoriesOf computedStyle), w).
Proof.
  unfold CSSAnalyzer.categorizeStyles, bind.
  now rewrite (execute_Normal P _ _ _ _ _ _
                 (categorizeStyles_categories_eq P computedStyle CSSAnalyzer.cssCategories [] w)).
Qed.

Lemma keptProperties_get (computedStyle : JS.object) (properties : list string)
    (prop value : string) :
  JS.get prop (keptProperties computedStyle properties) = Some value <->
  In prop properties /\ JS.get prop computedStyle = Some value /\ value <> "" /\
  ~ In (JS.trim value) CSSAnalyzer.invalidValues.
Proof.
  unfold keptProperties.
  rewrite (collect_get
             (fun prop =>
                match JS.get prop computedStyle with
                | Some value =>
                    if JS.truthy value
                       && negb (existsb (String.eqb (JS.trim value)) CSSAnalyzer.invalidValues)
                    then Some value else None
                | None => None
                end)).
  - cbn [JS.get].
    destruct (existsb (String.eqb prop) properties) eqn:Hin.
    + apply existsb_eqb_In in Hin.
      destruct (JS.get prop computedStyle) as [v |]; [| split; [discriminate | intros [_ [H _]]; discriminate]].
      destruct (JS.truthy v) eqn:Htruthy; cbn [andb].
      * destruct (existsb (String.eqb (JS.trim v)) CSSAnalyzer.invalidValues) eqn:Hinvalid;
          cbn [negb].
        -- apply existsb_eqb_In in Hinvalid.
           split; [discriminate |]. intros [_ [Heq [_ Hvalid]]].
           injection Heq as <-. contradiction.
        -- split.
           ++ intros Heq. injection Heq as <-. split; [exact Hin |]. split; [reflexivity |].
              split; [now apply truthy_true |].
              intros Hbad. apply existsb_eqb_In in Hbad. congruence.
           ++ intros [_ [Heq _]]. exact Heq.
      * split; [discriminate |]. intros [_ [Heq [Hne _]]]. injection Heq as <-.
        apply truthy_true in Hne. congruence.
    + split; [discriminate |]. intros [Hprop _].
      apply existsb_eqb_In in Hprop. congruence.
  - intros acc p. destruct (JS.get p computedStyle) as [v |]; [| reflexivity].
    now destruct (JS.truthy v && negb (existsb (String.eqb (JS.trim v)) CSSAnalyzer.invalidValues)).
Qed.

Lemma keptProperties_NoDup (computedStyle : JS.object) (properties : list string) :
  NoDup (JS.keys (keptProperties computedStyle properties)).
Proof.
  unfold keptProperties.
  apply (collect_NoDup
           (fun prop =>
              match JS.get prop computedStyle with
              | Some value =>
                  if JS.truthy value
                     && negb (existsb (String.eqb (JS.trim value)) CSSAnalyzer.invalidValues)
                  then Some value else None
              | None => None
              end)).
  - intros acc p. destruct (JS.get p computedStyle) as [v |]; [| reflexivity].
    now destruct (JS.truthy v && negb (existsb (String.eqb (JS.trim v)) CSSAnalyzer.invalidValues)).
  - apply NoDup_nil_2.
Qed.

Lemma filter_map_sublist {A B} (keep : B -> bool) (f : A -> B) (g : B -> string) (l : list A) :
  sublist (map g (List.filter keep (map f l))) (map g (map f l)).
Proof.
  induction l as [| a l IH]; cbn [map List.filter]; [constructor |].
  destruct (keep (f a)); cbn [map]; [now apply sublist_skip | now apply sublist_cons].
Qed.

(** X1: [categorizeStyles] returns the fixed categories in their fixed
    order, each at most once and none of them empty; a category holds
    exactly the properties of its own list whose computed value is there,
    not empty and, trimmed, not uninteresting, each with that value. *)
Theorem X1_categorizeStyles_shape :
  forall (P : Platform) (computedStyle : JS.object) (w : World),
    exists categorized,
      CSSAnalyzer.categorizeStyles P computedStyle w = (Normal categorized, w) /\
      sublist (map fst categorized) (map fst CSSAnalyzer.cssCategories) /\
      NoDup (map fst categorized) /\
      forall category data,
        In (category, data) categorized ->
        data <> [] /\ NoDup (JS.keys data) /\
        exists properties,
          In (category, properties) CSSAnalyzer.cssCategories /\
          forall prop value,
            JS.get prop data = Some value <->
            In prop properties /\ JS.get prop computedStyle = Some value /\ value <> "" /\
            ~ In (JS.trim value) CSSAnalyzer.invalidValues.
Proof.
  intros P computedStyle w. exists (categoriesOf computedStyle).
  split; [apply categorizeStyles_eq |].
  assert (Hsub : sublist (map fst (categoriesOf computedStyle))
                   (map fst CSSAnalyzer.cssCategories)).
  { unfold categoriesOf.
    replace (map fst CSSAnalyzer.cssCategories)
      with (map fst (map (fun category : string * list string =>
                            (fst category, keptProperties computedStyle (snd category)))
                       CSSAnalyzer.cssCategories))
      by (rewrite map_map; reflexivity).
    apply filter_map_sublist. }
  split; [exact Hsub |]. split.
  - refine (sublist_NoDup _ _ _ Hsub).
    apply NoDup_ListNoDup. unfold CSSAnalyzer.cssCategories. cbn [map fst].
    repeat (constructor; [cbn [In]; intuition discriminate |]). constructor.
  - intros category data Hin. unfold categoriesOf in Hin.
    apply filter_In in Hin. destruct Hin as [Hin Hlen]. cbn [snd] in Hlen.
    apply in_map_iff in Hin. destruct Hin as [[c properties] [Heq Hcat]].
    cbn [fst snd] in Heq. injection Heq as <- <-.
    split; [| split].
    + intros Hnil. rewrite Hnil in Hlen. discriminate Hlen.
    + apply keptProperties_NoDup.
    + exists properties. split; [exact Hcat |].
      intros prop value. apply keptProperties_get.
Qed.

(** X2: every property of a category's list whose computed value is there,
    not empty and, trimmed, not uninteresting is reported under that
    category, with its value. *)
Theorem X2_categorizeStyles_complete :
  forall (P : Platform) (computedStyle : JS.object) (w : World)
         (category prop value : string) (properties : list string),
    In (category, properties) CSSAnalyzer.cssCategories ->
    In prop properties ->
    JS.get prop computedStyle = Some value ->
    value <> "" ->
    ~ In (JS.trim value) CSSAnalyzer.invalidValues ->
    exists categorized data,
      CSSAnalyzer.categorizeStyles P computedStyle w = (Normal categorized, w) /\
      In (category, data) categorized /\
      JS.get prop data = Some value.
Proof.
  intros P computedStyle w category prop value properties Hcat Hprop Hget Hne Hvalid.
  exists (categoriesOf computedStyle), (keptProperties computedStyle properties).
  split; [apply categorizeStyles_eq |].
  assert (Hkept : JS.get prop (keptProperties computedStyle properties) = Some value)
    by (apply keptProperties_get; tauto).
  split; [| exact Hkept].
  unfold categoriesOf. apply filter_In. split.
  - apply in_map_iff. exists (category, properties). split; [reflexivity | exact Hcat].
  - cbn [snd]. destruct (keptProperties computedStyle properties); [discriminate Hkept | reflexivity].
Qed.

(** X2 at a sample style: a flex display with a zero margin is reported
    under [layout]; the margin is not reported at all. *)
Lemma X2_categorizeStyles_at_sample :
  (exists categorized data,
      CSSAnalyzer.categorizeStyles Sample.platform
        [("display", "flex"); ("margin", "0px")] Sample.world
      = (Normal categorized, Sample.world) /\
      In ("layout", data) categorized /\
      JS.get "display" data = Some "flex") /\
  categoriesOf [("display", "flex"); ("margin", "0px")] = [("layout", [("display", "flex")])].
Proof.
  split; [| vm_compute; reflexivity].
  apply (X2_categorizeStyles_complete Sample.platform
           [("display", "flex"); ("margin", "0px")] Sample.world "layout" "display" "flex"
           ["display"; "position"; "top"; "right"; "bottom"; "left"; "float"; "clear"; "z-index"]).
  - left. reflexivity.
  - left. reflexivity.
  - reflexivity.
  - discriminate.
  - vm_compute. intuition discriminate.
Defined.

(** ** Snapshots *)

Lemma snapshotOf_get (computedStyle : string -> Outcome string) (prop value : string) :
  JS.get prop (snapshotOf computedStyle) = Some value <->
  In prop StyleCache.importantProps /\ computedStyle prop = Returns value /\ value <> "".
Proof.
  unfold snapshotOf.
  rewrite (collect_get
             (fun prop =>
                match computedStyle prop with
                | Returns data => if JS.truthy data then Some data else None
                | Throws _ => None
                end)).
  - cbn [JS.get].
    destruct (existsb (String.eqb prop) StyleCache.importantProps) eqn:Hin.
    + apply existsb_eqb_In in Hin.
      destruct (computedStyle prop) as [data | message].
      * destruct (JS.truthy data) eqn:Htruthy.
        -- split.
           ++ intros Heq. injection Heq as <-.
              split; [exact Hin |]. split; [reflexivity | now apply truthy_true].
           ++ intros [_ [Heq _]]. congruence.
        -- split; [discriminate |]. intros [_ [Heq Hne]]. injection Heq as <-.
           apply truthy_true in Hne. congruence.
      * split; [discriminate |]. intros [_ [Heq _]]. discriminate Heq.
    + split; [discriminate |]. intros [Hprop _].
      apply existsb_eqb_In in Hprop. congruence.
  - intros acc p. destruct (computedStyle p) as [data |]; [| reflexivity].
    now destruct (JS.truthy data).
Qed.

Lemma snapshotOf_NoDup (computedStyle : string -> Outcome string) :
  NoDup (JS.keys (snapshotOf computedStyle)).
Proof.
  unfold snapshotOf.
  apply (collect_NoDup
           (fun prop =>
              match computedStyle prop with
              | Returns data => if JS.truthy data then Some data else None
              | Throws _ => None
              end)).
  - intros acc p. destruct (computedStyle p) as [data |]; [| reflexivity].
    now destruct (JS.truthy data).
  - apply NoDup_nil_2.
Qed.

(** X3: [cacheImportantProperties] never raises and touches nothing but the
    error counts; the snapshot it returns holds each important property at
    most once, and holds exactly those whose value could be read and is not
    empty, with that value: a property whose read throws is left out, the
    others are kept. *)
Theorem X3_cacheImportantProperties_snapshot :
  forall (P : Platform) (computedStyle : string -> Outcome string) (w : World),
    exists snapshot w',
      StyleCache.cacheImportantProperties P computedStyle w = (Normal snapshot, w') /\
      sameButErrorCounts w w' /\
      NoDup (JS.keys snapshot) /\
      forall prop value,
        JS.get prop snapshot = Some value <->
        In prop StyleCache.importantProps /\ computedStyle prop = Returns value /\
        value <> "".
Proof.
  intros P computedStyle w.
  destruct (cacheImportantProperties_spec P computedStyle w) as [w' [Hrun Hsame]].
  exists (snapshotOf computedStyle), w'.
  split; [exact Hrun |]. split; [exact Hsame |].
  split; [apply snapshotOf_NoDup |].
  intros prop value. apply snapshotOf_get.
Qed.

(** ** Copies *)

(** X4: [performCopy] never raises.  It answers [true] exactly when the
    clipboard API is there and accepts the text or, failing that, the body
    exists and the copy command on the hidden text field succeeds.  When
    the answer is [true] the clipboard has received the text itself
    through the clipboard API, and through the fallback what the text
    field has selected: the first 99999 code units of the text, every
    carriage return read as a line feed; so a text without carriage return
    and of at most 99999 code units is copied whole either way.  When the
    answer is [false] the clipboard is as before. *)
Theorem X4_performCopy_outcome :
  forall (P : Platform) (text : string) (w : World),
    let accepted :=
      navigator_clipboard_writeText_present P && navigator_clipboard_writeText_resolves P text in
    let selected := JS.utf16_slice_to 99999 (JS.normalizeNewlines text) in
    exists success w',
      ClipboardManager.performCopy P text w = (Normal success, w') /\
      (success = true <->
       accepted = true \/
       (document_body P <> None /\ document_execCommand_copy P selected = Returns true)) /\
      clipboard w'
      = (if success : bool
         then (if accepted then text else selected) :: clipboard w
         else clipboard w) /\
      (JS.includes JS.CR text = false -> (JS.utf16_length text <= 99999)%N ->
       clipboard w' = if success : bool then text :: clipboard w else clipboard w).
Proof.
  intros P text w accepted selected.
  assert (Hwhole : JS.includes JS.CR text = false -> (JS.utf16_length text <= 99999)%N ->
                   selected = text) by apply selection_whole.
  unfold ClipboardManager.performCopy, SafeWrapper.executeAsync, SafeWrapper.execute, bind, ret.
  fold accepted. destruct accepted.
  - exists true. eexists. split; [reflexivity |].
    split; [split; [now left | reflexivity] |]. split; reflexivity.
  - unfold ClipboardManager.performCopy_fallback, bind, throw, call, ret, modify.
    fold selected. change (ClipboardManager.selection text) with selected.
    destruct (document_body P) as [b |].
    + destruct (document_execCommand_copy P selected) as [[|] | message].
      * exists true. eexists. split; [reflexivity |].
        split; [split; [right; split; [discriminate | reflexivity] | reflexivity] |].
        split; [reflexivity |]. intros Hnone Hshort. cbn. now rewrite Hwhole.
      * exists false. eexists. split; [reflexivity |].
        split; [split; [discriminate | intros [H | [_ H]]; discriminate H] |].
        split; reflexivity.
      * exists false. eexists. split; [reflexivity |].
        split; [split; [discriminate | intros [H | [_ H]]; discriminate H] |].
        split; [now apply handleError_clipboard_other |].
        intros _ _. now apply handleError_clipboard_other.
    + exists false. eexists. split; [reflexivity |].
      split; [split; [discriminate | intros [H | [H _]]; [discriminate H | contradiction]] |].
      split; [now apply handleError_clipboard_other |].
      intros _ _. now apply handleError_clipboard_other.
Qed.

Lemma handleError_suppressed (P : Platform) (message errorType : string)
    (context_text : option string) (w : World) :
  (3 <= default 0%nat (errorCounts w !! (errorType +:+ "_" +:+ message)))%nat ->
  ErrorHandler.handleError P message errorType context_text w
  = set_errorCounts
      (insert (errorType +:+ "_" +:+ message)
         (default 0%nat (errorCounts w !! (errorType +:+ "_" +:+ message)) + 1)%nat) w.
Proof.
  intros Hcount. unfold ErrorHandler.handleError, ErrorHandler.maxRetries.
  apply Nat.leb_le in Hcount. now rewrite Hcount.
Qed.

Lemma handleError_iter (P : Platform) (message errorType : string)
    (context_text : option string) (n : nat) :
  forall w,
    (3 <= default 0%nat (errorCounts w !! (errorType +:+ "_" +:+ message)))%nat ->
    clipboard (Nat.iter n (ErrorHandler.handleError P message errorType context_text) w)
    = clipboard w /\
    default 0%nat
      (errorCounts (Nat.iter n (ErrorHandler.handleError P message errorType context_text) w)
       !! (errorType +:+ "_" +:+ message))
    = (default 0%nat (errorCounts w !! (errorType +:+ "_" +:+ message)) + n)%nat.
Proof.
  induction n as [| n IH]; intros w Hcount.
  - split; [reflexivity | cbn [Nat.iter nat_rect]; now rewrite Nat.add_0_r].
  - destruct (IH w Hcount) as [Hclip Hn].
    rewrite !Nat.iter_succ.
    rewrite handleError_suppressed by (rewrite Hn; lia).
    cbn [clipboard errorCounts set_errorCounts].
    split; [exact Hclip |]. rewrite lookup_insert_eq, Hn.
    generalize (default 0%nat (errorCounts w !! (errorType +:+ "_" +:+ message))).
    intros c. cbn. lia.
Qed.

(** X5: [handleError] raises the count of the error (its type and message)
    by one and leaves the other counts alone; once an error has been counted
    three times, handling it again changes nothing but that count: no
    recovery is attempted, so nothing reaches the clipboard, however often
    it happens again. *)
Theorem X5_handleError_counts_and_suppresses :
  forall (P : Platform) (message errorType : string) (context_text : option string)
         (w : World),
    errorCounts (ErrorHandler.handleError P message errorType context_text w)
    = <[errorType +:+ "_" +:+ message :=
          (default 0%nat (errorCounts w !! (errorType +:+ "_" +:+ message)) + 1)%nat]>
        (errorCounts w) /\
    ((3 <= default 0%nat (errorCounts w !! (errorType +:+ "_" +:+ message)))%nat ->
     forall n,
       clipboard (Nat.iter n (ErrorHandler.handleError P message errorType context_text) w)
       = clipboard w /\
       default 0%nat
         (errorCounts (Nat.iter n (ErrorHandler.handleError P message errorType context_text) w)
          !! (errorType +:+ "_" +:+ message))
       = (default 0%nat (errorCounts w !! (errorType +:+ "_" +:+ message)) + n)%nat).
Proof.
  intros P message errorType context_text w. split.
  - apply handleError_errorCounts.
  - intros Hcount n. now apply handleError_iter.
Qed.

(** X5 at a sample state: an error counted three times already, handled
    twice more with a copy command that would succeed. *)
Lemma X5_handleError_at_sample :
  let w := set_errorCounts (insert "CLIPBOARD_WRITE_FAILED_Copy failed." 3%nat) Sample.world in
  clipboard (Nat.iter 2 (ErrorHandler.handleError Sample.platform "Copy failed."
                           "CLIPBOARD_WRITE_FAILED" None) w) = [] /\
  default 0%nat
    (errorCounts (Nat.iter 2 (ErrorHandler.handleError Sample.platform "Copy failed."
                                "CLIPBOARD_WRITE_FAILED" None) w)
     !! "CLIPBOARD_WRITE_FAILED_Copy failed.") = 5%nat.
Proof.
  cbv zeta.
  destruct (proj2 (X5_handleError_counts_and_suppresses Sample.platform "Copy failed."
                     "CLIPBOARD_WRITE_FAILED" None
                     (set_errorCounts (insert "CLIPBOARD_WRITE_FAILED_Copy failed." 3%nat)
                        Sample.world))) with (n := 2%nat) as [Hclip Hcount].
  - vm_compute. lia.
  - split; [exact Hclip |].
    etransitivity; [exact Hcount | vm_compute; reflexivity].
Defined.

Lemma append_neq (s t : string) (c : ascii) : s <> s +:+ String c t.
Proof.
  induction s as [| a s IH]; [discriminate |].
  change (String a s +:+ String c t) with (String a (s +:+ String c t)).
  intros Heq. injection Heq as Heq. now apply IH.
Qed.

Lemma trim_empty : JS.trim "" = "".
Proof. reflexivity. Qed.

(** The [selector] case of [copyToClipboard]. *)
Lemma copyToClipboard_selector_eq (P : Platform) (data : CSSInfo) (w : World) :
  ClipboardManager.copyToClipboard P (Some data) "selector" w
  = let selector := match info_element data with
                    | Some element => el_selector element
                    | None => ""
                    end in
    if negb (JS.trim selector =? "") && negb (selector =? "{}")
    then match ClipboardManager.performCopy P selector w with
         | (Normal true, w') => (Normal "Selector", w')
         | (Normal false, w') =>
             (Throw "Copy failed.",
              ErrorHandler.handleError P "Copy failed." "CLIPBOARD_WRITE_FAILED" None w')
         | (Throw e, w') =>
             (Throw e, ErrorHandler.handleError P e "CLIPBOARD_WRITE_FAILED" None w')
         | (Diverge, w') => (Diverge, w')
         end
    else (Throw "No CSS content to copy.",
          ErrorHandler.handleError P "No CSS content to copy." "CLIPBOARD_WRITE_FAILED" None w).
Proof.
  cbv zeta.
  unfold ClipboardManager.copyToClipboard, SafeWrapper.executeAsync, SafeWrapper.execute.
  unfold bind at 1.
  change ("selector" =? "selector") with true. cbv iota.
  unfold bind, ret, throw.
  rewrite isValidCopyText_eq.
  set (selector := match info_element data with
                   | Some element => el_selector element
                   | None => ""
                   end).
  assert (Hform : (selector =? selector +:+ " {" +:+ JS.LF +:+ JS.LF +:+ "}") = false)
    by (apply String.eqb_neq; apply append_neq).
  rewrite Hform. cbn [negb]. rewrite andb_true_r.
  assert (Htruthy : JS.truthy selector && negb (JS.trim selector =? "")
                    = negb (JS.trim selector =? "")).
  { destruct (JS.truthy selector) eqn:Ht; [reflexivity |].
    apply truthy_false in Ht. rewrite Ht. reflexivity. }
  rewrite Htruthy.
  destruct (negb (JS.trim selector =? "") && negb (selector =? "{}")); cbn [negb];
    [| reflexivity].
  destruct (ClipboardManager.performCopy P selector w) as [[[|] | e |] w']; reflexivity.
Qed.

(** X6: copying the selector depends on nothing but the selector of the
    result: two results with the same element part give the same outcome,
    whatever their styles.  When the copy succeeds the label is [Selector]
    and the clipboard has received the selector: as it is through the
    clipboard API, as the hidden text field has it selected through the
    fallback, which is as it is when it has no carriage return and at most
    99999 code units.  A selector that is empty or white space only is
    rejected with [No CSS content to copy.]; a selector that is neither
    that nor [{}] is copied whenever the clipboard API accepts it. *)
Theorem X6_copy_selector :
  forall (P : Platform) (data : CSSInfo) (w : World),
    let selector := match info_element data with
                    | Some element => el_selector element
                    | None => ""
                    end in
    (forall data',
        info_element data' = info_element data ->
        ClipboardManager.copyToClipboard P (Some data') "selector" w
        = ClipboardManager.copyToClipboard P (Some data) "selector" w) /\
    (forall label w',
        ClipboardManager.copyToClipboard P (Some data) "selector" w = (Normal label, w') ->
        label = "Selector" /\
        clipboard w' = ClipboardManager.copied P selector :: clipboard w /\
        (JS.includes JS.CR selector = false -> (JS.utf16_length selector <= 99999)%N ->
         clipboard w' = selector :: clipboard w)) /\
    (JS.trim selector = "" ->
     exists w',
       ClipboardManager.copyToClipboard P (Some data) "selector" w
       = (Throw "No CSS content to copy.", w')) /\
    (JS.trim selector <> "" -> selector <> "{}" ->
     navigator_clipboard_writeText_present P && navigator_clipboard_writeText_resolves P selector
     = true ->
     ClipboardManager.copyToClipboard P (Some data) "selector" w
     = (Normal "Selector", set_clipboard (cons selector) w)).
Proof.
  intros P data w selector. split; [| split; [| split]].
  - intros data' Helement. rewrite !copyToClipboard_selector_eq. cbv zeta.
    now rewrite Helement.
  - intros label w' Hrun. rewrite copyToClipboard_selector_eq in Hrun. cbv zeta in Hrun.
    fold selector in Hrun.
    destruct (negb (JS.trim selector =? "") && negb (selector =? "{}")); [| discriminate Hrun].
    destruct (performCopy_spec P selector w) as [success [w1 [Hcopy Hclip]]].
    rewrite Hcopy in Hrun. destruct success; [| discriminate Hrun].
    injection Hrun as <- <-. split; [reflexivity |]. split; [exact Hclip |].
    intros Hnone Hshort. rewrite Hclip.
    now rewrite (proj2 (proj2 (copied_spec P selector)) Hnone Hshort).
  - intros Hblank. rewrite copyToClipboard_selector_eq. cbv zeta. fold selector.
    rewrite Hblank. cbn [String.eqb negb andb]. eexists. reflexivity.
  - intros Hblank Hbraces Hapi. rewrite copyToClipboard_selector_eq. cbv zeta. fold selector.
    apply String.eqb_neq in Hblank, Hbraces. rewrite Hblank, Hbraces. cbn [negb andb].
    unfold ClipboardManager.performCopy, SafeWrapper.executeAsync, SafeWrapper.execute,
      bind, ret, modify.
    now rewrite Hapi.
Qed.

(** X6 at the sample page: the selector [#hero] is copied as it is. *)
Lemma X6_copy_selector_at_sample :
  ClipboardManager.copyToClipboard Sample.platform (Some Sample.info_noInline) "selector"
    Sample.world
  = (Normal "Selector", set_clipboard (cons "#hero") Sample.world).
Proof.
  apply (proj2 (proj2 (proj2 (X6_copy_selector Sample.platform Sample.info_noInline
                                Sample.world)))).
  - vm_compute. discriminate.
  - discriminate.
  - reflexivity.
Defined.

(** X7: in the modes [all] and [computed], when every style of the result
    has an empty value or one of the six values [generateCSSText] drops,
    there is nothing to copy: the call rejects with
    [No CSS content to copy.] without trying to copy the text (what the
    handler of the rejection does to the clipboard is as for the other
    rejections). *)
Theorem X7_copy_all_with_nothing_to_copy :
  forall (P : Platform) (data : CSSInfo) (type : string) (w : World),
    type = "all" \/ type = "computed" ->
    (forall prop value,
        In (prop, value) (ClipboardManager.allStyles data) ->
        value = "" \/
        In value ["none"; "auto"; "normal"; "initial"; "0px"; "rgba(0, 0, 0, 0)"]) ->
    ClipboardManager.copyToClipboard P (Some data) type w
    = (Throw "No CSS content to copy.",
       ErrorHandler.handleError P "No CSS content to copy." "CLIPBOARD_WRITE_FAILED" None w).
Proof.
  intros P data type w Htype Hdropped.
  rewrite (copyToClipboard_all_eq P data type w Htype). cbv zeta.
  assert (Hnone : ClipboardManager.sortedDeclarations P (ClipboardManager.allStyles data) = []).
  { destruct (ClipboardManager.sortedDeclarations P (ClipboardManager.allStyles data))
      as [| [prop value] rest] eqn:Hsorted; [reflexivity |].
    assert (Hin : In (prop, value)
                    (ClipboardManager.sortedDeclarations P (ClipboardManager.allStyles data)))
      by (rewrite Hsorted; now left).
    apply sortedDeclarations_In in Hin. destruct Hin as [Hin Hkeep].
    apply keepDeclaration_true in Hkeep. cbn [snd] in Hkeep.
    destruct (Hdropped prop value Hin) as [Hempty | Hsix]; tauto. }
  rewrite Hnone. reflexivity.
Qed.

(** X7 at a sample result: the only computed style is [z-index: auto]. *)
Lemma X7_copy_all_with_nothing_to_copy_at_sample :
  ClipboardManager.copyToClipboard Sample.platform
    (Some (mkCSSInfo (Some (mkElementInfo "div" "" "hero" "#hero")) [("z-index", "auto")] [] []))
    "all" Sample.world
  = (Throw "No CSS content to copy.",
     ErrorHandler.handleError Sample.platform "No CSS content to copy."
       "CLIPBOARD_WRITE_FAILED" None Sample.world).
Proof.
  apply X7_copy_all_with_nothing_to_copy; [now left |].
  intros prop value Hin. cbn in Hin. destruct Hin as [Heq | []].
  injection Heq as <- <-. right. cbn. tauto.
Defined.

(** The [inline] case of [copyToClipboard] when there are inline styles. *)
Lemma copyToClipboard_inline_eq (P : Platform) (data : CSSInfo) (w : World) :
  info_inline data <> [] ->
  ClipboardManager.copyToClipboard P (Some data) "inline" w
  = let selector := match info_element data with
                    | Some element => el_selector element
                    | None => ""
                    end in
    let text := match ClipboardManager.sortedDeclarations P (info_inline data) with
                | [] => ""
                | _ :: _ =>
                    (if JS.truthy selector then selector +:+ " {" else "{")
                    +:+ JS.LF
                    +:+ JS.join JS.LF (ClipboardManager.cssLines P (info_inline data))
                    +:+ JS.LF +:+ "}"
                end in
    if JS.truthy text && negb (JS.trim text =? "") && negb (text =? "{}")
       && negb (text =? selector +:+ " {" +:+ JS.LF +:+ JS.LF +:+ "}")
    then match ClipboardManager.performCopy P text w with
         | (Normal true, w') => (Normal "Inline styles", w')
         | (Normal false, w') =>
             (Throw "Copy failed.",
              ErrorHandler.handleError P "Copy failed." "CLIPBOARD_WRITE_FAILED" None w')
         | (Throw e, w') =>
             (Throw e, ErrorHandler.handleError P e "CLIPBOARD_WRITE_FAILED" None w')
         | (Diverge, w') => (Diverge, w')
         end
    else (Throw "No CSS content to copy.",
          ErrorHandler.handleError P "No CSS content to copy." "CLIPBOARD_WRITE_FAILED" None w).
Proof.
  intros Hinline. cbv zeta.
  unfold ClipboardManager.copyToClipboard, SafeWrapper.executeAsync, SafeWrapper.execute.
  unfold bind at 1.
  change ("inline" =? "selector") with false.
  change (("inline" =? "all") || ("inline" =? "computed")) with false.
  change ("inline" =? "inline") with true. cbv iota.
  unfold bind at 1.
  unfold ClipboardManager.generateInlineCSSText, SafeWrapper.execute.
  unfold bind at 1.
  destruct (info_inline data) as [| entry rest] eqn:Hstyles; [contradiction |].
  cbn [JS.keys map length Nat.eqb]. rewrite generateCSSText_eq. unfold ret at 1.
  unfold bind. rewrite isValidCopyText_eq.
  destruct (JS.truthy _ && _ && _ && _); cbn [negb]; [| reflexivity].
  destruct (ClipboardManager.performCopy P _ w) as [[[|] | e |] w']; reflexivity.
Qed.

Lemma copyToClipboard_inline_empty (P : Platform) (data : CSSInfo) (w : World) :
  info_inline data = [] ->
  fst (ClipboardManager.copyToClipboard P (Some data) "inline" w)
  = Throw "No inline styles found.".
Proof.
  intros Hinline.
  unfold ClipboardManager.copyToClipboard, SafeWrapper.executeAsync, SafeWrapper.execute.
  unfold bind at 1.
  change ("inline" =? "selector") with false.
  change (("inline" =? "all") || ("inline" =? "computed")) with false.
  change ("inline" =? "inline") with true. cbv iota.
  unfold bind at 1.
  unfold ClipboardManager.generateInlineCSSText, SafeWrapper.execute, bind, throw.
  rewrite Hinline. reflexivity.
Qed.

(** X8: in the mode [inline], when the copy succeeds there are inline
    styles, the label is [Inline styles], and the text handed to the
    clipboard is built from the inline styles alone: the block of
    [generateCSSText] over the inline styles that pass its filter, the
    computed and categorised styles playing no part.  The clipboard API
    receives the block as it is, the fallback what the hidden text field
    has selected of it, which is the whole block when it has no carriage
    return and at most 99999 code units. *)
Theorem X8_copy_inline_text :
  forall (P : Platform) (data : CSSInfo) (label : string) (w w' : World),
    ClipboardManager.copyToClipboard P (Some data) "inline" w = (Normal label, w') ->
    let selector := match info_element data with
                    | Some element => el_selector element
                    | None => ""
                    end in
    let declarations := ClipboardManager.sortedDeclarations P (info_inline data) in
    let block :=
      (if JS.truthy selector then selector +:+ " {" else "{")
      +:+ JS.LF
      +:+ JS.join JS.LF (map ClipboardManager.declarationLine declarations)
      +:+ JS.LF +:+ "}" in
    label = "Inline styles" /\
    declarations <> [] /\
    (forall entry,
        In entry declarations <->
        In entry (info_inline data) /\ ClipboardManager.keepDeclaration entry = true) /\
    clipboard w' = ClipboardManager.copied P block :: clipboard w /\
    (JS.includes JS.CR block = false -> (JS.utf16_length block <= 99999)%N ->
     clipboard w' = block :: clipboard w).
Proof.
  intros P data label w w' Hrun selector declarations block.
  destruct (info_inline data) as [| entry rest] eqn:Hstyles.
  - pose proof (copyToClipboard_inline_empty P data w Hstyles) as Hthrow.
    rewrite Hrun in Hthrow. discriminate Hthrow.
  - assert (Hne : info_inline data <> []) by (rewrite Hstyles; discriminate).
    rewrite (copyToClipboard_inline_eq P data w Hne) in Hrun. cbv zeta in Hrun.
    rewrite Hstyles in Hrun. fold selector in Hrun. fold declarations in Hrun.
    unfold ClipboardManager.cssLines in Hrun. fold declarations in Hrun.
    assert (Hin : forall e,
               In e declarations <->
               In e (entry :: rest) /\ ClipboardManager.keepDeclaration e = true)
      by (intros e; apply sortedDeclarations_In).
    destruct declarations as [| d ds] eqn:Hdecl.
    + cbn in Hrun. discriminate Hrun.
    + match type of Hrun with
      | (if ?valid then _ else _) = _ => destruct valid; [| discriminate Hrun]
      end.
      match type of Hrun with
      | context [ClipboardManager.performCopy P ?text w] =>
          destruct (performCopy_spec P text w) as [success [w1 [Hcopy Hclip]]];
          rewrite Hcopy in Hrun
      end.
      destruct success; [| discriminate Hrun].
      injection Hrun as <- <-.
      split; [reflexivity |]. split; [discriminate |]. split; [exact Hin |].
      split; [exact Hclip |].
      intros Hnone Hshort. rewrite Hclip. f_equal.
      exact (proj2 (proj2 (copied_spec P _)) Hnone Hshort).
Qed.

(** X8 at a sample result: of the inline styles [color: red] and
    [display: none] the first is copied under the selector [#hero]. *)
Lemma X8_copy_inline_text_at_sample :
  let data := mkCSSInfo (Some (mkElementInfo "div" "" "hero" "#hero")) [("width", "10px")]
                [("color", "red"); ("display", "none")] [] in
  let w' := snd (ClipboardManager.copyToClipboard Sample.platform (Some data) "inline"
                   Sample.world) in
  let declarations := ClipboardManager.sortedDeclarations Sample.platform (info_inline data) in
  let block :=
    ("#hero" +:+ " {") +:+ JS.LF
    +:+ JS.join JS.LF (map ClipboardManager.declarationLine declarations)
    +:+ JS.LF +:+ "}" in
  "Inline styles" = "Inline styles" /\
  declarations <> [] /\
  (forall entry,
      In entry declarations <->
      In entry (info_inline data) /\ ClipboardManager.keepDeclaration entry = true) /\
  clipboard w' = ClipboardManager.copied Sample.platform block :: clipboard Sample.world /\
  (JS.includes JS.CR block = false -> (JS.utf16_length block <= 99999)%N ->
   clipboard w' = block :: clipboard Sample.world).
Proof.
  exact (X8_copy_inline_text Sample.platform
           (mkCSSInfo (Some (mkElementInfo "div" "" "hero" "#hero")) [("width", "10px")]
              [("color", "red"); ("display", "none")] [])
           "Inline styles" Sample.world
           (snd (ClipboardManager.copyToClipboard Sample.platform
                   (Some (mkCSSInfo (Some (mkElementInfo "div" "" "hero" "#hero"))
                            [("width", "10px")] [("color", "red"); ("display", "none")] []))
                   "inline" Sample.world))
           eq_refl).
Defined.

(** ** The caches *)

(** X9: the selector cache is keyed by the identity of the element and has
    no age: once [getSelector] has generated and stored the selector of an
    element, every later call for that element returns the stored selector
    and changes nothing, whatever the element's id and classes have become
    and whatever time has passed.  Generating the selector changes nothing
    either, but for the error it counts on an element whose [className] is
    an object. *)
Theorem X9_getSelector_cached :
  forall (P : Platform) (e : Element) (w : World),
    selectorCache w !! handle e = None ->
    exists selector w1,
      StyleCache.generateOptimizedSelector P (Some e) w = (Normal selector, w1) /\
      sameButErrorCounts w w1 /\
      (forall name, className e = ClassName_string name -> w1 = w) /\
      StyleCache.getSelector P (Some e) w
      = (Normal selector, set_selectorCache (insert (handle e) selector) w1) /\
      forall e' w2,
        handle e' = handle e ->
        selectorCache w2 !! handle e = Some selector ->
        StyleCache.getSelector P (Some e') w2 = (Normal selector, w2).
Proof.
  intros P e w Hmiss.
  destruct (generateOptimizedSelector_returns P e w) as [selector [w1 [Hrun [Hsame Hstring]]]].
  exists selector, w1. split; [exact Hrun |]. split; [exact Hsame |].
  split; [exact Hstring |]. split.
  - unfold StyleCache.getSelector, SafeWrapper.execute.
    unfold bind at 1. unfold bind at 1. unfold gets, StyleCache.weak_get.
    rewrite Hmiss. unfold bind at 1. rewrite Hrun. reflexivity.
  - intros e' w2 Hsame' Hcached.
    unfold StyleCache.getSelector, SafeWrapper.execute.
    unfold bind at 1. unfold bind at 1. unfold gets, StyleCache.weak_get.
    rewrite Hsame', Hcached. reflexivity.
Qed.

(** X9 at the sample page: [hero] gets [#hero]; after its id has been
    changed to [banner], the answer is still [#hero]. *)
Lemma X9_getSelector_cached_at_sample :
  exists selector,
    StyleCache.generateOptimizedSelector Sample.platform (Some Sample.hero) Sample.world
    = (Normal selector, Sample.world) /\
    StyleCache.getSelector Sample.platform (Some Sample.hero) Sample.world
    = (Normal selector, set_selectorCache (insert (handle Sample.hero) selector) Sample.world) /\
    StyleCache.getSelector Sample.platform
      (Some (mkElement 2 "DIV" "banner" "" (Some [7; 2; 3]%positive) (Some Sample.body) None))
      (set_selectorCache (insert (handle Sample.hero) selector) Sample.world)
    = (Normal selector,
       set_selectorCache (insert (handle Sample.hero) selector) Sample.world).
Proof.
  destruct (X9_getSelector_cached Sample.platform Sample.hero Sample.world eq_refl)
    as [selector [w1 [Hgenerate [_ [Hstring [Hfirst Hlater]]]]]].
  rewrite (Hstring "" eq_refl) in Hgenerate, Hfirst.
  exists selector. split; [exact Hgenerate |]. split; [exact Hfirst |].
  apply Hlater; [reflexivity |].
  cbn [selectorCache set_selectorCache]. apply lookup_insert_eq.
Defined.

(** The step of [getComputedStyle] that finds no entry and reads a style. *)
Lemma getComputedStyle_miss_step (P : Platform) (fuel : nat) (e : Element)
    (computedStyle : string -> Outcome string) (w : World) :
  cache w !! handle e = None ->
  window_getComputedStyle_at P (getComputedStyleCalls w) e = Returns computedStyle ->
  exists counts,
    let w1 :=
      set_dateNowCalls S
        (set_cache
           (insert (handle e)
              (mkCacheEntry (snapshotOf computedStyle) (Date_now_at P (dateNowCalls w))))
           (set_dateNowCalls S
              (set_errorCounts (fun _ => counts) (set_getComputedStyleCalls S w)))) in
    StyleCache.getComputedStyle P (S fuel) (Some e) w
    = if (Date_now_at P (S (dateNowCalls w)) - Date_now_at P (dateNowCalls w)
          >? StyleCache.maxCacheAge)%Z
      then StyleCache.getComputedStyle P fuel (Some e) (set_cache (delete (handle e)) w1)
      else (Normal (snapshotOf computedStyle), w1).
Proof.
  intros Hmiss Hread.
  destruct (cacheImportantProperties_spec P computedStyle (set_getComputedStyleCalls S w))
    as [w0 [Hsnapshot [counts Hw0]]].
  exists counts. cbv zeta.
  cbn [StyleCache.getComputedStyle]. unfold bind at 1. unfold SafeWrapper.execute.
  unfold bind at 1. unfold bind at 1. unfold gets, StyleCache.weak_get.
  rewrite Hmiss. unfold bind at 1.
  unfold StyleCache.window_getComputedStyle. rewrite Hread.
  unfold bind at 1. rewrite Hsnapshot.
  unfold bind at 1. unfold StyleCache.Date_now at 1.
  unfold bind at 1. unfold StyleCache.cache_set, modify, ret.
  unfold bind at 1. unfold StyleCache.Date_now at 1.
  subst w0. cbn [dateNowCalls set_dateNowCalls set_cache set_errorCounts
                  set_getComputedStyleCalls entry_timestamp].
  destruct (Date_now_at P (S (dateNowCalls w)) - Date_now_at P (dateNowCalls w)
            >? StyleCache.maxCacheAge)%Z; [| reflexivity].
  unfold bind at 1. unfold StyleCache.cache_delete, modify.
  match goal with
  | |- context [StyleCache.getComputedStyle P fuel (Some e) ?w2] =>
      destruct (getComputedStyle_no_throw P fuel (Some e) w2)
        as [[data [w' Hrun]] | [w' Hrun]]; rewrite Hrun; reflexivity
  end.
Qed.

Lemma getComputedStyle_miss_throws_eq (P : Platform) (fuel : nat) (e : Element)
    (message : string) (w : World) :
  cache w !! handle e = None ->
  window_getComputedStyle_at P (getComputedStyleCalls w) e = Throws message ->
  StyleCache.getComputedStyle P (S fuel) (Some e) w
  = (Normal [],
     ErrorHandler.handleError P message "STYLE_CACHE_ERROR" None
       (set_getComputedStyleCalls S w)).
Proof.
  intros Hmiss Hread.
  cbn [StyleCache.getComputedStyle]. unfold bind at 1. unfold SafeWrapper.execute.
  unfold bind at 1. unfold bind at 1. unfold gets, StyleCache.weak_get.
  rewrite Hmiss. unfold bind at 1.
  unfold StyleCache.window_getComputedStyle. now rewrite Hread.
Qed.

(** What a style lookup for [e] leaves alone. *)
Lemma getComputedStyle_frame (P : Platform) (e : Element) (fuel : nat) :
  forall w,
    let w' := snd (StyleCache.getComputedStyle P fuel (Some e) w) in
    (forall h, h <> handle e -> cache w' !! h = cache w !! h) /\
    selectorCache w' = selectorCache w /\
    clipboard w' = clipboard w.
Proof.
  induction fuel as [| fuel IH]; intros w; cbv zeta.
  - repeat split; reflexivity.
  - destruct (cache w !! handle e) as [entry |] eqn:Hentry.
    + destruct (Z_le_gt_dec (Date_now_at P (dateNowCalls w) - entry_timestamp entry)
                  StyleCache.maxCacheAge) as [Hfresh | Hstale].
      * rewrite (getComputedStyle_hit P fuel e entry w Hentry Hfresh).
        repeat split; reflexivity.
      * rewrite (getComputedStyle_stale P fuel e entry w Hentry Hstale).
        destruct (IH (set_cache (delete (handle e)) (set_dateNowCalls S w)))
          as [Hcache [Hselector Hclipboard]].
        split; [| split; assumption].
        intros h Hother. rewrite (Hcache h Hother).
        cbn [cache set_cache set_dateNowCalls]. now apply lookup_delete_ne.
    + destruct (window_getComputedStyle_at P (getComputedStyleCalls w) e)
        as [computedStyle | message] eqn:Hread.
      * destruct (getComputedStyle_miss_step P fuel e computedStyle w Hentry Hread)
          as [counts Hstep].
        cbv zeta in Hstep. rewrite Hstep.
        destruct (Date_now_at P (S (dateNowCalls w)) - Date_now_at P (dateNowCalls w)
                  >? StyleCache.maxCacheAge)%Z.
        -- match goal with
           | |- context [StyleCache.getComputedStyle P fuel (Some e) ?w2] =>
               destruct (IH w2) as [Hcache [Hselector Hclipboard]]
           end.
           split; [| split; assumption].
           intros h Hother. rewrite (Hcache h Hother).
           cbn [cache set_cache set_dateNowCalls set_errorCounts set_getComputedStyleCalls].
           rewrite lookup_delete_ne by congruence. now apply lookup_insert_ne.
        -- cbn [snd cache selectorCache clipboard set_cache set_dateNowCalls set_errorCounts
                  set_getComputedStyleCalls].
           split; [| split; reflexivity].
           intros h Hother. now apply lookup_insert_ne.
      * rewrite (getComputedStyle_miss_throws_eq P fuel e message w Hentry Hread).
        destruct (handleError_sameButErrorCounts P message "STYLE_CACHE_ERROR" None
                    (set_getComputedStyleCalls S w)) as [counts Hsame]; [discriminate |].
        cbn [snd]. rewrite Hsame. repeat split; reflexivity.
Qed.

(** X10: a style lookup for one element leaves the cached snapshots of all
    other elements, the selector cache and the clipboard as they are,
    whether it hits, refreshes a stale entry, reads a new style or fails;
    and a lookup for [null] or [undefined] answers the empty mapping. *)
Theorem X10_getComputedStyle_frame :
  forall (P : Platform) (fuel : nat) (w : World),
    (forall e,
        let w' := snd (StyleCache.getComputedStyle P fuel (Some e) w) in
        (forall h, h <> handle e -> cache w' !! h = cache w !! h) /\
        selectorCache w' = selectorCache w /\
        clipboard w' = clipboard w) /\
    (exists w', StyleCache.getComputedStyle P (S fuel) None w = (Normal [], w') /\
                cache w' = cache w).
Proof.
  intros P fuel w. split.
  - intros e. apply getComputedStyle_frame.
  - eexists. split; [reflexivity |].
    match goal with
    | |- cache (ErrorHandler.handleError P ?m ?t ?c ?w0) = _ =>
        destruct (handleError_sameButErrorCounts P m t c w0) as [counts Hsame];
        [discriminate | rewrite Hsame; reflexivity]
    end.
Qed.

(** ** The popup, continued *)

Lemma fits_spec (P : Platform) (popupWidth popupHeight : Q) (pos : Q * Q) :
  PopupManager.fits P popupWidth popupHeight pos = true <->
  (10 <= fst pos)%Q /\ (10 <= snd pos)%Q /\
  (fst pos + popupWidth <= window_innerWidth P - 10)%Q /\
  (snd pos + popupHeight <= window_innerHeight P - 10)%Q.
Proof.
  unfold PopupManager.fits. rewrite !andb_true_iff, !Qle_bool_iff. tauto.
Qed.

Lemma clamped_fits (P : Platform) (popupWidth popupHeight : Q) (pos : Q * Q) :
  PopupManager.fits P popupWidth popupHeight pos = true ->
  (fst (PopupManager.clamped P popupWidth popupHeight pos) == fst pos)%Q /\
  (snd (PopupManager.clamped P popupWidth popupHeight pos) == snd pos)%Q.
Proof.
  intros Hfits. apply fits_spec in Hfits. destruct Hfits as [Hx [Hy [Hw Hh]]].
  unfold PopupManager.clamped. cbn [fst snd]. split.
  - rewrite (Q.min_l (fst pos)) by lra. apply Q.max_r. exact Hx.
  - rewrite (Q.min_l (snd pos)) by lra. apply Q.max_r. exact Hy.
Qed.

(** X11: when one of the four candidates fits the viewport with its
    ten-pixel margins, [updatePopupPosition] puts a shown, unpinned popup
    exactly at the first such candidate: the clamping changes nothing, and
    the popup lies within the margins on all four sides. *)
Theorem X11_fitting_candidate_is_kept :
  forall (P : Platform) (p : Popup) (mousePosition : Q * Q) (w : World) (candidate : Q * Q),
    document_body P <> None ->
    popup w = Some p ->
    isPinned w = false ->
    List.find (PopupManager.fits P (PopupManager.popupWidth p) (PopupManager.popupHeight P p))
      (PopupManager.positions mousePosition (PopupManager.popupWidth p)
         (PopupManager.popupHeight P p)) = Some candidate ->
    exists x y,
      PopupManager.updatePopupPosition P mousePosition w
      = (Normal true,
         set_popup (fun _ => Some (mkPopup (Some x) (Some y) (rect_width p) (rect_height p))) w) /\
      (x == fst candidate)%Q /\ (y == snd candidate)%Q /\
      (10 <= x)%Q /\ (10 <= y)%Q /\
      (x + PopupManager.popupWidth p <= window_innerWidth P - 10)%Q /\
      (y + PopupManager.popupHeight P p <= window_innerHeight P - 10)%Q.
Proof.
  intros P p mousePosition w candidate Hbody Hpopup Hpinned Hfind.
  eexists; eexists. split.
  - exact (updatePopupPosition_moves P mousePosition p w Hbody Hpopup Hpinned).
  - unfold PopupManager.placement, PopupManager.bestPosition. rewrite Hfind.
    apply find_some in Hfind. destruct Hfind as [_ Hfits].
    destruct (clamped_fits P _ _ candidate Hfits) as [Hx Hy].
    apply fits_spec in Hfits. destruct Hfits as [H1 [H2 [H3 H4]]].
    split; [exact Hx |]. split; [exact Hy |].
    rewrite Hx, Hy. repeat split; assumption.
Qed.

(** X11 at the sample page: with the cursor at (900, 100) in the 1000 by
    800 viewport the candidate right of the cursor does not fit a 380 by
    200 popup; the one left of it, (500, 120), does, and the popup goes
    there. *)
Lemma X11_fitting_candidate_at_sample :
  exists x y,
    PopupManager.updatePopupPosition Sample.platform (900%Q, 100%Q) Sample.world_popupShown
    = (Normal true,
       set_popup (fun _ => Some (mkPopup (Some x) (Some y) 380 200)) Sample.world_popupShown) /\
    (x == 900 - 380 - 20)%Q /\ (y == 100 + 20)%Q /\
    (10 <= x)%Q /\ (10 <= y)%Q /\
    (x + 380 <= 1000 - 10)%Q /\ (y + 200 <= 800 - 10)%Q.
Proof.
  refine (X11_fitting_candidate_is_kept Sample.platform
            (mkPopup (Some 120%Q) (Some 120%Q) 380 200) (900%Q, 100%Q)
            Sample.world_popupShown ((900 - 380 - 20)%Q, (100 + 20)%Q) _ eq_refl eq_refl _).
  - discriminate.
  - vm_compute. reflexivity.
Defined.

Ltac split_frame :=
  repeat match goal with |- _ /\ _ => split end;
  try reflexivity;
  try (let Hne := fresh "Hne" in intros Hne; now contradiction Hne).

Lemma updatePopupPosition_frame (P : Platform) (cursor : Q * Q) (w : World) :
  exists ok w',
    PopupManager.updatePopupPosition P cursor w = (Normal ok, w') /\
    isPinned w' = isPinned w /\ isScanning w' = isScanning w /\
    clipboard w' = clipboard w /\ cache w' = cache w /\
    selectorCache w' = selectorCache w /\
    pinnedPosition w' = pinnedPosition w /\
    mousePosition w' = mousePosition w /\
    (popup w' <> popup w ->
     document_body P <> None /\ isPinned w = false /\ popup w <> None).
Proof.
  unfold PopupManager.updatePopupPosition, SafeWrapper.executeDOMOperation.
  destruct (document_body P) as [b |] eqn:Hbody.
  - unfold SafeWrapper.execute, bind, gets, modify, ret.
    destruct (popup w) as [p |] eqn:Hpopup.
    + destruct (isPinned w) eqn:Hpinned.
      * exists true, w. rewrite Hpopup, Hpinned. split_frame.
      * eexists; eexists. split; [reflexivity |]. cbn.
        rewrite Hpinned. split_frame. intros _. repeat split; discriminate.
    + exists true, w. rewrite Hpopup. split_frame.
  - unfold bind, modify, ret.
    destruct (handleError_sameButErrorCounts P "Document not ready" "DOM_NOT_READY" None w)
      as [counts Hsame]; [discriminate |].
    eexists; eexists. split; [reflexivity |]. rewrite Hsame. split_frame.
Qed.

(** X12: a pointer move never raises; it records the cursor of the event
    and leaves the pin flag, the scanning flag, the pinned position, the
    clipboard and both caches as they are; and if the popup is not the same
    afterwards, then the script was scanning, a popup was shown and not
    pinned, the event target was outside the popup and the document had a
    body. *)
Theorem X12_handleMouseMove_frame :
  forall (P : Platform) (event : MouseEvent) (w : World),
    exists w',
      EventHandler.handleMouseMove P event w = (Normal tt, w') /\
      mousePosition w' = (clientX event, clientY event) /\
      isPinned w' = isPinned w /\ isScanning w' = isScanning w /\
      pinnedPosition w' = pinnedPosition w /\
      clipboard w' = clipboard w /\ cache w' = cache w /\
      selectorCache w' = selectorCache w /\
      (popup w' <> popup w ->
       isScanning w = true /\ isPinned w = false /\ popup w <> None /\
       target_closest_popup event = false /\ document_body P <> None).
Proof.
  intros P event w.
  unfold EventHandler.handleMouseMove, CSSScanner.handleMouseMove.
  unfold SafeWrapper.execute at 1. unfold bind at 1. unfold bind at 1.
  unfold modify at 1. unfold bind at 1. unfold gets at 1.
  cbn [mousePosition set_mousePosition].
  set (w0 := set_mousePosition (clientX event, clientY event) w).
  assert (Hstay : exists w',
             (Normal tt, w0) = (Normal tt, w') /\
             mousePosition w' = (clientX event, clientY event) /\
             isPinned w' = isPinned w /\ isScanning w' = isScanning w /\
             pinnedPosition w' = pinnedPosition w /\
             clipboard w' = clipboard w /\ cache w' = cache w /\
             selectorCache w' = selectorCache w /\
             (popup w' <> popup w ->
              isScanning w = true /\ isPinned w = false /\ popup w <> None /\
              target_closest_popup event = false /\ document_body P <> None)).
  { exists w0. split_frame. }
  unfold bind at 1. unfold SafeWrapper.execute at 1.
  unfold bind at 1. unfold gets at 1.
  change (isScanning w0) with (isScanning w).
  destruct (isScanning w) eqn:Hscanning; cbn [negb]; [| exact Hstay].
  unfold bind at 1. unfold gets at 1. change (popup w0) with (popup w).
  destruct (popup w) as [p |] eqn:Hpopup; [| exact Hstay].
  unfold bind at 1. unfold gets at 1. change (isPinned w0) with (isPinned w).
  destruct (isPinned w) eqn:Hpinned; [exact Hstay |].
  unfold bind at 1. unfold ElementSelector.isPopupElement, SafeWrapper.execute at 1.
  unfold bind at 1. unfold ret at 1. unfold ret at 1.
  destruct (target_closest_popup event) eqn:Htarget; [exact Hstay |].
  unfold bind at 1.
  destruct (updatePopupPosition_frame P (clientX event, clientY event) w0)
    as [ok [w' [Hrun [H1 [H2 [H3 [H4 [H5 [H6 [H7 H8]]]]]]]]]].
  rewrite Hrun. unfold ret. exists w'. split; [reflexivity |].
  split; [exact H7 |]. split; [rewrite H1; exact Hpinned |].
  split; [rewrite H2; exact Hscanning |].
  split; [exact H6 |]. split; [exact H3 |]. split; [exact H4 |]. split; [exact H5 |].
  intros Hne. change (popup w0) with (popup w) in H8. rewrite Hpopup in H8.
  destruct (H8 Hne) as [Hbody _].
  repeat split; try reflexivity; try assumption. discriminate.
Qed.

(** X13: [pinPopup] sets the pin flag whether or not a popup is shown; with
    a popup shown it records the popup's current [left] and [top] as the
    pinned position, without one it leaves the pinned position alone.
    [unpinPopup] after it clears the flag and the pinned position.  Neither
    moves the popup, and both answer [true]. *)
Theorem X13_pin_then_unpin :
  forall (P : Platform) (w : World),
    exists w1 w2,
      PopupManager.pinPopup P w = (Normal true, w1) /\
      isPinned w1 = true /\
      pinnedPosition w1
      = match popup w with
        | Some p => Some (style_left p, style_top p)
        | None => pinnedPosition w
        end /\
      popup w1 = popup w /\
      PopupManager.unpinPopup P w1 = (Normal true, w2) /\
      isPinned w2 = false /\ pinnedPosition w2 = None /\ popup w2 = popup w.
Proof.
  intros P w.
  assert (Hpin : exists w1,
             PopupManager.pinPopup P w = (Normal true, w1) /\
             isPinned w1 = true /\
             pinnedPosition w1
             = match popup w with
               | Some p => Some (style_left p, style_top p)
               | None => pinnedPosition w
               end /\
             popup w1 = popup w).
  { unfold PopupManager.pinPopup, SafeWrapper.execute.
    unfold bind at 1. unfold bind at 1. unfold modify at 1.
    unfold bind at 1. unfold gets. cbn [popup set_isPinned].
    destruct (popup w) as [p |] eqn:Hpopup.
    - unfold bind at 1. unfold modify at 1. unfold bind at 1.
      destruct (updatePinnedState_sameButErrorCounts P
                  (set_pinnedPosition (Some (style_left p, style_top p)) (set_isPinned true w)))
        as [ok [w' [Hrun [counts Hsame]]]].
      rewrite Hrun. eexists. split; [reflexivity |]. subst w'.
      repeat split; try reflexivity. now rewrite <- Hpopup.
    - eexists. split; [reflexivity |]. repeat split; try reflexivity.
      now rewrite <- Hpopup. }
  assert (Hunpin : forall w1, exists w2,
             PopupManager.unpinPopup P w1 = (Normal true, w2) /\
             isPinned w2 = false /\ pinnedPosition w2 = None /\ popup w2 = popup w1).
  { intros w1. unfold PopupManager.unpinPopup, SafeWrapper.execute.
    unfold bind at 1. unfold bind at 1. unfold modify at 1.
    unfold bind at 1. unfold modify at 1.
    unfold bind at 1. unfold gets. cbn [popup set_isPinned set_pinnedPosition].
    destruct (popup w1) as [p |] eqn:Hpopup.
    - unfold bind at 1.
      destruct (updatePinnedState_sameButErrorCounts P
                  (set_pinnedPosition None (set_isPinned false w1)))
        as [ok [w' [Hrun [counts Hsame]]]].
      rewrite Hrun. eexists. split; [reflexivity |]. subst w'.
      repeat split; try reflexivity. now rewrite <- Hpopup.
    - eexists. split; [reflexivity |]. repeat split; try reflexivity.
      now rewrite <- Hpopup. }
  destruct Hpin as [w1 [Hrun1 [Hflag1 [Hposition1 Hpopup1]]]].
  destruct (Hunpin w1) as [w2 [Hrun2 [Hflag2 [Hposition2 Hpopup2]]]].
  exists w1, w2. repeat split; try assumption. now rewrite Hpopup2.
Qed.

(** ** Inline styles *)

Lemma fold_left_invariant {A B} (I : A -> Prop) (step : A -> B -> A) (l : list B) :
  (forall acc x, I acc -> I (step acc x)) -> forall acc, I acc -> I (fold_left step l acc).
Proof.
  intros Hstep. induction l as [| x r IH]; intros acc Hacc; [exact Hacc |].
  cbn [fold_left]. apply IH, Hstep, Hacc.
Qed.

Lemma inline_set (prop value : string) (inline : JS.object) :
  value <> "" ->
  NoDup (JS.keys inline) /\ (forall k v, In (k, v) inline -> v <> "") ->
  NoDup (JS.keys (JS.set prop value inline)) /\
  (forall k v, In (k, v) (JS.set prop value inline) -> v <> "").
Proof.
  intros Hvalue [Hnodup Hvalues]. split; [now apply set_NoDup |].
  intros k v Hin. apply set_In in Hin. destruct Hin as [Heq | Hin].
  - congruence.
  - now apply (Hvalues k v).
Qed.

Lemma extractInlineStyles_declarations (declarations : list string) :
  let inline := fold_left CSSAnalyzer.extractInlineStyles_declaration declarations [] in
  NoDup (JS.keys inline) /\
  (forall k v, In (k, v) inline -> v <> "") /\
  (forall k v, In (k, v) inline -> k <> "").
Proof.
  cbv zeta.
  apply (fold_left_invariant
           (fun inline => NoDup (JS.keys inline) /\
                          (forall k v, In (k, v) inline -> v <> "") /\
                          (forall k v, In (k, v) inline -> k <> ""))).
  - intros acc declaration [Hnodup [Hvalues Hkeys]].
    unfold CSSAnalyzer.extractInlineStyles_declaration.
    destruct (0 <? JS.indexOf ":" declaration)%Z; [| now repeat split].
    set (prop := JS.trim (JS.slice_to _ _)). set (value := JS.trim (JS.slice_from _ _)).
    destruct (JS.truthy prop) eqn:Hprop; cbn [andb]; [| now repeat split].
    destruct (JS.truthy value) eqn:Hvalue; [| now repeat split].
    apply truthy_true in Hprop, Hvalue.
    destruct (inline_set prop value acc Hvalue (conj Hnodup Hvalues)) as [Hnodup' Hvalues'].
    repeat split; try assumption.
    intros k v Hin. apply set_In in Hin. destruct Hin as [Heq | Hin].
    + congruence.
    + now apply (Hkeys k v).
  - split; [apply NoDup_nil_2 |]. split; intros k v [].
Qed.

Lemma get_keys (k : string) (o : JS.object) :
  existsb (String.eqb k) (JS.keys o) = match JS.get k o with Some _ => true | None => false end.
Proof.
  induction o as [| [k' v'] r IH]; [reflexivity |].
  cbn [JS.keys map fst existsb JS.get]. rewrite (String.eqb_sym k k').
  destruct (k' =? k)%string; [reflexivity | exact IH].
Qed.

Lemma extractInlineStyles_items (style : CSSStyleDeclaration) :
  let inline := fold_left (CSSAnalyzer.extractInlineStyles_item style) (items style) [] in
  NoDup (JS.keys inline) /\
  (forall prop,
      JS.get prop inline
      = match JS.get prop (items style) with
        | Some value => if JS.truthy value then Some value else None
        | None => None
        end).
Proof.
  cbv zeta.
  set (f := fun prop =>
              match JS.get prop (items style) with
              | Some value => if JS.truthy value then Some value else None
              | None => None
              end).
  set (step := fun (inline : JS.object) (prop : string) =>
                 CSSAnalyzer.extractInlineStyles_item style inline (prop, "")).
  assert (Hstep : forall acc prop,
             step acc prop = match f prop with Some v => JS.set prop v acc | None => acc end).
  { intros acc prop. unfold step, f, CSSAnalyzer.extractInlineStyles_item. cbn [fst].
    destruct (JS.get prop (items style)) as [value |].
    - change (default "" (Some value)) with value. now destruct (JS.truthy value).
    - reflexivity. }
  assert (Hfold : forall l acc,
             fold_left (CSSAnalyzer.extractInlineStyles_item style) l acc
             = fold_left step (JS.keys l) acc).
  { induction l as [| item rest IH]; intros acc; [reflexivity |].
    cbn [fold_left JS.keys map]. rewrite IH. reflexivity. }
  rewrite Hfold. split.
  - apply (collect_NoDup f step Hstep). apply NoDup_nil_2.
  - intros prop. rewrite (collect_get f step Hstep). rewrite get_keys. unfold f.
    destruct (JS.get prop (items style)) as [value |]; [| reflexivity].
    now destruct (JS.truthy value).
Qed.

(** X14: [extractInlineStyles] never raises and changes nothing.  The
    mapping it answers has no property twice and no empty value.  It is
    empty when the element has no [style] object or [style.length] is 0,
    whatever [style.cssText] holds.  When [cssText] is not empty, no
    property name in it is empty; when [cssText] is empty, it holds exactly
    the declared properties whose value is not empty. *)
Theorem X14_extractInlineStyles :
  forall (P : Platform) (e : Element) (w : World),
    exists inline,
      CSSAnalyzer.extractInlineStyles P e w = (Normal inline, w) /\
      NoDup (JS.keys inline) /\
      (forall prop value, In (prop, value) inline -> value <> "") /\
      (match style e with Some s => items s = [] | None => True end -> inline = []) /\
      (forall s, style e = Some s -> cssText s <> "" ->
                 forall prop value, In (prop, value) inline -> prop <> "") /\
      (forall s, style e = Some s -> items s <> [] -> cssText s = "" ->
                 forall prop,
                   JS.get prop inline
                   = match JS.get prop (items s) with
                     | Some value => if JS.truthy value then Some value else None
                     | None => None
                     end).
Proof.
  intros P e w.
  unfold CSSAnalyzer.extractInlineStyles, SafeWrapper.execute, bind.
  destruct (style e) as [s |] eqn:Hstyle.
  - destruct (items s) as [| item rest] eqn:Hitems; cbn [length Nat.eqb].
    + exists []. unfold ret. split; [reflexivity |]. split; [apply NoDup_nil_2 |].
      split; [intros prop value [] |]. split; [reflexivity |].
      split; [intros s' _ _ prop value [] |].
      intros s' Heq Hne. injection Heq as <-. now contradiction Hne.
    + destruct (JS.truthy (cssText s)) eqn:Htext.
      * unfold ret. eexists. split; [reflexivity |].
        destruct (extractInlineStyles_declarations
                    (List.filter (fun decl => JS.truthy (JS.trim decl))
                       (JS.split ";" (cssText s)))) as [Hnodup [Hvalues Hkeys]].
        split; [exact Hnodup |]. split; [exact Hvalues |].
        split; [discriminate |]. split; [intros s' _ _; exact Hkeys |].
        intros s' Heq _ Hempty. injection Heq as <-.
        apply truthy_true in Htext. contradiction.
      * unfold ret. eexists. split; [reflexivity |].
        rewrite <- Hitems.
        destruct (extractInlineStyles_items s) as [Hnodup Hget].
        split; [exact Hnodup |].
        split.
        { intros prop value Hin. apply (get_In prop value _ Hnodup) in Hin.
          rewrite Hget in Hin.
          destruct (JS.get prop (items s)) as [v |]; [| discriminate].
          destruct (JS.truthy v) eqn:Hv; [| discriminate].
          injection Hin as <-. now apply truthy_true. }
        split; [rewrite Hitems; discriminate |].
        split.
        { intros s' Heq Hne. injection Heq as <-.
          apply truthy_false in Htext. contradiction. }
        intros s' Heq _ _. injection Heq as <-. exact Hget.
  - exists []. unfold ret. split; [reflexivity |]. split; [apply NoDup_nil_2 |].
    split; [intros prop value [] |]. split; [reflexivity |].
    split; intros s' Heq; discriminate Heq.
Qed.

(** ** The error history *)

Lemma recordError_skipn {R : Type} (errorHistory : list R) (errorRecord : R) :
  (length errorHistory <= maxHistorySize)%nat ->
  recordError errorHistory errorRecord
  = skipn (length errorHistory + 1 - maxHistorySize) (errorHistory ++ [errorRecord])%list.
Proof.
  intros Hlen. unfold recordError. cbv zeta.
  rewrite List.length_app. cbn [length].
  destruct (Nat.ltb_spec maxHistorySize (length errorHistory + 1)) as [Hfull | Hroom].
  - replace (length errorHistory + 1 - maxHistorySize)%nat with 1%nat by lia.
    reflexivity.
  - replace (length errorHistory + 1 - maxHistorySize)%nat with 0%nat by lia.
    reflexivity.
Qed.

Lemma recordError_length {R : Type} (errorHistory : list R) (errorRecord : R) :
  (length errorHistory <= maxHistorySize)%nat ->
  (length (recordError errorHistory errorRecord) <= maxHistorySize)%nat.
Proof.
  intros Hlen. rewrite recordError_skipn by exact Hlen.
  rewrite List.length_skipn, List.length_app. cbn [length]. lia.
Qed.

Lemma recordErrors_skipn {R : Type} (errorRecords : list R) :
  forall errorHistory,
    (length errorHistory <= maxHistorySize)%nat ->
    fold_left recordError errorRecords errorHistory
    = skipn (length errorHistory + length errorRecords - maxHistorySize)
        (errorHistory ++ errorRecords)%list.
Proof.
  induction errorRecords as [| r rest IH]; intros errorHistory Hlen.
  - cbn [fold_left length]. rewrite app_nil_r.
    replace (length errorHistory + 0 - maxHistorySize)%nat with 0%nat by lia.
    reflexivity.
  - cbn [fold_left]. rewrite IH by (now apply recordError_length).
    rewrite recordError_skipn by exact Hlen.
    rewrite List.length_skipn, List.length_app. cbn [length].
    replace (errorHistory ++ r :: rest)%list with ((errorHistory ++ [r]) ++ rest)%list
      by (rewrite <- app_assoc; reflexivity).
    set (k := (length errorHistory + 1 - maxHistorySize)%nat).
    assert (Hk : (k <= length (errorHistory ++ [r]))%nat)
      by (rewrite List.length_app; cbn [length]; lia).
    rewrite (List.skipn_app (length errorHistory + S (length rest) - maxHistorySize)).
    rewrite (List.skipn_app (length errorHistory + 1 - k + length rest - maxHistorySize)).
    rewrite List.skipn_skipn, List.length_skipn, List.length_app. cbn [length].
    f_equal; f_equal; lia.
Qed.

(** X15: the error history never grows past fifty records: starting from a
    history of at most fifty, after any number of recorded errors it holds
    the most recent records, fifty at most, oldest first. *)
Theorem X15_error_history_window :
  forall (R : Type) (errorHistory errorRecords : list R),
    (length errorHistory <= 50)%nat ->
    let recorded := fold_left recordError errorRecords errorHistory in
    (length recorded <= 50)%nat /\
    length recorded = Nat.min 50 (length errorHistory + length errorRecords) /\
    recorded
    = skipn (length errorHistory + length errorRecords - 50) (errorHistory ++ errorRecords)%list.
Proof.
  intros R errorHistory errorRecords Hlen recorded.
  assert (Heq : recorded
                = skipn (length errorHistory + length errorRecords - 50)
                    (errorHistory ++ errorRecords)%list)
    by (apply recordErrors_skipn; exact Hlen).
  assert (Hlength : length recorded = Nat.min 50 (length errorHistory + length errorRecords))
    by (rewrite Heq, List.length_skipn, List.length_app; lia).
  split; [lia |]. split; [exact Hlength | exact Heq].
Qed.

(** X15 with fifty-three errors recorded into an empty history: the first
    three are gone. *)
Lemma X15_error_history_at_sample :
  let recorded := fold_left recordError (seq 1 53) [] in
  (length recorded <= 50)%nat /\
  length recorded = Nat.min 50 (0 + length (seq 1 53)) /\
  recorded = skipn (0 + length (seq 1 53) - 50) ([] ++ seq 1 53)%list.
Proof.
  apply (X15_error_history_window nat [] (seq 1 53)). cbn. lia.
Defined.

(** ** The scanner as a whole *)

Lemma sameOnScreen_refl (w : World) : sameOnScreen w w.
Proof. repeat split. Qed.

Lemma sameOnScreen_trans (w1 w2 w3 : World) :
  sameOnScreen w1 w2 -> sameOnScreen w2 w3 -> sameOnScreen w1 w3.
Proof.
  unfold sameOnScreen. intros [H1 [H2 [H3 [H4 [H5 H6]]]]] [K1 [K2 [K3 [K4 [K5 K6]]]]].
  repeat split; congruence.
Qed.

Lemma sameButErrorCounts_sameOnScreen (w w' : World) :
  sameButErrorCounts w w' -> sameOnScreen w w'.
Proof. intros [counts ->]. repeat split. Qed.

Lemma handleError_sameOnScreen (P : Platform) (message errorType : string) (w : World) :
  errorType <> "CLIPBOARD_WRITE_FAILED" ->
  sameOnScreen w (ErrorHandler.handleError P message errorType None w).
Proof.
  intros Htype. apply sameButErrorCounts_sameOnScreen.
  now apply handleError_sameButErrorCounts.
Qed.

(** X16: [periodicCleanup] never raises.  It reads the clock once and, when
    more than 60000 ms have passed since the caches were last cleared,
    empties the style cache and the selector cache and takes the next clock
    reading as the time of the clearing; otherwise it leaves both caches
    and that time as they are.  The error counts, the clipboard, the popup
    and the scan mode are not touched. *)
Theorem X16_periodicCleanup :
  forall (P : Platform) (s : Session),
    exists s',
      Scanner.StyleCache_periodicCleanup P s = (Normal tt, s') /\
      (if (Date_now_at P (dateNowCalls (world s)) - lastClearTime s >? 60000)%Z
       then cache (world s') = ∅ /\ selectorCache (world s') = ∅ /\
            lastClearTime s' = Date_now_at P (S (dateNowCalls (world s))) /\
            dateNowCalls (world s') = S (S (dateNowCalls (world s)))
       else cache (world s') = cache (world s) /\
            selectorCache (world s') = selectorCache (world s) /\
            lastClearTime s' = lastClearTime s /\
            dateNowCalls (world s') = S (dateNowCalls (world s))) /\
      errorCounts (world s') = errorCounts (world s) /\
      sameOnScreen (world s) (world s') /\
      highlightedElement s' = highlightedElement s /\
      highlightClass s' = highlightClass s /\
      currentElementData s' = currentElementData s.
Proof.
  intros P s.
  unfold Scanner.StyleCache_periodicCleanup, Scanner.execute.
  unfold bindS at 1. unfold bindS at 1. unfold lift at 1, StyleCache.Date_now.
  cbn [fst snd]. unfold bindS at 1, getsS at 1. cbn [lastClearTime set_world].
  destruct (Date_now_at P (dateNowCalls (world s)) - lastClearTime s >? 60000)%Z.
  - unfold Scanner.StyleCache_clear, Scanner.execute, bindS, lift, modify, modifyS, retS.
    cbn. eexists. split; [reflexivity |]. cbn. repeat split.
  - unfold retS. eexists. split; [reflexivity |]. cbn. repeat split.
Qed.

(** *** The highlight *)

Lemma unhighlighted_empty (s : Session) :
  (forall h, h ∈ highlightClass s -> highlightedElement s = Some h) ->
  match highlightedElement s with
  | Some h => highlightClass s ∖ {[h]}
  | None => highlightClass s
  end = (∅ : gset positive).
Proof.
  intros Hinv. apply leibniz_equiv. intros x. split; [| intros Hx; now apply elem_of_empty in Hx].
  intros Hx. exfalso.
  destruct (highlightedElement s) as [h0 |] eqn:Hh.
  - apply elem_of_difference in Hx. destruct Hx as [Hx Hne].
    specialize (Hinv x Hx). injection Hinv as ->. apply Hne. now apply elem_of_singleton.
  - specialize (Hinv x Hx). discriminate.
Qed.

Lemma removeHighlight_spec (P : Platform) (s : Session) :
  (document_body P <> None /\
   Scanner.ElementSelector_removeHighlight P s
   = (Normal true,
      match highlightedElement s with
      | Some h => set_highlightedElement None (set_highlightClass (fun nodes => nodes ∖ {[h]}) s)
      | None => s
      end)) \/
  (document_body P = None /\
   Scanner.ElementSelector_removeHighlight P s
   = (Normal false,
      set_world (ErrorHandler.handleError P "Document not ready" "DOM_NOT_READY" None) s)).
Proof.
  unfold Scanner.ElementSelector_removeHighlight, Scanner.executeDOMOperation.
  destruct (document_body P) as [b |].
  - left. split; [discriminate |].
    unfold Scanner.execute, bindS, getsS, modifyS, retS.
    now destruct (highlightedElement s).
  - right. split; reflexivity.
Qed.

Lemma highlightElement_spec (P : Platform) (element : option Element) (s : Session) :
  (exists e,
      document_body P <> None /\ element = Some e /\
      Scanner.ElementSelector_highlightElement P element s
      = (Normal true,
         set_lastHoverElement (Some (handle e))
           (set_highlightedElement (Some (handle e))
              (set_highlightClass (fun nodes => nodes ∪ {[handle e]})
                 match highlightedElement s with
                 | Some h =>
                     set_highlightedElement None
                       (set_highlightClass (fun nodes => nodes ∖ {[h]}) s)
                 | None => s
                 end)))) \/
  (document_body P <> None /\ element = None /\
   Scanner.ElementSelector_highlightElement P element s = (Normal false, s)) \/
  (document_body P = None /\
   Scanner.ElementSelector_highlightElement P element s
   = (Normal false,
      set_world (ErrorHandler.handleError P "Document not ready" "DOM_NOT_READY" None) s)).
Proof.
  destruct (removeHighlight_spec P s) as [[Hbody Hremove] | [Hbody Hremove]].
  - unfold Scanner.ElementSelector_highlightElement, Scanner.executeDOMOperation.
    destruct (document_body P) as [b |] eqn:Hb; [| contradiction].
    destruct element as [e |].
    + left. exists e. split; [discriminate |]. split; [reflexivity |].
      unfold Scanner.execute. unfold bindS at 1. unfold bindS at 1.
      rewrite Hremove. reflexivity.
    + right. left. split; [discriminate |]. split; reflexivity.
  - right. right. split; [exact Hbody |].
    unfold Scanner.ElementSelector_highlightElement, Scanner.executeDOMOperation.
    rewrite Hbody. reflexivity.
Qed.

(** X17: at most one element is highlighted.  If the highlight class is on
    no node but the one recorded as highlighted, this is still so after
    [highlightElement], [removeHighlight] and [reset], none of which
    raises.  When [highlightElement] answers [true] the class is on the
    given element and on no other, and that element is the highlighted and
    the last hovered one; when it answers [false] the highlight is as
    before.  When [removeHighlight] answers [true] no node carries the
    class.  [reset] always answers [true] and forgets the last hovered
    element, and with a document body it leaves no node highlighted. *)
Theorem X17_single_highlight :
  forall (P : Platform) (s : Session),
    (forall h, h ∈ highlightClass s -> highlightedElement s = Some h) ->
    (forall element,
        exists ok s',
          Scanner.ElementSelector_highlightElement P element s = (Normal ok, s') /\
          (forall h, h ∈ highlightClass s' -> highlightedElement s' = Some h) /\
          (ok = true ->
           exists e, element = Some e /\ highlightClass s' = {[handle e]} /\
                     highlightedElement s' = Some (handle e) /\
                     lastHoverElement s' = Some (handle e)) /\
          (ok = false ->
           highlightClass s' = highlightClass s /\
           highlightedElement s' = highlightedElement s /\
           lastHoverElement s' = lastHoverElement s)) /\
    (exists ok s',
        Scanner.ElementSelector_removeHighlight P s = (Normal ok, s') /\
        (forall h, h ∈ highlightClass s' -> highlightedElement s' = Some h) /\
        lastHoverElement s' = lastHoverElement s /\
        (ok = true -> highlightClass s' = ∅ /\ highlightedElement s' = None) /\
        (ok = false ->
         highlightClass s' = highlightClass s /\
         highlightedElement s' = highlightedElement s)) /\
    (exists s',
        Scanner.ElementSelector_reset P s = (Normal true, s') /\
        (forall h, h ∈ highlightClass s' -> highlightedElement s' = Some h) /\
        lastHoverElement s' = None /\
        (document_body P <> None ->
         highlightClass s' = ∅ /\ highlightedElement s' = None)).
Proof.
  intros P s Hinv.
  pose proof (unhighlighted_empty s Hinv) as Hremoved.
  split; [| split].
  - intros element.
    destruct (highlightElement_spec P element s)
      as [[e [Hbody [-> Hrun]]] | [[Hbody [-> Hrun]] | [Hbody Hrun]]];
      rewrite Hrun; eexists; eexists; (split; [reflexivity |]).
    + assert (Hclass :
                highlightClass
                  (set_lastHoverElement (Some (handle e))
                     (set_highlightedElement (Some (handle e))
                        (set_highlightClass (fun nodes => nodes ∪ {[handle e]})
                           match highlightedElement s with
                           | Some h =>
                               set_highlightedElement None
                                 (set_highlightClass (fun nodes => nodes ∖ {[h]}) s)
                           | None => s
                           end)))
                = {[handle e]}).
      { cbn [highlightClass set_lastHoverElement set_highlightedElement set_highlightClass].
        destruct (highlightedElement s) as [h0 |];
          cbn [highlightClass set_highlightedElement set_highlightClass];
          rewrite Hremoved; apply leibniz_equiv; intros x;
          rewrite elem_of_union, elem_of_singleton;
          (split; [intros [Hx | Hx]; [now apply elem_of_empty in Hx | exact Hx] | now right]). }
      split; [| split].
      * intros h Hh. rewrite Hclass in Hh. apply elem_of_singleton in Hh. now subst.
      * intros _. exists e. repeat split; [exact Hclass].
      * discriminate.
    + split; [exact Hinv |]. split; [discriminate |]. now intros _.
    + split; [exact Hinv |]. split; [discriminate |]. now intros _.
  - destruct (removeHighlight_spec P s) as [[Hbody Hrun] | [Hbody Hrun]];
      rewrite Hrun; eexists; eexists; (split; [reflexivity |]).
    + destruct (highlightedElement s) as [h0 |] eqn:Hh.
      * cbn [highlightClass set_highlightedElement set_highlightClass highlightedElement
               lastHoverElement].
        rewrite Hremoved. split; [intros x Hx; now apply elem_of_empty in Hx |]. split; [reflexivity |].
        split; [now intros _ | discriminate].
      * rewrite Hh. split; [exact Hinv |]. split; [reflexivity |].
        split; [| discriminate]. intros _. now split.
    + split; [exact Hinv |]. split; [reflexivity |]. split; [discriminate |]. now intros _.
  - unfold Scanner.ElementSelector_reset, Scanner.execute.
    destruct (removeHighlight_spec P s) as [[Hbody Hrun] | [Hbody Hrun]];
      unfold bindS at 1; unfold bindS at 1; rewrite Hrun;
      eexists; (split; [reflexivity |]).
    + destruct (highlightedElement s) as [h0 |] eqn:Hh.
      * cbn [highlightClass set_highlightedElement set_highlightClass highlightedElement
               lastHoverElement set_lastHoverElement].
        rewrite Hremoved. split; [intros x Hx; now apply elem_of_empty in Hx |]. split; [reflexivity |]. now intros _.
      * cbn [highlightClass highlightedElement lastHoverElement set_lastHoverElement].
        rewrite Hh. split; [exact Hinv |]. split; [reflexivity |]. intros _. now split.
    + split; [exact Hinv |]. split; [reflexivity |]. intros Hne. contradiction.
Qed.

(** X17 at a sample state: [card] is highlighted while [hero] carries the
    class as the highlighted element. *)
Lemma X17_single_highlight_at_sample :
  let s := mkSession Sample.world 1000 (Some 2%positive) (Some 2%positive) {[2%positive]}
             None true "crosshair" None false in
  exists ok s',
    Scanner.ElementSelector_highlightElement Sample.platform (Some Sample.card) s
    = (Normal ok, s') /\
    (forall h, h ∈ highlightClass s' -> highlightedElement s' = Some h) /\
    (ok = true ->
     exists e, Some Sample.card = Some e /\ highlightClass s' = {[handle e]} /\
               highlightedElement s' = Some (handle e) /\
               lastHoverElement s' = Some (handle e)) /\
    (ok = false ->
     highlightClass s' = highlightClass s /\
     highlightedElement s' = highlightedElement s /\
     lastHoverElement s' = lastHoverElement s).
Proof.
  cbv zeta.
  refine (proj1 (X17_single_highlight Sample.platform
                   (mkSession Sample.world 1000 (Some 2%positive) (Some 2%positive)
                      {[2%positive]} None true "crosshair" None false) _)
            (Some Sample.card)).
  intros h Hh. cbn [highlightClass] in Hh. apply elem_of_singleton in Hh.
  subst h. reflexivity.
Defined.

(** *** The scan mode *)

Ltac forget_errors :=
  repeat match goal with
         | |- context [ErrorHandler.handleError ?P ?m ?t None ?w] =>
             let counts := fresh "counts" in
             let Hsame := fresh "Hsame" in
             destruct (handleError_sameButErrorCounts P m t None w) as [counts Hsame];
             [discriminate | rewrite Hsame; clear Hsame]
         end.

Ltac run_session :=
  unfold Scanner.CSSScanner_startScan, Scanner.CSSScanner_stopScan,
    Scanner.ElementSelector_reset, Scanner.ElementSelector_removeHighlight,
    Scanner.StyleCache_clear, Scanner.EventHandler_addEventListeners,
    Scanner.EventHandler_removeEventListeners, Scanner.document_body_style_cursor,
    Scanner.NotificationManager_showMessage, Scanner.PopupManager_closePopup,
    PopupManager.unpinPopup, PopupManager.pinPopup, PopupManager.updatePinnedState,
    Scanner.executeDOMOperation, SafeWrapper.executeDOMOperation,
    StyleCache.Date_now.

Lemma lift_gets {A} (f : World -> A) (s : Session) :
  lift (gets f) s = (Normal (f (world s)), s).
Proof. now destruct s. Qed.

Lemma lift_modify (f : World -> World) (s : Session) :
  lift (modify f) s = (Normal tt, set_world f s).
Proof. reflexivity. Qed.

Lemma lift_eq {A} (m : M A) (s : Session) (c : Completion A) (w' : World) :
  m (world s) = (c, w') -> lift m s = (c, set_world (fun _ => w') s).
Proof. intros Hrun. unfold lift. now rewrite Hrun. Qed.

Lemma startScan_spec (P : Platform) (s : Session) :
  exists s',
    Scanner.CSSScanner_startScan P s
    = (Normal match document_body P with Some _ => true | None => false end, s') /\
    isScanning (world s') = true /\
    isPinned (world s') = false /\ pinnedPosition (world s') = None /\
    cache (world s') = ∅ /\ selectorCache (world s') = ∅ /\
    lastClearTime s' = Date_now_at P (dateNowCalls (world s)) /\
    listening s' = true /\
    lastHoverElement s' = None /\
    popup (world s') = popup (world s) /\
    clipboard (world s') = clipboard (world s) /\
    currentElementData s' = currentElementData s /\
    (document_body P <> None ->
     body_style_cursor s' = "crosshair" /\ highlightedElement s' = None /\
     highlightClass s'
     = match highlightedElement s with
       | Some h => highlightClass s ∖ {[h]}
       | None => highlightClass s
       end) /\
    (document_body P = None ->
     body_style_cursor s' = body_style_cursor s /\
     highlightedElement s' = highlightedElement s /\
     highlightClass s' = highlightClass s).
Proof.
  run_session.
  destruct (document_body P) as [b |] eqn:Hbody.
  - unfold Scanner.execute, SafeWrapper.execute, bindS, bind, lift, modify, modifyS, gets,
      getsS, retS, ret.
    cbn.
    destruct (highlightedElement s) as [h |] eqn:Hh; cbn;
      destruct (popup (world s)) as [p |] eqn:Hp; cbn;
      (eexists; split; [reflexivity |]); cbn; rewrite ?Hp, ?Hh;
      repeat split; try reflexivity; try discriminate.
  - unfold Scanner.execute, SafeWrapper.execute, bindS, bind, lift, modify, modifyS, gets,
      getsS, retS, ret, throwS.
    cbn. forget_errors. cbn.
    destruct (popup (world s)) as [p |] eqn:Hp; cbn; forget_errors; cbn;
      (eexists; split; [reflexivity |]); cbn; forget_errors; cbn; rewrite ?Hp;
      repeat split; try reflexivity; try discriminate; try contradiction.
Qed.

Lemma stopScan_spec (P : Platform) (s : Session) :
  exists s',
    Scanner.CSSScanner_stopScan P s
    = (Normal match document_body P with Some _ => true | None => false end, s') /\
    isScanning (world s') = false /\
    isPinned (world s') = isPinned (world s) /\
    pinnedPosition (world s') = pinnedPosition (world s) /\
    cache (world s') = cache (world s) /\ selectorCache (world s') = selectorCache (world s) /\
    lastClearTime s' = lastClearTime s /\
    listening s' = false /\
    lastHoverElement s' = None /\
    currentElementData s' = None /\
    clipboard (world s') = clipboard (world s) /\
    (document_body P <> None ->
     popup (world s') = None /\
     body_style_cursor s' = "" /\ highlightedElement s' = None /\
     highlightClass s'
     = match highlightedElement s with
       | Some h => highlightClass s ∖ {[h]}
       | None => highlightClass s
       end) /\
    (document_body P = None ->
     popup (world s') = popup (world s) /\
     body_style_cursor s' = body_style_cursor s /\
     highlightedElement s' = highlightedElement s /\
     highlightClass s' = highlightClass s).
Proof.
  run_session.
  destruct (document_body P) as [b |] eqn:Hbody.
  - unfold Scanner.execute, SafeWrapper.execute, bindS, bind, lift, modify, modifyS, gets,
      getsS, retS, ret, Scanner.succeeded.
    cbn.
    destruct (highlightedElement s) as [h |] eqn:Hh; cbn;
      destruct (popup (world s)) as [p |] eqn:Hp; cbn;
      (eexists; split; [reflexivity |]); cbn; rewrite ?Hp, ?Hh;
      repeat split; try reflexivity; try discriminate.
  - unfold Scanner.execute, SafeWrapper.execute, bindS, bind, lift, modify, modifyS, gets,
      getsS, retS, ret, throwS, Scanner.succeeded.
    cbn. forget_errors. cbn.
    (eexists; split; [reflexivity |]); cbn; forget_errors; cbn;
      repeat split; try reflexivity; try discriminate; try contradiction.
Qed.

Lemma toggleScan_spec (P : Platform) (s : Session) :
  exists s',
    Scanner.CSSScanner_toggleScan P s = (Normal (negb (isScanning (world s))), s') /\
    (if isScanning (world s)
     then exists ok, Scanner.CSSScanner_stopScan P s = (Normal ok, s')
     else exists ok, Scanner.CSSScanner_startScan P s = (Normal ok, s')).
Proof.
  unfold Scanner.CSSScanner_toggleScan, Scanner.execute.
  unfold bindS at 1. unfold bindS at 1. rewrite lift_gets.
  destruct (isScanning (world s)) eqn:Hscanning.
  - destruct (stopScan_spec P s) as [s' [Hrun [Hmode _]]].
    unfold bindS at 1. rewrite Hrun, lift_gets, Hmode.
    exists s'. split; [reflexivity |]. eexists; reflexivity.
  - destruct (startScan_spec P s) as [s' [Hrun [Hmode _]]].
    unfold bindS at 1. rewrite Hrun, lift_gets, Hmode.
    exists s'. split; [reflexivity |]. eexists; reflexivity.
Qed.

(** X18: [toggleScan] never raises and always flips the scan mode: its
    answer is the new mode, the negation of the old one, also when the
    document has no body and [startScan] or [stopScan] itself reports a
    failure.  The handlers are registered on the document exactly in the
    new scan mode, and the clipboard is not touched.  Toggling twice gives
    back the mode one started from. *)
Theorem X18_toggleScan_flips :
  forall (P : Platform) (s : Session),
    exists s' s'',
      Scanner.CSSScanner_toggleScan P s = (Normal (negb (isScanning (world s))), s') /\
      isScanning (world s') = negb (isScanning (world s)) /\
      listening s' = negb (isScanning (world s)) /\
      clipboard (world s') = clipboard (world s) /\
      Scanner.CSSScanner_toggleScan P s' = (Normal (isScanning (world s)), s'') /\
      isScanning (world s'') = isScanning (world s).
Proof.
  intros P s.
  assert (Hone : forall s0, exists s1,
             Scanner.CSSScanner_toggleScan P s0 = (Normal (negb (isScanning (world s0))), s1) /\
             isScanning (world s1) = negb (isScanning (world s0)) /\
             listening s1 = negb (isScanning (world s0)) /\
             clipboard (world s1) = clipboard (world s0)).
  { intros s0. destruct (toggleScan_spec P s0) as [s1 [Hrun Hwhich]].
    exists s1. split; [exact Hrun |].
    destruct (isScanning (world s0)); destruct Hwhich as [ok Hstep].
    - destruct (stopScan_spec P s0) as [s1' [Hstop Hpost]].
      rewrite Hstop in Hstep. injection Hstep as _ <-.
      destruct Hpost as (Hmode & _ & _ & _ & _ & _ & Hlisten & _ & _ & Hclip & _).
      now rewrite Hmode, Hlisten, Hclip.
    - destruct (startScan_spec P s0) as [s1' [Hstart Hpost]].
      rewrite Hstart in Hstep. injection Hstep as _ <-.
      destruct Hpost as (Hmode & _ & _ & _ & _ & _ & Hlisten & _ & _ & Hclip & _).
      now rewrite Hmode, Hlisten, Hclip. }
  destruct (Hone s) as [s' [Hrun [Hmode [Hlisten Hclip]]]].
  destruct (Hone s') as [s'' [Hrun' [Hmode' _]]].
  rewrite Hmode, negb_involutive in Hrun', Hmode'.
  exists s', s''. repeat split; assumption.
Qed.

(** X19: on a document with a body, stopping the scan and starting it
    again both answer [true].  Stopping turns the scan mode off, closes the
    popup, forgets the current element data and the last hovered element,
    unregisters the handlers, resets the cursor and takes the highlight
    off, but leaves the pin flag, the pinned position and both caches as
    they were.  Starting turns the scan mode on, clears the pin flag and
    the pinned position left behind, empties both caches, registers the
    handlers and sets the crosshair cursor; no popup is shown and, when no
    node but the highlighted one carried the highlight class, no node
    carries it any more. *)
Theorem X19_stop_then_start :
  forall (P : Platform) (s : Session),
    document_body P <> None ->
    (forall h, h ∈ highlightClass s -> highlightedElement s = Some h) ->
    exists s1 s2,
      Scanner.CSSScanner_stopScan P s = (Normal true, s1) /\
      Scanner.CSSScanner_startScan P s1 = (Normal true, s2) /\
      (isScanning (world s1) = false /\ popup (world s1) = None /\
       currentElementData s1 = None /\ lastHoverElement s1 = None /\
       listening s1 = false /\ body_style_cursor s1 = "" /\
       highlightedElement s1 = None /\ highlightClass s1 = ∅ /\
       isPinned (world s1) = isPinned (world s) /\
       pinnedPosition (world s1) = pinnedPosition (world s) /\
       cache (world s1) = cache (world s) /\
       selectorCache (world s1) = selectorCache (world s)) /\
      (isScanning (world s2) = true /\ popup (world s2) = None /\
       isPinned (world s2) = false /\ pinnedPosition (world s2) = None /\
       cache (world s2) = ∅ /\ selectorCache (world s2) = ∅ /\
       listening s2 = true /\ body_style_cursor s2 = "crosshair" /\
       highlightedElement s2 = None /\ highlightClass s2 = ∅ /\
       clipboard (world s2) = clipboard (world s)).
Proof.
  intros P s Hbody Hinv.
  destruct (stopScan_spec P s)
    as (s1 & Hstop & Hmode1 & Hpin1 & Hpos1 & Hcache1 & Hsel1 & _ & Hlisten1 & Hhover1
        & Hdata1 & Hclip1 & Hwith1 & _).
  destruct (Hwith1 Hbody) as [Hpopup1 [Hcursor1 [Hhigh1 Hclass1]]].
  destruct (startScan_spec P s1)
    as (s2 & Hstart & Hmode2 & Hpin2 & Hpos2 & Hcache2 & Hsel2 & _ & Hlisten2 & _ & Hpopup2
        & Hclip2 & _ & Hwith2 & _).
  destruct (Hwith2 Hbody) as [Hcursor2 [Hhigh2 Hclass2]].
  assert (Hnone : highlightClass s1 = ∅)
    by (rewrite Hclass1; now apply unhighlighted_empty).
  destruct (document_body P) as [b |]; [| contradiction].
  exists s1, s2. split; [exact Hstop |]. split; [exact Hstart |]. split.
  - repeat split; assumption.
  - rewrite Hhigh1, Hnone in Hclass2. rewrite Hpopup1 in Hpopup2. rewrite Hclip1 in Hclip2.
    repeat split; assumption.
Qed.

(** X19 at the sample page: the scan is stopped and started again while
    [hero] is highlighted and a pinned popup is shown. *)
Lemma X19_stop_then_start_at_sample :
  let s := mkSession
             (set_pinnedPosition (Some (Some 120%Q, Some 120%Q))
                (set_isPinned true Sample.world_popupShown))
             1000 (Some 2%positive) (Some 2%positive) {[2%positive]} None true "crosshair"
             None false in
  exists s1 s2,
    Scanner.CSSScanner_stopScan Sample.platform s = (Normal true, s1) /\
    Scanner.CSSScanner_startScan Sample.platform s1 = (Normal true, s2) /\
    (isScanning (world s1) = false /\ popup (world s1) = None /\
     currentElementData s1 = None /\ lastHoverElement s1 = None /\
     listening s1 = false /\ body_style_cursor s1 = "" /\
     highlightedElement s1 = None /\ highlightClass s1 = ∅ /\
     isPinned (world s1) = true /\
     pinnedPosition (world s1) = Some (Some 120%Q, Some 120%Q) /\
     cache (world s1) = ∅ /\
     selectorCache (world s1) = ∅) /\
    (isScanning (world s2) = true /\ popup (world s2) = None /\
     isPinned (world s2) = false /\ pinnedPosition (world s2) = None /\
     cache (world s2) = ∅ /\ selectorCache (world s2) = ∅ /\
     listening s2 = true /\ body_style_cursor s2 = "crosshair" /\
     highlightedElement s2 = None /\ highlightClass s2 = ∅ /\
     clipboard (world s2) = []).
Proof.
  cbv zeta.
  refine (X19_stop_then_start Sample.platform
            (mkSession
               (set_pinnedPosition (Some (Some 120%Q, Some 120%Q))
                  (set_isPinned true Sample.world_popupShown))
               1000 (Some 2%positive) (Some 2%positive) {[2%positive]} None true "crosshair"
               None false) _ _).
  - discriminate.
  - intros h Hh. cbn [highlightClass] in Hh. apply elem_of_singleton in Hh.
    subst h. reflexivity.
Defined.

(** X20: on a document without a body [startScan] and [stopScan] both
    answer [false], yet each has changed the scan mode and the
    registration of the handlers before failing: after [startScan] the
    script is scanning with its handlers registered, the pin cleared and
    both caches empty; after [stopScan] it is not scanning, the handlers
    are unregistered and the current element data is forgotten.  Popup,
    cursor, highlight and clipboard are as before in both cases. *)
Theorem X20_scan_without_body :
  forall (P : Platform) (s : Session),
    document_body P = None ->
    (exists s',
        Scanner.CSSScanner_startScan P s = (Normal false, s') /\
        isScanning (world s') = true /\ listening s' = true /\
        isPinned (world s') = false /\ pinnedPosition (world s') = None /\
        cache (world s') = ∅ /\ selectorCache (world s') = ∅ /\
        popup (world s') = popup (world s) /\
        body_style_cursor s' = body_style_cursor s /\
        highlightedElement s' = highlightedElement s /\
        highlightClass s' = highlightClass s /\
        clipboard (world s') = clipboard (world s)) /\
    (exists s',
        Scanner.CSSScanner_stopScan P s = (Normal false, s') /\
        isScanning (world s') = false /\ listening s' = false /\
        currentElementData s' = None /\
        isPinned (world s') = isPinned (world s) /\
        popup (world s') = popup (world s) /\
        body_style_cursor s' = body_style_cursor s /\
        highlightedElement s' = highlightedElement s /\
        highlightClass s' = highlightClass s /\
        clipboard (world s') = clipboard (world s)).
Proof.
  intros P s Hbody. split.
  - destruct (startScan_spec P s)
      as (s' & Hstart & Hmode & Hpin & Hpos & Hcache & Hsel & _ & Hlisten & _ & Hpopup
          & Hclip & _ & _ & Hwithout).
    destruct (Hwithout Hbody) as [Hcursor [Hhigh Hclass]].
    rewrite Hbody in Hstart. exists s'. repeat split; assumption.
  - destruct (stopScan_spec P s)
      as (s' & Hstop & Hmode & Hpin & _ & _ & _ & _ & Hlisten & _ & Hdata
          & Hclip & _ & Hwithout).
    destruct (Hwithout Hbody) as [Hpopup [Hcursor [Hhigh Hclass]]].
    rewrite Hbody in Hstop. exists s'. repeat split; assumption.
Qed.

(** X20 in a browser whose document has no body yet. *)
Lemma X20_scan_without_body_at_sample :
  let P := mkPlatform (Date_now_at Sample.platform) (window_getComputedStyle_at Sample.platform)
             None (document_querySelectorAll_length Sample.platform)
             (localeCompare Sample.platform) true (fun _ => true) (fun _ => Returns true)
             1000%Q 800%Q in
  let s := mkSession Sample.world 1000 None None ∅ None false "" None false in
  (exists s',
      Scanner.CSSScanner_startScan P s = (Normal false, s') /\
      isScanning (world s') = true /\ listening s' = true /\
      isPinned (world s') = false /\ pinnedPosition (world s') = None /\
      cache (world s') = ∅ /\ selectorCache (world s') = ∅ /\
      popup (world s') = popup (world s) /\
      body_style_cursor s' = body_style_cursor s /\
      highlightedElement s' = highlightedElement s /\
      highlightClass s' = highlightClass s /\
      clipboard (world s') = clipboard (world s)) /\
  (exists s',
      Scanner.CSSScanner_stopScan P s = (Normal false, s') /\
      isScanning (world s') = false /\ listening s' = false /\
      currentElementData s' = None /\
      isPinned (world s') = isPinned (world s) /\
      popup (world s') = popup (world s) /\
      body_style_cursor s' = body_style_cursor s /\
      highlightedElement s' = highlightedElement s /\
      highlightClass s' = highlightClass s /\
      clipboard (world s') = clipboard (world s)).
Proof.
  cbv zeta.
  exact (X20_scan_without_body
           (mkPlatform (Date_now_at Sample.platform)
              (window_getComputedStyle_at Sample.platform)
              None (document_querySelectorAll_length Sample.platform)
              (localeCompare Sample.platform) true (fun _ => true) (fun _ => Returns true)
              1000%Q 800%Q)
           (mkSession Sample.world 1000 None None ∅ None false "" None false) eq_refl).
Defined.

(** *** Inspecting an element *)

Lemma getComputedStyle_sameOnScreen (P : Platform) (e : Element) (fuel : nat) :
  forall w, sameOnScreen w (snd (StyleCache.getComputedStyle P fuel (Some e) w)).
Proof.
  induction fuel as [| fuel IH]; intros w.
  - apply sameOnScreen_refl.
  - destruct (cache w !! handle e) as [entry |] eqn:Hentry.
    + destruct (Z_le_gt_dec (Date_now_at P (dateNowCalls w) - entry_timestamp entry)
                  StyleCache.maxCacheAge) as [Hfresh | Hstale].
      * rewrite (getComputedStyle_hit P fuel e entry w Hentry Hfresh). repeat split.
      * rewrite (getComputedStyle_stale P fuel e entry w Hentry Hstale).
        refine (sameOnScreen_trans _ _ _ _ (IH _)). repeat split.
    + destruct (window_getComputedStyle_at P (getComputedStyleCalls w) e)
        as [computedStyle | message] eqn:Hread.
      * destruct (getComputedStyle_miss_step P fuel e computedStyle w Hentry Hread)
          as [counts Hstep].
        cbv zeta in Hstep. rewrite Hstep.
        destruct (Date_now_at P (S (dateNowCalls w)) - Date_now_at P (dateNowCalls w)
                  >? StyleCache.maxCacheAge)%Z.
        -- refine (sameOnScreen_trans _ _ _ _ (IH _)). repeat split.
        -- repeat split.
      * rewrite (getComputedStyle_miss_throws_eq P fuel e message w Hentry Hread).
        cbn [snd].
        refine (sameOnScreen_trans _ (set_getComputedStyleCalls S w) _ _ _);
          [repeat split | now apply handleError_sameOnScreen].
Qed.

Lemma getSelector_sameOnScreen (P : Platform) (element : option Element) (w : World) :
  sameOnScreen w (snd (StyleCache.getSelector P element w)).
Proof.
  destruct element as [e |].
  - unfold StyleCache.getSelector, SafeWrapper.execute.
    unfold bind at 1. unfold bind at 1. unfold gets, StyleCache.weak_get.
    destruct (selectorCache w !! handle e) as [selector |]; [repeat split |].
    unfold bind at 1.
    destruct (generateOptimizedSelector_returns P e w) as [selector [w' [Hrun [Hsame _]]]].
    rewrite Hrun. destruct Hsame as [counts ->]. repeat split.
  - cbn. now apply handleError_sameOnScreen.
Qed.

(** [extractCSSInfo] returns or runs out of fuel; either way what the user
    sees is as before. *)
Lemma extractCSSInfo_cases (P : Platform) (fuel : nat) (e : Element) (w : World) :
  exists w',
    sameOnScreen w w' /\
    ((exists info, CSSAnalyzer.extractCSSInfo P fuel (Some e) w = (Normal info, w')) \/
     CSSAnalyzer.extractCSSInfo P fuel (Some e) w = (Diverge, w')).
Proof.
  pose proof (getComputedStyle_sameOnScreen P e fuel w) as Hstyle_same.
  destruct (getComputedStyle_no_throw P fuel (Some e) w)
    as [[computedStyle [w1 Hstyle]] | [w1 Hstyle]]; rewrite Hstyle in Hstyle_same.
  - destruct (extractCSSInfo_element P fuel e computedStyle w w1 Hstyle)
      as [selector [inline [categorized [w2 [Hselector [_ [_ Hrun]]]]]]].
    pose proof (getSelector_sameOnScreen P (Some e) w1) as Hselector_same.
    rewrite Hselector in Hselector_same.
    exists w2. split; [exact (sameOnScreen_trans _ _ _ Hstyle_same Hselector_same) |].
    left. eexists. exact Hrun.
  - exists w1. split; [exact Hstyle_same |]. right. now apply extractCSSInfo_diverges.
Qed.

(** On a browser whose clock never advances by more than the maximum cache
    age between two readings, [extractCSSInfo] returns. *)
Lemma extractCSSInfo_returns (P : Platform) (fuel : nat) (e : Element) (w : World) :
  (forall n, (Date_now_at P (S n) - Date_now_at P n <= 30000)%Z) ->
  exists info w',
    CSSAnalyzer.extractCSSInfo P (S (S fuel)) (Some e) w = (Normal info, w') /\
    sameOnScreen w w'.
Proof.
  intros Hclock.
  destruct (extractCSSInfo_cases P (S (S fuel)) e w) as [w' [Hsame [[info Hinfo] | Hdiv]]].
  - now exists info, w'.
  - destruct (getComputedStyle_returns P fuel e w (Hclock _) (Hclock _))
      as [computedStyle [w1 Hstyle]].
    destruct (extractCSSInfo_element P (S (S fuel)) e computedStyle w w1 Hstyle)
      as [selector [inline [categorized [w2 [_ [_ [_ Hrun]]]]]]].
    rewrite Hrun in Hdiv. discriminate Hdiv.
Qed.

(** The clock of the sample browser advances by one millisecond per
    reading. *)
Lemma sample_clock_steady :
  forall n, (Date_now_at Sample.platform (S n) - Date_now_at Sample.platform n <= 30000)%Z.
Proof. intros n. cbn [Date_now_at Sample.platform]. lia. Qed.

(** *** Showing the popup *)

(** The markup is generated without an error for an element whose
    [className] is a string, and with one counted otherwise. *)
Lemma generatePopupHTML_spec (P : Platform) (data : ElementData) (w : World) :
  exists counts,
    Scanner.PopupManager_generatePopupHTML P data w
    = (Normal tt, set_errorCounts (fun _ => counts) w) /\
    (forall name, className (data_element data) = ClassName_string name ->
                  counts = errorCounts w).
Proof.
  unfold Scanner.PopupManager_generatePopupHTML, SafeWrapper.execute, bind, ret, throw.
  destruct (className (data_element data)) as [name | baseVal].
  - exists (errorCounts w). split; [now destruct w | reflexivity].
  - forget_errors. exists counts. split; [reflexivity | discriminate].
Qed.

Lemma showPopup_spec (P : Platform) (rect : ElementData -> Q * Q) (data : ElementData)
    (cursor : Q * Q) (w : World) :
  document_body P <> None ->
  let fresh := mkPopup None None (fst (rect data)) (snd (rect data)) in
  let shown :=
    if isPinned w then
      match pinnedPosition w with
      | Some position => mkPopup (fst position) (snd position) (fst (rect data)) (snd (rect data))
      | None => fresh
      end
    else
      mkPopup (Some (fst (PopupManager.placement P fresh cursor)))
        (Some (snd (PopupManager.placement P fresh cursor)))
        (fst (rect data)) (snd (rect data)) in
  exists counts,
    Scanner.PopupManager_showPopup P rect (Some data) cursor w
    = (Normal (Some shown),
       set_errorCounts (fun _ => counts) (set_popup (fun _ => Some shown) w)) /\
    (forall name, className (data_element data) = ClassName_string name ->
                  counts = errorCounts w).
Proof.
  intros Hbody. cbv zeta.
  unfold Scanner.PopupManager_showPopup, Scanner.PopupManager_closePopup,
    Scanner.PopupManager_generatePopupHTML,
    PopupManager.updatePopupPosition, PopupManager.updatePinnedState,
    SafeWrapper.executeDOMOperation.
  destruct (document_body P) as [b |]; [| contradiction].
  unfold SafeWrapper.execute, bind, gets, modify, ret, throw.
  destruct (className (data_element data)) as [name | baseVal].
  - exists (errorCounts w). split; [| reflexivity].
    destruct w as [counts0 clip0 cache0 selectors0 dates0 reads0 popup0 pinned0 position0
                     scanning0 mouse0].
    cbn. destruct popup0 as [p |]; cbn;
      destruct pinned0; cbn;
      destruct position0 as [[pinnedLeft pinnedTop] |]; reflexivity.
  - destruct w as [counts0 clip0 cache0 selectors0 dates0 reads0 popup0 pinned0 position0
                     scanning0 mouse0].
    cbn. destruct popup0 as [p |]; cbn; forget_errors; exists counts;
      (split; [| discriminate]);
      cbn; destruct pinned0; cbn;
      destruct position0 as [[pinnedLeft pinnedTop] |]; reflexivity.
Qed.

Lemma showPopup_without_body (P : Platform) (rect : ElementData -> Q * Q)
    (elementData : option ElementData) (cursor : Q * Q) (w : World) :
  document_body P = None ->
  Scanner.PopupManager_showPopup P rect elementData cursor w
  = (Normal None, ErrorHandler.handleError P "Document not ready" "DOM_NOT_READY" None w).
Proof.
  intros Hbody.
  unfold Scanner.PopupManager_showPopup, SafeWrapper.executeDOMOperation.
  rewrite Hbody. reflexivity.
Qed.

Lemma setupPopupEvents_with_body (P : Platform) (w : World) :
  document_body P <> None -> Scanner.CSSScanner_setupPopupEvents P w = (Normal true, w).
Proof.
  intros Hbody. unfold Scanner.CSSScanner_setupPopupEvents, SafeWrapper.executeDOMOperation.
  destruct (document_body P); [reflexivity | contradiction].
Qed.

(** [analyzeElement] on an element: the result of [extractCSSInfo] is kept
    with the DOM node as its element, and the popup is shown for it. *)
Lemma analyzeElement_eq (P : Platform) (rect : ElementData -> Q * Q) (fuel : nat)
    (e : Element) (willPin : bool) (s : Session) :
  Scanner.CSSScanner_analyzeElement P rect fuel (Some e) willPin s
  = match CSSAnalyzer.extractCSSInfo P fuel (Some e) (world s) with
    | (Normal info, w1) =>
        let data :=
          mkElementData e (info_computed info) (info_inline info) (info_categorized info)
            willPin in
        (Normal tt,
         set_currentElementData (Some data)
           (set_world
              (fun _ => snd (Scanner.PopupManager_showPopup P rect (Some data)
                               (mousePosition w1) w1)) s))
    | (Throw message, w1) =>
        (Normal tt,
         set_world (fun _ => ErrorHandler.handleError P message "CSS_ANALYSIS_FAILED" None w1) s)
    | (Diverge, w1) => (Diverge, set_world (fun _ => w1) s)
    end.
Proof.
  unfold Scanner.CSSScanner_analyzeElement, Scanner.execute.
  unfold bindS at 1. unfold bindS at 1. unfold lift at 1.
  destruct (CSSAnalyzer.extractCSSInfo P fuel (Some e) (world s)) as [[info | message |] w1];
    cbn [fst snd]; [| reflexivity | reflexivity].
  unfold bindS at 1. unfold modifyS at 1. unfold bindS at 1. rewrite lift_gets.
  cbn [world set_world set_currentElementData].
  unfold bindS at 1. unfold lift at 1. cbn [world set_world set_currentElementData fst snd].
  destruct (document_body P) as [b |] eqn:Hbody.
  - assert (Hsome : document_body P <> None) by (rewrite Hbody; discriminate).
    match goal with
    | |- context [Scanner.PopupManager_showPopup P rect (Some ?data) ?cursor w1] =>
        destruct (showPopup_spec P rect data cursor w1 Hsome) as [counts [Hshow _]]
    end.
    cbv zeta in Hshow. rewrite Hshow. cbn [fst snd].
    unfold bindS at 1. unfold lift at 1. cbn [world set_world set_currentElementData].
    rewrite setupPopupEvents_with_body by exact Hsome.
    reflexivity.
  - rewrite showPopup_without_body by exact Hbody. reflexivity.
Qed.

(** What [analyzeElement] leaves on the screen besides the popup. *)
Lemma analyzeElement_spec (P : Platform) (rect : ElementData -> Q * Q) (fuel : nat)
    (e : Element) (willPin : bool) (s s1 : Session) :
  Scanner.CSSScanner_analyzeElement P rect fuel (Some e) willPin s = (Normal tt, s1) ->
  exists info w1,
    CSSAnalyzer.extractCSSInfo P fuel (Some e) (world s) = (Normal info, w1) /\
    sameOnScreen (world s) w1 /\
    let data :=
      mkElementData e (info_computed info) (info_inline info) (info_categorized info)
        willPin in
    s1 = set_currentElementData (Some data)
           (set_world
              (fun _ => snd (Scanner.PopupManager_showPopup P rect (Some data)
                               (mousePosition w1) w1)) s).
Proof.
  intros Hrun. rewrite analyzeElement_eq in Hrun.
  destruct (extractCSSInfo_cases P fuel e (world s)) as [w1 [Hsame [[info Hinfo] | Hdiv]]].
  - rewrite Hinfo in Hrun. cbv zeta in Hrun. injection Hrun as <-.
    exists info, w1. split; [exact Hinfo |]. split; [exact Hsame | reflexivity].
  - rewrite Hdiv in Hrun. discriminate Hrun.
Qed.

(** X21: [showPopup] with element data replaces the popup by a new one
    rendered from the data.  On a document with a body the call answers
    the new popup, which is the popup of the state afterwards; it is put at
    the pinned position when the pin flag is set and a position is
    recorded; when the flag is set and no position is recorded it gets no
    position at all; when the flag is not set it is placed by
    [updatePopupPosition] for the cursor.  Besides the popup only the error
    counts can change, and for an element whose [className] is a string
    nothing else changes at all.  Without a body the answer is [null], no
    popup is created and only the error counts change. *)
Theorem X21_showPopup_position :
  forall (P : Platform) (rect : ElementData -> Q * Q) (data : ElementData) (cursor : Q * Q)
         (w : World),
    (document_body P <> None ->
     exists shown w',
       Scanner.PopupManager_showPopup P rect (Some data) cursor w
       = (Normal (Some shown), w') /\
       popup w' = Some shown /\
       sameButErrorCounts (set_popup (fun _ => Some shown) w) w' /\
       (forall name, className (data_element data) = ClassName_string name ->
                     w' = set_popup (fun _ => Some shown) w) /\
       rect_width shown = fst (rect data) /\ rect_height shown = snd (rect data) /\
       (isPinned w = true ->
        (style_left shown, style_top shown)
        = match pinnedPosition w with
          | Some position => position
          | None => (None, None)
          end) /\
       (isPinned w = false ->
        let place :=
          PopupManager.placement P (mkPopup None None (fst (rect data)) (snd (rect data)))
            cursor in
        style_left shown = Some (fst place) /\ style_top shown = Some (snd place))) /\
    (document_body P = None ->
     exists w',
       Scanner.PopupManager_showPopup P rect (Some data) cursor w = (Normal None, w') /\
       popup w' = popup w /\
       sameButErrorCounts w w').
Proof.
  intros P rect data cursor w. split.
  - intros Hbody.
    destruct (showPopup_spec P rect data cursor w Hbody) as [counts [Hshow Hstring]].
    cbv zeta in Hshow.
    eexists. eexists. split; [exact Hshow |]. split; [reflexivity |].
    split; [now exists counts |]. split.
    + intros name Hname. rewrite (Hstring name Hname).
      now destruct w.
    + destruct (isPinned w).
      * destruct (pinnedPosition w) as [[pinnedLeft pinnedTop] |];
          repeat split; try reflexivity; discriminate.
      * repeat split; try reflexivity; discriminate.
  - intros Hbody. rewrite showPopup_without_body by exact Hbody.
    eexists. split; [reflexivity |].
    destruct (handleError_sameButErrorCounts P "Document not ready" "DOM_NOT_READY" None w)
      as [counts Hcounts]; [discriminate |].
    rewrite Hcounts. split; [reflexivity | now exists counts].
Qed.

(** *** Clicks and keys *)

Lemma isPopupElement_eq (P : Platform) (event : MouseEvent) (w : World) :
  ElementSelector.isPopupElement P event w = (Normal (target_closest_popup event), w).
Proof. reflexivity. Qed.

Lemma showMessage_spec (P : Platform) (w : World) :
  exists w', Scanner.NotificationManager_showMessage P w = (Normal tt, w') /\
             sameButErrorCounts w w'.
Proof.
  unfold Scanner.NotificationManager_showMessage, SafeWrapper.executeDOMOperation.
  destruct (document_body P).
  - exists w. split; [reflexivity | apply sameButErrorCounts_refl].
  - eexists. split; [reflexivity |]. now apply handleError_sameButErrorCounts.
Qed.

Lemma pinPopup_position (P : Platform) (w : World) :
  exists counts,
    PopupManager.pinPopup P w
    = (Normal true,
       set_errorCounts (fun _ => counts)
         (match popup w with
          | Some p => set_pinnedPosition (Some (style_left p, style_top p)) (set_isPinned true w)
          | None => set_isPinned true w
          end)).
Proof.
  unfold PopupManager.pinPopup, PopupManager.updatePinnedState,
    SafeWrapper.executeDOMOperation, SafeWrapper.execute, bind, gets, modify, ret.
  cbn [popup set_isPinned].
  destruct (popup w) as [p |] eqn:Hpopup.
  - destruct (document_body P).
    + exists (errorCounts w). cbn. now destruct w.
    + forget_errors. exists counts. reflexivity.
  - exists (errorCounts w). now destruct w.
Qed.

Lemma unpinPopup_position (P : Platform) (w : World) :
  exists counts,
    PopupManager.unpinPopup P w
    = (Normal true,
       set_errorCounts (fun _ => counts) (set_pinnedPosition None (set_isPinned false w))).
Proof.
  unfold PopupManager.unpinPopup, PopupManager.updatePinnedState,
    SafeWrapper.executeDOMOperation, SafeWrapper.execute, bind, gets, modify, ret.
  cbn [popup set_isPinned set_pinnedPosition].
  destruct (popup w) as [p |] eqn:Hpopup.
  - destruct (document_body P).
    + exists (errorCounts w). cbn. now destruct w.
    + forget_errors. exists counts. reflexivity.
  - exists (errorCounts w). now destruct w.
Qed.

(** X22: a click outside the popup while scanning toggles the pin.  On a
    pinned popup it clears the pin flag and the pinned position and leaves
    the popup and the current element data alone.  Otherwise, on a browser
    whose clock never advances by more than the maximum cache age between
    two readings, the handler returns: the clicked element is inspected, a
    new popup is shown for it, and the pin flag is set; the current element
    data then hold the clicked node with [isPinned] set, and on a document
    with a body the new popup sits where [updatePopupPosition] places it
    for the recorded cursor and that position is recorded as the pinned
    one.  The scan mode stays on. *)
Theorem X22_click_toggles_pin :
  forall (P : Platform) (rect : ElementData -> Q * Q) (fuel : nat) (event : TargetEvent)
         (s : Session),
    isScanning (world s) = true ->
    target_closest_popup (pointer event) = false ->
    (isPinned (world s) = true ->
     exists s',
       Scanner.EventHandler_handleClick P rect fuel event s = (Normal tt, s') /\
       isPinned (world s') = false /\ pinnedPosition (world s') = None /\
       popup (world s') = popup (world s) /\
       currentElementData s' = currentElementData s /\
       isScanning (world s') = true) /\
    (isPinned (world s) = false ->
     (forall n, (Date_now_at P (S n) - Date_now_at P n <= 30000)%Z) ->
     forall e,
       target event = Some e ->
       exists s' data,
         Scanner.EventHandler_handleClick P rect (S (S fuel)) event s = (Normal tt, s') /\
         isPinned (world s') = true /\ isScanning (world s') = true /\
         currentElementData s' = Some data /\
         data_element data = e /\ data_isPinned data = true /\
         (document_body P <> None ->
          let place :=
            PopupManager.placement P (mkPopup None None (fst (rect data)) (snd (rect data)))
              (mousePosition (world s)) in
          popup (world s')
          = Some (mkPopup (Some (fst place)) (Some (snd place))
                    (fst (rect data)) (snd (rect data))) /\
          pinnedPosition (world s') = Some (Some (fst place), Some (snd place)))).
Proof.
  intros P rect fuel event s Hscanning Hpointer.
  assert (Htarget : target_closest_popup (asMouseEvent event) = false)
    by (unfold asMouseEvent; cbn; now destruct (target event)).
  split.
  - intros Hpinned.
    unfold Scanner.EventHandler_handleClick, Scanner.CSSScanner_handleClick, Scanner.execute.
    unfold bindS at 1. unfold bindS at 1. unfold bindS at 1.
    rewrite lift_gets, Hscanning. cbn [negb].
    unfold bindS at 1.
    rewrite (lift_eq _ _ _ _ (isPopupElement_eq P (asMouseEvent event) (world s))), Htarget.
    replace (set_world (fun _ => world s) s) with s by now destruct s.
    unfold bindS at 1. rewrite lift_gets, Hpinned.
    unfold bindS at 1.
    destruct (unpinPopup_position P (world s)) as [counts Hunpin].
    rewrite (lift_eq _ _ _ _ Hunpin).
    match goal with
    | |- context [lift (Scanner.NotificationManager_showMessage P) ?s1] =>
        destruct (showMessage_spec P (world s1)) as [w2 [Hshow [counts2 Hw2]]];
        rewrite (lift_eq _ _ _ _ Hshow)
    end.
    subst w2. unfold retS. eexists. split; [reflexivity |].
    cbn. rewrite Hscanning. repeat split.
  - intros Hpinned Hclock e He.
    destruct (extractCSSInfo_returns P fuel e (world s) Hclock) as [info [w1 [Hinfo Hsame]]].
    set (data := mkElementData e (info_computed info) (info_inline info)
                   (info_categorized info) true).
    destruct Hsame as [Hclip [Hpopup [Hpin [Hpos [Hscan Hmouse]]]]].
    unfold Scanner.EventHandler_handleClick, Scanner.CSSScanner_handleClick, Scanner.execute.
    unfold bindS at 1. unfold bindS at 1. unfold bindS at 1.
    rewrite lift_gets, Hscanning. cbn [negb].
    unfold bindS at 1.
    rewrite (lift_eq _ _ _ _ (isPopupElement_eq P (asMouseEvent event) (world s))), Htarget.
    replace (set_world (fun _ => world s) s) with s by now destruct s.
    unfold bindS at 1. rewrite lift_gets, Hpinned.
    unfold bindS at 1. rewrite He, analyzeElement_eq, Hinfo. cbv zeta. fold data.
    unfold bindS at 1.
    match goal with
    | |- context [lift (PopupManager.pinPopup P) ?s1] =>
        destruct (pinPopup_position P (world s1)) as [counts Hpinned1];
        rewrite (lift_eq _ _ _ _ Hpinned1)
    end.
    match goal with
    | |- context [lift (Scanner.NotificationManager_showMessage P) ?s1] =>
        destruct (showMessage_spec P (world s1)) as [w2 [Hshow [counts2 Hw2]]];
        rewrite (lift_eq _ _ _ _ Hshow)
    end.
    subst w2. unfold retS. eexists. exists data. split; [reflexivity |].
    cbn [world set_world set_currentElementData currentElementData] in *.
    destruct (document_body P) as [b |] eqn:Hbody.
    + assert (Hsome : document_body P <> None) by (rewrite Hbody; discriminate).
      destruct (showPopup_spec P rect data (mousePosition w1) w1 Hsome)
        as [counts3 [Hshown _]].
      cbv zeta in Hshown. rewrite Hshown.
      cbn [snd popup set_popup set_errorCounts]. rewrite Hpin, Hpinned, Hmouse. cbn.
      rewrite Hscan, Hscanning. repeat split.
    + rewrite showPopup_without_body by exact Hbody. cbn [snd]. forget_errors.
      cbn [popup set_errorCounts].
      split; [destruct (popup w1); reflexivity |].
      split; [destruct (popup w1); cbn; now rewrite Hscan |].
      split; [reflexivity |]. split; [reflexivity |]. split; [reflexivity |].
      intros Hne. now contradiction Hne.
Qed.

(** X22 at the sample page: while the scan is on and nothing is pinned,
    [hero] is clicked with the cursor recorded at (100, 100); the popup is
    shown at (120, 120) and pinned there. *)
Lemma X22_click_at_sample :
  let rect := fun _ : ElementData => (380%Q, 200%Q) in
  let event := mkTargetEvent (mkMouseEvent 100 100 false) (Some Sample.hero) None in
  let s := mkSession Sample.world_popupShown 1000 None None ∅ None true "crosshair" None
             false in
  exists s' data,
    Scanner.EventHandler_handleClick Sample.platform rect 2 event s = (Normal tt, s') /\
    isPinned (world s') = true /\ isScanning (world s') = true /\
    currentElementData s' = Some data /\
    data_element data = Sample.hero /\ data_isPinned data = true /\
    (document_body Sample.platform <> None ->
     let place :=
       PopupManager.placement Sample.platform
         (mkPopup None None (fst (rect data)) (snd (rect data)))
         (mousePosition (world s)) in
     popup (world s')
     = Some (mkPopup (Some (fst place)) (Some (snd place)) (fst (rect data)) (snd (rect data))) /\
     pinnedPosition (world s') = Some (Some (fst place), Some (snd place))).
Proof.
  cbv zeta.
  refine (proj2 (X22_click_toggles_pin Sample.platform (fun _ => (380%Q, 200%Q)) 0
                   (mkTargetEvent (mkMouseEvent 100 100 false) (Some Sample.hero) None)
                   (mkSession Sample.world_popupShown 1000 None None ∅ None true "crosshair"
                      None false)
                   eq_refl eq_refl)
            eq_refl sample_clock_steady Sample.hero eq_refl).
Defined.

(** *** The copy buttons *)

Lemma copyButton_failure (P : Platform) (type message : string) (data : ElementData)
    (s : Session) (w1 : World) :
  currentElementData s = Some data ->
  ClipboardManager.copyToClipboard P (Some (asCSSInfo data)) type (world s)
  = (Throw message, w1) ->
  exists s',
    Scanner.CSSScanner_copyButton P type s = (Normal false, s') /\
    clipboard (world s') = clipboard w1.
Proof.
  intros Hdata Hcopy.
  unfold Scanner.CSSScanner_copyButton, Scanner.execute.
  unfold bindS at 1. unfold bindS at 1. unfold getsS at 1. rewrite Hdata.
  unfold bindS at 1. cbn [option_map]. rewrite (lift_eq _ _ _ _ Hcopy).
  cbn [Scanner.succeeded]. unfold bindS at 1.
  match goal with
  | |- context [lift (Scanner.NotificationManager_showMessage P) ?s1] =>
      destruct (showMessage_spec P (world s1)) as [w2 [Hshow [counts2 Hw2]]];
      rewrite (lift_eq _ _ _ _ Hshow)
  end.
  subst w2. unfold retS. eexists. split; [reflexivity |].
  cbn [world set_world clipboard set_errorCounts].
  now apply handleError_clipboard_other.
Qed.

Lemma copyButton_success (P : Platform) (type label : string) (data : ElementData)
    (s : Session) (w1 : World) :
  currentElementData s = Some data ->
  ClipboardManager.copyToClipboard P (Some (asCSSInfo data)) type (world s)
  = (Normal label, w1) ->
  exists s',
    Scanner.CSSScanner_copyButton P type s = (Normal true, s') /\
    clipboard (world s') = clipboard w1.
Proof.
  intros Hdata Hcopy.
  unfold Scanner.CSSScanner_copyButton, Scanner.execute.
  unfold bindS at 1. unfold bindS at 1. unfold getsS at 1. rewrite Hdata.
  unfold bindS at 1. cbn [option_map]. rewrite (lift_eq _ _ _ _ Hcopy).
  match goal with
  | |- context [lift (Scanner.NotificationManager_showMessage P) ?s1] =>
      destruct (showMessage_spec P (world s1)) as [w2 [Hshow [counts2 Hw2]]];
      rewrite (lift_eq _ _ _ _ Hshow)
  end.
  subst w2. cbn [Scanner.succeeded]. unfold bindS, retS. eexists. split; reflexivity.
Qed.

(** X23: the selector never reaches the clipboard.  On a browser whose
    clock never advances by more than the maximum cache age between two
    readings, [analyzeElement] returns, and it keeps the result of
    [extractCSSInfo] with its [element] overwritten by the DOM node, which
    has no [selector]; so after the inspection the [Copy Selector] button
    fails, whatever selector was found, and leaves on the clipboard at most
    the placeholder text of the error recovery; and when [Copy All CSS]
    succeeds, the text copied is that of a bare block that opens with a
    brace, without a selector: the block itself through the clipboard API,
    its selection in the text field through the fallback, which is the
    whole block when it has no carriage return and at most 99999 code
    units. *)
Theorem X23_selector_never_copied :
  forall (P : Platform) (rect : ElementData -> Q * Q) (fuel : nat) (e : Element)
         (willPin : bool) (s : Session),
    (forall n, (Date_now_at P (S n) - Date_now_at P n <= 30000)%Z) ->
    exists s1 info w1 data,
      Scanner.CSSScanner_analyzeElement P rect (S (S fuel)) (Some e) willPin s
      = (Normal tt, s1) /\
      CSSAnalyzer.extractCSSInfo P (S (S fuel)) (Some e) (world s) = (Normal info, w1) /\
      data = mkElementData e (info_computed info) (info_inline info) (info_categorized info)
               willPin /\
      currentElementData s1 = Some data /\
      (exists s2,
          Scanner.CSSScanner_copyButton P "selector" s1 = (Normal false, s2) /\
          (clipboard (world s2) = clipboard (world s1) \/
           clipboard (world s2) = "No content to copy." :: clipboard (world s1))) /\
      (forall type s2,
          type = "all" \/ type = "computed" ->
          Scanner.CSSScanner_copyButton P type s1 = (Normal true, s2) ->
          let block :=
            "{" +:+ JS.LF
            +:+ JS.join JS.LF
                  (ClipboardManager.cssLines P (ClipboardManager.allStyles (asCSSInfo data)))
            +:+ JS.LF +:+ "}" in
          clipboard (world s2) = ClipboardManager.copied P block :: clipboard (world s1) /\
          (JS.includes JS.CR block = false -> (JS.utf16_length block <= 99999)%N ->
           clipboard (world s2) = block :: clipboard (world s1))).
Proof.
  intros P rect fuel e willPin s Hclock.
  destruct (extractCSSInfo_returns P fuel e (world s) Hclock) as [info [w1 [Hinfo _]]].
  pose proof (analyzeElement_eq P rect (S (S fuel)) e willPin s) as Hrun.
  rewrite Hinfo in Hrun. cbv zeta in Hrun.
  set (data := mkElementData e (info_computed info) (info_inline info)
                 (info_categorized info) willPin) in *.
  match type of Hrun with _ = (_, ?s1') => set (s1 := s1') in * end.
  assert (Hdata : currentElementData s1 = Some data) by reflexivity.
  exists s1, info, w1, data. split; [exact Hrun |]. split; [exact Hinfo |].
  split; [reflexivity |]. split; [exact Hdata |]. clearbody s1. split.
  - pose proof (copyToClipboard_selector_eq P (asCSSInfo data) (world s1)) as Hcopy.
    cbv zeta in Hcopy. cbn [asCSSInfo info_element el_selector] in Hcopy.
    rewrite trim_empty in Hcopy. cbn [String.eqb negb andb] in Hcopy.
    destruct (copyButton_failure P "selector" _ data s1 _ Hdata Hcopy) as [s2 [Hbutton Hclip]].
    exists s2. split; [exact Hbutton |]. rewrite Hclip.
    rewrite handleError_clipboard_write_failed.
    destruct (_ <? 3)%nat; [| now left].
    destruct (document_body P); [| now left].
    destruct (document_execCommand_copy P "No content to copy.") as [[|] | message];
      [now right | now left | now left].
  - intros type s2 Htype Hbutton.
    pose proof (copyToClipboard_all_eq P (asCSSInfo data) type (world s1) Htype) as Hcopy.
    cbv zeta in Hcopy. cbn [asCSSInfo info_element el_selector] in Hcopy.
    fold (asCSSInfo data) in Hcopy.
    destruct (ClipboardManager.copyToClipboard P (Some (asCSSInfo data)) type (world s1))
      as [[label | message |] w2] eqn:Hresult.
    + destruct (copyButton_success P type label data s1 w2 Hdata Hresult)
        as [s2' [Hbutton' Hclip]].
      rewrite Hbutton in Hbutton'. injection Hbutton' as <-.
      change (JS.truthy "") with false in Hcopy. cbv iota in Hcopy.
      destruct (ClipboardManager.sortedDeclarations P
                  (ClipboardManager.allStyles (asCSSInfo data))) as [| d ds] eqn:Hdecl.
      * cbn in Hcopy. discriminate Hcopy.
      * match type of Hcopy with
        | _ = (if ?valid then _ else _) => destruct valid; [| discriminate Hcopy]
        end.
        match type of Hcopy with
        | context [ClipboardManager.performCopy P ?text (world s1)] =>
            destruct (performCopy_spec P text (world s1)) as [success [w3 [Hperform Hclip3]]];
            rewrite Hperform in Hcopy
        end.
        destruct success; [| discriminate Hcopy].
        injection Hcopy as _ Hw. subst w3.
        assert (Hcopied : clipboard (world s2)
                          = ClipboardManager.copied P
                              ("{" +:+ JS.LF
                               +:+ JS.join JS.LF
                                     (ClipboardManager.cssLines P
                                        (ClipboardManager.allStyles (asCSSInfo data)))
                               +:+ JS.LF +:+ "}") :: clipboard (world s1))
          by (rewrite Hclip; exact Hclip3).
        cbv zeta. split; [exact Hcopied |].
        intros Hnone Hshort. rewrite Hcopied. f_equal.
        exact (proj2 (proj2 (copied_spec P _)) Hnone Hshort).
    + destruct (copyButton_failure P type message data s1 w2 Hdata Hresult)
        as [s2' [Hbutton' _]].
      rewrite Hbutton in Hbutton'. discriminate Hbutton'.
    + exfalso. revert Hbutton.
      unfold Scanner.CSSScanner_copyButton, Scanner.execute.
      unfold bindS at 1. unfold bindS at 1. unfold getsS at 1. rewrite Hdata.
      unfold bindS at 1. cbn [option_map]. rewrite (lift_eq _ _ _ _ Hresult).
      discriminate.
Qed.

(** X23 at the sample page: [hero], whose selector is [#hero], is
    inspected. *)
Lemma X23_selector_never_copied_at_sample :
  let rect := fun _ : ElementData => (380%Q, 200%Q) in
  let s := mkSession Sample.world_popupShown 1000 None None ∅ None true "crosshair" None
             false in
  match fst (CSSAnalyzer.extractCSSInfo Sample.platform 2 (Some Sample.hero) (world s)) with
  | Normal info => option_map el_selector (info_element info)
  | _ => None
  end = Some "#hero" /\
  exists s1 info w1 data,
    Scanner.CSSScanner_analyzeElement Sample.platform rect 2 (Some Sample.hero) false s
    = (Normal tt, s1) /\
    CSSAnalyzer.extractCSSInfo Sample.platform 2 (Some Sample.hero) (world s)
    = (Normal info, w1) /\
    data = mkElementData Sample.hero (info_computed info) (info_inline info)
             (info_categorized info) false /\
    currentElementData s1 = Some data /\
    (exists s2,
        Scanner.CSSScanner_copyButton Sample.platform "selector" s1 = (Normal false, s2) /\
        (clipboard (world s2) = clipboard (world s1) \/
         clipboard (world s2) = "No content to copy." :: clipboard (world s1))) /\
    (forall type s2,
        type = "all" \/ type = "computed" ->
        Scanner.CSSScanner_copyButton Sample.platform type s1 = (Normal true, s2) ->
        let block :=
          "{" +:+ JS.LF
          +:+ JS.join JS.LF
                (ClipboardManager.cssLines Sample.platform
                   (ClipboardManager.allStyles (asCSSInfo data)))
          +:+ JS.LF +:+ "}" in
        clipboard (world s2)
        = ClipboardManager.copied Sample.platform block :: clipboard (world s1) /\
        (JS.includes JS.CR block = false -> (JS.utf16_length block <= 99999)%N ->
         clipboard (world s2) = block :: clipboard (world s1))).
Proof.
  cbv zeta. split; [vm_compute; reflexivity |].
  exact (X23_selector_never_copied Sample.platform (fun _ => (380%Q, 200%Q)) 0 Sample.hero
           false
           (mkSession Sample.world_popupShown 1000 None None ∅ None true "crosshair" None
              false)
           sample_clock_steady).
Defined.

(** X24: the Escape key steps back one level.  While the scan is off, and
    for every other key, the key handler changes nothing.  While the scan
    is on, Escape on a pinned popup clears the pin flag and the pinned
    position and leaves the scan mode, the handlers and the popup as they
    are; Escape without a pin stops the scan: the scan mode is off, the
    handlers are unregistered, the current element data are forgotten and,
    on a document with a body, the popup is closed.  The handler never
    raises. *)
Theorem X24_escape :
  forall (P : Platform) (key : string) (s : Session),
    exists s',
      Scanner.EventHandler_handleKeyDown P key s = (Normal tt, s') /\
      (isScanning (world s) = false \/ key <> "Escape" -> s' = s) /\
      (isScanning (world s) = true -> key = "Escape" ->
       if isPinned (world s)
       then isScanning (world s') = true /\ isPinned (world s') = false /\
            pinnedPosition (world s') = None /\ popup (world s') = popup (world s) /\
            listening s' = listening s /\ currentElementData s' = currentElementData s
       else isScanning (world s') = false /\ listening s' = false /\
            currentElementData s' = None /\
            (document_body P <> None -> popup (world s') = None)).
Proof.
  intros P key s.
  unfold Scanner.EventHandler_handleKeyDown, Scanner.CSSScanner_handleKeyDown, Scanner.execute.
  unfold bindS at 1. unfold bindS at 1. unfold bindS at 1. rewrite lift_gets.
  destruct (isScanning (world s)) eqn:Hscanning; cbn [negb].
  - destruct (String.eqb_spec key "Escape") as [Hkey | Hkey].
    + unfold bindS at 1. rewrite lift_gets.
      destruct (isPinned (world s)) eqn:Hpinned.
      * unfold bindS at 1.
        destruct (unpinPopup_position P (world s)) as [counts Hunpin].
        rewrite (lift_eq _ _ _ _ Hunpin).
        match goal with
        | |- context [lift (Scanner.NotificationManager_showMessage P) ?s1] =>
            destruct (showMessage_spec P (world s1)) as [w2 [Hshow [counts2 Hw2]]];
            rewrite (lift_eq _ _ _ _ Hshow)
        end.
        subst w2. unfold retS. eexists. split; [reflexivity |]. split.
        -- intros [Hoff | Hother]; [discriminate Hoff | contradiction].
        -- intros _ _. cbn. rewrite Hscanning. repeat split.
      * destruct (stopScan_spec P s)
          as (s1 & Hstop & Hmode & _ & _ & _ & _ & _ & Hlisten & _ & Hdata & _ & Hwith & _).
        unfold bindS at 1. rewrite Hstop. unfold retS.
        exists s1. split; [reflexivity |]. split.
        -- intros [Hoff | Hother]; [discriminate Hoff | contradiction].
        -- intros _ _. split; [exact Hmode |]. split; [exact Hlisten |].
           split; [exact Hdata |]. intros Hbody. now destruct (Hwith Hbody).
    + unfold retS. exists s. split; [reflexivity |]. split; [reflexivity |].
      intros _ Heq. contradiction.
  - unfold retS. exists s. split; [reflexivity |]. split; [reflexivity |].
    intros Hon. discriminate Hon.
Qed.

(** *** Messages of the extension *)

(** X25: every message gets exactly one answer, and the handler never
    raises.  [ping] is answered with a pong and [getScanStatus] with the
    scan mode, both without any change of state; [toggleScan] flips the
    scan mode and is answered with the new mode; any other action is
    answered with the error [Unknown action], again without any change. *)
Theorem X25_one_answer_per_message :
  forall (P : Platform) (action : string) (s : Session),
    exists response s',
      Scanner.MessageHandler_handleMessage P action s = (Normal [response], s') /\
      (action = "ping" -> response = Response_pong /\ s' = s) /\
      (action = "toggleScan" ->
       response = Response_toggled (negb (isScanning (world s))) /\
       isScanning (world s') = negb (isScanning (world s))) /\
      (action = "getScanStatus" ->
       response = Response_status (isScanning (world s)) /\ s' = s) /\
      (action <> "ping" -> action <> "toggleScan" -> action <> "getScanStatus" ->
       response = Response_error "Unknown action" /\ s' = s).
Proof.
  intros P action s.
  unfold Scanner.MessageHandler_handleMessage, Scanner.execute.
  unfold bindS at 1. unfold bindS at 1.
  destruct (String.eqb_spec action "ping") as [Hping | Hping].
  - unfold retS. eexists; eexists. split; [reflexivity |].
    subst action. repeat split; intros; try reflexivity; try discriminate; try contradiction.
  - destruct (String.eqb_spec action "toggleScan") as [Htoggle | Htoggle].
    + destruct (toggleScan_spec P s) as [s1 [Hrun Hwhich]].
      unfold bindS at 1. rewrite Hrun. unfold retS.
      eexists; eexists. split; [reflexivity |].
      assert (Hmode : isScanning (world s1) = negb (isScanning (world s))).
      { destruct (isScanning (world s)); destruct Hwhich as [ok Hstep].
        - destruct (stopScan_spec P s) as [s1' [Hstop [Hmode _]]].
          rewrite Hstop in Hstep. injection Hstep as _ <-. exact Hmode.
        - destruct (startScan_spec P s) as [s1' [Hstart [Hmode _]]].
          rewrite Hstart in Hstep. injection Hstep as _ <-. exact Hmode. }
      subst action.
      split; [discriminate |]. split; [now intros _ |]. split; [discriminate |].
      intros _ Hne. contradiction.
    + destruct (String.eqb_spec action "getScanStatus") as [Hstatus | Hstatus].
      * unfold bindS at 1. rewrite lift_gets. unfold retS.
        eexists; eexists. split; [reflexivity |]. subst action.
        split; [discriminate |]. split; [discriminate |]. split; [now intros _ |].
        intros _ _ Hne. contradiction.
      * unfold retS. eexists; eexists. split; [reflexivity |].
        split; [intros; contradiction |]. split; [intros; contradiction |].
        split; [intros; contradiction |]. now intros _ _ _.
Qed.

(** *** Timers *)

Lemma handleMouseOver_eq (P : Platform) (event : TargetEvent) (s : Session) :
  Scanner.EventHandler_handleMouseOver P event s = (Normal tt, set_hoverTimeout (Some event) s).
Proof. reflexivity. Qed.

Lemma handleMouseOvers_eq (P : Platform) (events : list TargetEvent) (event : TargetEvent) :
  forall s,
    Scanner.EventHandler_handleMouseOvers P (events ++ [event])%list s
    = (Normal tt, set_hoverTimeout (Some event) s).
Proof.
  induction events as [| first rest IH]; intros s.
  - reflexivity.
  - cbn [app Scanner.EventHandler_handleMouseOvers]. unfold bindS.
    rewrite handleMouseOver_eq, IH. reflexivity.
Qed.

(** A handler wrapped in [execute] lets no error out. *)
Lemma executed_cases {A} (P : Platform) (fn : MS A) (errorType : string) (s : Session) :
  (exists s', bindS (Scanner.execute P fn errorType) (fun _ => retS tt) s = (Normal tt, s')) \/
  (exists s', bindS (Scanner.execute P fn errorType) (fun _ => retS tt) s = (Diverge, s')).
Proof.
  unfold bindS, Scanner.execute, retS.
  destruct (fn s) as [[a | message |] s']; [left | left | right]; eexists; reflexivity.
Qed.

Lemma hoverTimeout_fires_eq (P : Platform) (rect : ElementData -> Q * Q) (fuel : nat)
    (event : TargetEvent) (s : Session) :
  hoverTimeout s = Some event ->
  Scanner.EventHandler_hoverTimeout_fires P rect fuel s
  = Scanner.CSSScanner_handleMouseOver P rect fuel event (set_hoverTimeout None s).
Proof.
  intros Hpending.
  unfold Scanner.EventHandler_hoverTimeout_fires.
  unfold bindS at 1. unfold getsS at 1. rewrite Hpending.
  unfold bindS at 1. unfold modifyS at 1.
  unfold bindS at 1. unfold Scanner.execute at 1.
  unfold Scanner.CSSScanner_handleMouseOver at 1.
  match goal with
  | |- context [Scanner.execute P ?fn ?errorType] =>
      destruct (executed_cases P fn errorType (set_hoverTimeout None s))
        as [[s' Hrun] | [s' Hrun]]
  end; unfold Scanner.CSSScanner_handleMouseOver; rewrite Hrun; reflexivity.
Qed.

Lemma handleMouseOut_hoverTimeout (P : Platform) (event : TargetEvent) (s : Session) :
  exists s',
    Scanner.EventHandler_handleMouseOut P event s = (Normal tt, s') /\
    hoverTimeout s' = None.
Proof.
  unfold Scanner.EventHandler_handleMouseOut, Scanner.EventHandler_clearHoverTimeout,
    Scanner.CSSScanner_handleMouseOut, Scanner.ElementSelector_removeHighlight,
    Scanner.executeDOMOperation.
  unfold Scanner.execute, bindS, modifyS, getsS, retS, throwS.
  rewrite !lift_gets. cbn [world set_hoverTimeout].
  destruct (isScanning (world s)); cbn [negb];
    [| eexists; split; reflexivity].
  rewrite (lift_eq _ _ _ _ (isPopupElement_eq P (asMouseEvent event) _)).
  destruct (target_closest_popup (asMouseEvent event)); [eexists; split; reflexivity |].
  rewrite !lift_gets. cbn [world set_world set_hoverTimeout].
  destruct (isPinned (world s)); [eexists; split; reflexivity |].
  destruct (relatedTarget event) as [related |].
  - destruct (target event) as [e |]; [| eexists; split; reflexivity].
    destruct (contains (handle e) related || contains (handle related) e);
      [eexists; split; reflexivity |].
    destruct (document_body P); [| eexists; split; reflexivity].
    cbn. destruct (highlightedElement s); eexists; split; reflexivity.
  - destruct (document_body P); [| eexists; split; reflexivity].
    cbn. destruct (highlightedElement s); eexists; split; reflexivity.
Qed.

(** X26: the hover is debounced.  Of a run of [mouseover] events with no
    timer firing in between only the last is pending, and nothing else has
    changed; when the timer fires, that event alone is handled by the
    scanner, just as if it were handed over directly with no timer pending.
    A [mouseout] in between cancels the pending event, which is then never
    handled: the timer has nothing left to do. *)
Theorem X26_hover_debounce :
  forall (P : Platform) (rect : ElementData -> Q * Q) (fuel : nat)
         (events : list TargetEvent) (event : TargetEvent) (s : Session),
    Scanner.EventHandler_handleMouseOvers P (events ++ [event])%list s
    = (Normal tt, set_hoverTimeout (Some event) s) /\
    Scanner.EventHandler_hoverTimeout_fires P rect fuel (set_hoverTimeout (Some event) s)
    = Scanner.CSSScanner_handleMouseOver P rect fuel event (set_hoverTimeout None s) /\
    (forall out,
        exists s',
          Scanner.EventHandler_handleMouseOut P out (set_hoverTimeout (Some event) s)
          = (Normal tt, s') /\
          hoverTimeout s' = None /\
          Scanner.EventHandler_hoverTimeout_fires P rect fuel s' = (Normal tt, s')).
Proof.
  intros P rect fuel events event s. split; [apply handleMouseOvers_eq |]. split.
  - rewrite (hoverTimeout_fires_eq P rect fuel event (set_hoverTimeout (Some event) s) eq_refl).
    reflexivity.
  - intros out.
    destruct (handleMouseOut_hoverTimeout P out (set_hoverTimeout (Some event) s))
      as [s' [Hrun Hnone]].
    exists s'. split; [exact Hrun |]. split; [exact Hnone |].
    unfold Scanner.EventHandler_hoverTimeout_fires, bindS, getsS. now rewrite Hnone.
Qed.

Lemma handleMouseMove_returns (P : Platform) (event : MouseEvent) (w : World) :
  exists w', EventHandler.handleMouseMove P event w = (Normal tt, w').
Proof.
  unfold EventHandler.handleMouseMove, CSSScanner.handleMouseMove,
    ElementSelector.isPopupElement, PopupManager.updatePopupPosition,
    SafeWrapper.executeDOMOperation, SafeWrapper.execute, bind, gets, modify, ret.
  destruct w as [counts texts styles selectors clock reads shown pinned position scanning cursor].
  cbn [isScanning popup isPinned set_mousePosition mousePosition].
  destruct scanning; cbn [negb]; [| eexists; reflexivity].
  destruct shown; [| eexists; reflexivity].
  destruct pinned; [eexists; reflexivity |].
  destruct (target_closest_popup event); [eexists; reflexivity |].
  destruct (document_body P); cbn; eexists; reflexivity.
Qed.

Lemma mouseMoves_throttled (P : Platform) (events : list MouseEvent) :
  forall s, inThrottle s = true ->
    Scanner.EventHandler_mouseMoves P events s = (Normal tt, s).
Proof.
  induction events as [| event rest IH]; intros s Hthrottle; [reflexivity |].
  cbn [Scanner.EventHandler_mouseMoves]. unfold bindS at 1.
  unfold Scanner.EventHandler_mouseMove, bindS at 1, getsS at 1.
  rewrite Hthrottle. unfold retS at 1. now apply IH.
Qed.

(** X27: pointer moves are throttled.  While the throttle is closed every
    pointer move is dropped without any effect.  While it is open the
    first move of a run is handled by [handleMouseMove] and closes the
    throttle, and all the moves that follow before the timer fires are
    dropped; the timer opens the throttle again and changes nothing else.  *)
Theorem X27_pointer_moves_throttled :
  forall (P : Platform) (event : MouseEvent) (rest : list MouseEvent) (s : Session),
    (inThrottle s = true ->
     Scanner.EventHandler_mouseMoves P (event :: rest) s = (Normal tt, s)) /\
    (inThrottle s = false ->
     exists w',
       EventHandler.handleMouseMove P event (world s) = (Normal tt, w') /\
       Scanner.EventHandler_mouseMoves P (event :: rest) s
       = (Normal tt, set_inThrottle true (set_world (fun _ => w') s)) /\
       Scanner.EventHandler_throttle_timer (set_inThrottle true (set_world (fun _ => w') s))
       = (Normal tt, set_world (fun _ => w') s)).
Proof.
  intros P event rest s. split.
  - intros Hthrottle. now apply mouseMoves_throttled.
  - intros Hopen.
    destruct (handleMouseMove_returns P event (world s)) as [w' Hmove].
    exists w'. split; [exact Hmove |]. split.
    + cbn [Scanner.EventHandler_mouseMoves]. unfold bindS at 1.
      unfold Scanner.EventHandler_mouseMove. unfold bindS at 1. unfold getsS at 1.
      rewrite Hopen. unfold bindS at 1. rewrite (lift_eq _ _ _ _ Hmove).
      unfold modifyS at 1. now apply mouseMoves_throttled.
    + unfold Scanner.EventHandler_throttle_timer, modifyS. f_equal.
      destruct s. cbn in Hopen. subst. reflexivity.
Qed.

(** *** What holds whenever the script is idle *)

(** A step that changes neither the scan mode, the registration nor the
    highlight, shows no popup that was not there, and neither sets nor
    forgets the element data. *)
Lemma consistent_no_new (P : Platform) (s s' : Session) :
  Scanner.consistent P s ->
  listening s' = listening s ->
  isScanning (world s') = isScanning (world s) ->
  highlightClass s' = highlightClass s ->
  highlightedElement s' = highlightedElement s ->
  (popup (world s') <> None -> popup (world s) <> None) ->
  (currentElementData s' = None <-> currentElementData s = None) ->
  Scanner.consistent P s'.
Proof.
  intros (I1 & I2 & I3 & I4 & I5) Hlisten Hscan Hclass Hhigh Hpopup Hdata.
  assert (Hnone : popup (world s) = None -> popup (world s') = None).
  { intros Hp. destruct (popup (world s')) as [p |] eqn:Hp'; [| reflexivity].
    exfalso. apply Hpopup; [discriminate | exact Hp]. }
  unfold Scanner.consistent. rewrite Hlisten, Hscan, Hclass, Hhigh.
  split; [exact I1 |]. split; [exact I2 |]. split; [| split].
  - intros Hoff. destruct (I3 Hoff) as (Hp & Hh & Hc & Hd).
    repeat split; try assumption; [now apply Hnone | now apply Hdata].
  - intros Hp Hd. apply Hdata in Hd. now apply (I4 (Hpopup Hp)).
  - intros Hbody. destruct (I5 Hbody) as (Hp & Hh & Hc).
    repeat split; try assumption. now apply Hnone.
Qed.

Lemma consistent_world (P : Platform) (s : Session) (w' : World) :
  Scanner.consistent P s ->
  isScanning w' = isScanning (world s) ->
  (popup w' <> None -> popup (world s) <> None) ->
  Scanner.consistent P (set_world (fun _ => w') s).
Proof.
  intros Hinv Hscan Hpopup.
  apply (consistent_no_new P s); try assumption; reflexivity.
Qed.

Lemma consistent_errors (P : Platform) (s : Session) (message errorType : string) :
  errorType <> "CLIPBOARD_WRITE_FAILED" ->
  Scanner.consistent P s ->
  Scanner.consistent P (set_world (ErrorHandler.handleError P message errorType None) s).
Proof.
  intros Htype Hinv.
  destruct (handleError_sameButErrorCounts P message errorType None (world s) Htype)
    as [counts Hsame].
  apply (consistent_no_new P s); try assumption; try reflexivity;
    cbn [world set_world]; rewrite Hsame; try reflexivity. now intros Hne.
Qed.

(** Any error handled keeps the popup, the pin and the scan mode. *)
Lemma handleError_popup_mode (P : Platform) (message errorType : string)
    (context_text : option string) (w : World) :
  popup (ErrorHandler.handleError P message errorType context_text w) = popup w /\
  isScanning (ErrorHandler.handleError P message errorType context_text w) = isScanning w /\
  isPinned (ErrorHandler.handleError P message errorType context_text w) = isPinned w.
Proof.
  unfold ErrorHandler.handleError, ErrorHandler.attemptRecovery,
    ErrorHandler.recoverClipboardAccess.
  destruct (ErrorHandler.maxRetries <=? _)%nat; [repeat split |].
  destruct (errorType =? "CLIPBOARD_WRITE_FAILED"); [| repeat split].
  destruct (document_body P); [| repeat split].
  destruct (document_execCommand_copy P _) as [[|] | ?]; repeat split.
Qed.

(** **** Methods that show no popup *)

Lemma showsNoPopup_same {A} (m : M A) :
  (forall w, isScanning (snd (m w)) = isScanning w /\ popup (snd (m w)) = popup w) ->
  showsNoPopup m.
Proof. intros Hm w. destruct (Hm w) as [Hscan Hpopup]. split; [exact Hscan | congruence]. Qed.

Lemma showsNoPopup_ret {A} (a : A) : showsNoPopup (ret a).
Proof. intros w. split; [reflexivity | now intros Hne]. Qed.

Lemma showsNoPopup_throw {A} (message : string) : showsNoPopup (@throw A message).
Proof. intros w. split; [reflexivity | now intros Hne]. Qed.

Lemma showsNoPopup_call {A} (o : Outcome A) : showsNoPopup (call o).
Proof. destruct o; intros w; (split; [reflexivity | now intros Hne]). Qed.

Lemma showsNoPopup_gets {A} (f : World -> A) : showsNoPopup (gets f).
Proof. intros w. split; [reflexivity | now intros Hne]. Qed.

Lemma showsNoPopup_bind {A B} (m : M A) (k : A -> M B) :
  showsNoPopup m -> (forall a, showsNoPopup (k a)) -> showsNoPopup (bind m k).
Proof.
  intros Hm Hk w. unfold bind. specialize (Hm w).
  destruct (m w) as [[a | message |] w1]; cbn [snd] in *; [| exact Hm | exact Hm].
  destruct (Hk a w1) as (H1 & H2). destruct Hm as (K1 & K2).
  split; [congruence | auto].
Qed.

Lemma showsNoPopup_execute {A} (P : Platform) (fn : M A) (errorType : string)
    (context_text : option string) :
  showsNoPopup fn -> showsNoPopup (SafeWrapper.execute P fn errorType context_text).
Proof.
  intros Hfn w. unfold SafeWrapper.execute. specialize (Hfn w).
  destruct (fn w) as [[a | message |] w1]; cbn [snd] in *; [exact Hfn | | exact Hfn].
  destruct (handleError_popup_mode P message errorType context_text w1) as (H1 & H2 & H3).
  destruct Hfn as (K1 & K2). rewrite H1, H2. split; assumption.
Qed.

Lemma showsNoPopup_handleError (P : Platform) (message errorType : string)
    (context_text : option string) :
  showsNoPopup (modify (ErrorHandler.handleError P message errorType context_text)).
Proof.
  intros w. unfold modify. cbn [snd].
  destruct (handleError_popup_mode P message errorType context_text w) as (H1 & H2 & H3).
  rewrite H1, H2. split; [reflexivity | now intros Hne].
Qed.

Lemma showsNoPopup_executeDOMOperation {A} (P : Platform) (fn : M A) (errorType : string)
    (context_text : option string) :
  showsNoPopup fn ->
  showsNoPopup (SafeWrapper.executeDOMOperation P fn errorType context_text).
Proof.
  intros Hfn. unfold SafeWrapper.executeDOMOperation.
  destruct (document_body P); [now apply showsNoPopup_execute |].
  apply showsNoPopup_bind; [apply showsNoPopup_handleError | intros _; apply showsNoPopup_ret].
Qed.

Lemma showsNoPopup_modify (f : World -> World) :
  (forall w, isScanning (f w) = isScanning w /\ (popup (f w) <> None -> popup w <> None)) ->
  showsNoPopup (modify f).
Proof. intros Hf w. exact (Hf w). Qed.

Create HintDb noPopup.

Ltac shows_no_popup :=
  repeat first
    [ solve [auto with noPopup nocore]
    | match goal with
      | |- showsNoPopup (ret _) => apply showsNoPopup_ret
      | |- showsNoPopup (throw _) => apply showsNoPopup_throw
      | |- showsNoPopup (call _) => apply showsNoPopup_call
      | |- showsNoPopup (gets _) => apply showsNoPopup_gets
      | |- showsNoPopup (SafeWrapper.execute _ _ _ _) => apply showsNoPopup_execute
      | |- showsNoPopup (SafeWrapper.executeDOMOperation _ _ _ _) =>
          apply showsNoPopup_executeDOMOperation
      | |- showsNoPopup (bind _ _) => apply showsNoPopup_bind; [| intros ?]
      | |- showsNoPopup (modify _) =>
          apply showsNoPopup_modify; intros ?; split; [reflexivity | cbn; congruence]
      | |- showsNoPopup (if ?b then _ else _) => destruct b
      | |- showsNoPopup (match ?x with _ => _ end) => destruct x
      end ].

Lemma copyToClipboard_showsNoPopup (P : Platform) (elementData : option CSSInfo)
    (type : string) :
  showsNoPopup (ClipboardManager.copyToClipboard P elementData type).
Proof.
  unfold ClipboardManager.copyToClipboard, ClipboardManager.generateAllCSSText,
    ClipboardManager.generateInlineCSSText, ClipboardManager.generateCSSText,
    ClipboardManager.isValidCopyText, ClipboardManager.performCopy,
    ClipboardManager.performCopy_fallback, SafeWrapper.executeAsync.
  shows_no_popup.
Qed.
#[local] Hint Resolve copyToClipboard_showsNoPopup : noPopup.

Lemma showMessage_showsNoPopup (P : Platform) :
  showsNoPopup (Scanner.NotificationManager_showMessage P).
Proof. unfold Scanner.NotificationManager_showMessage. shows_no_popup. Qed.
#[local] Hint Resolve showMessage_showsNoPopup : noPopup.

Lemma unpinPopup_showsNoPopup (P : Platform) : showsNoPopup (PopupManager.unpinPopup P).
Proof.
  unfold PopupManager.unpinPopup, PopupManager.updatePinnedState. shows_no_popup.
Qed.
#[local] Hint Resolve unpinPopup_showsNoPopup : noPopup.

Lemma pinPopup_showsNoPopup (P : Platform) : showsNoPopup (PopupManager.pinPopup P).
Proof.
  unfold PopupManager.pinPopup, PopupManager.updatePinnedState. shows_no_popup.
Qed.
#[local] Hint Resolve pinPopup_showsNoPopup : noPopup.

Lemma closePopup_showsNoPopup (P : Platform) : showsNoPopup (Scanner.PopupManager_closePopup P).
Proof. unfold Scanner.PopupManager_closePopup. shows_no_popup. Qed.
#[local] Hint Resolve closePopup_showsNoPopup : noPopup.

Lemma isPopupElement_showsNoPopup (P : Platform) (event : MouseEvent) :
  showsNoPopup (ElementSelector.isPopupElement P event).
Proof. unfold ElementSelector.isPopupElement. shows_no_popup. Qed.
#[local] Hint Resolve isPopupElement_showsNoPopup : noPopup.

Lemma updatePopupPosition_showsNoPopup (P : Platform) (cursor : Q * Q) :
  showsNoPopup (PopupManager.updatePopupPosition P cursor).
Proof.
  unfold PopupManager.updatePopupPosition.
  apply showsNoPopup_bind; [| intros ?; apply showsNoPopup_ret].
  apply showsNoPopup_executeDOMOperation.
  intros w. unfold bind, gets, modify, ret.
  destruct (popup w) as [p |] eqn:Hp; [| split; [reflexivity | now intros Hne]].
  destruct (isPinned w); cbn [snd]; (split; [reflexivity |]); rewrite ?Hp; discriminate.
Qed.
#[local] Hint Resolve updatePopupPosition_showsNoPopup : noPopup.

Lemma handleMouseMove_showsNoPopup (P : Platform) (event : MouseEvent) :
  showsNoPopup (EventHandler.handleMouseMove P event).
Proof.
  unfold EventHandler.handleMouseMove, CSSScanner.handleMouseMove. shows_no_popup.
Qed.
#[local] Hint Resolve handleMouseMove_showsNoPopup : noPopup.

(** **** Methods that keep the state consistent *)

Lemma stays_ret {A} (P : Platform) (a : A) : Scanner.staysConsistent P (retS a).
Proof. intros s Hinv. exact Hinv. Qed.

Lemma stays_throw {A} (P : Platform) (message : string) :
  Scanner.staysConsistent P (@throwS A message).
Proof. intros s Hinv. exact Hinv. Qed.

Lemma stays_gets {A} (P : Platform) (f : Session -> A) : Scanner.staysConsistent P (getsS f).
Proof. intros s Hinv. exact Hinv. Qed.

Lemma stays_bind {A B} (P : Platform) (m : MS A) (k : A -> MS B) :
  Scanner.staysConsistent P m -> (forall a, Scanner.staysConsistent P (k a)) ->
  Scanner.staysConsistent P (bindS m k).
Proof.
  intros Hm Hk s Hinv. unfold bindS. specialize (Hm s Hinv).
  destruct (m s) as [[a | message |] s1]; cbn [snd] in *; [| exact Hm | exact Hm].
  now apply Hk.
Qed.

Lemma consistent_handled (P : Platform) (s : Session) (message errorType : string) :
  Scanner.consistent P s ->
  Scanner.consistent P (set_world (ErrorHandler.handleError P message errorType None) s).
Proof.
  intros Hinv.
  destruct (handleError_popup_mode P message errorType None (world s)) as (H1 & H2 & H3).
  apply (consistent_no_new P s); try assumption; try reflexivity; cbn [world set_world];
    congruence.
Qed.

Lemma stays_execute {A} (P : Platform) (fn : MS A) (errorType : string) :
  Scanner.staysConsistent P fn -> Scanner.staysConsistent P (Scanner.execute P fn errorType).
Proof.
  intros Hfn s Hinv. unfold Scanner.execute. specialize (Hfn s Hinv).
  destruct (fn s) as [[a | message |] s1]; cbn [snd] in *; [exact Hfn | | exact Hfn].
  now apply consistent_handled.
Qed.

Lemma stays_executeDOMOperation {A} (P : Platform) (fn : MS A) (errorType : string) :
  Scanner.staysConsistent P fn ->
  Scanner.staysConsistent P (Scanner.executeDOMOperation P fn errorType).
Proof.
  intros Hfn. unfold Scanner.executeDOMOperation.
  destruct (document_body P); [now apply stays_execute |].
  intros s Hinv. now apply consistent_handled.
Qed.

Lemma stays_lift {A} (P : Platform) (m : M A) :
  showsNoPopup m -> Scanner.staysConsistent P (lift m).
Proof.
  intros Hm s Hinv. unfold lift. cbn [snd].
  destruct (Hm (world s)) as [Hscan Hpopup]. now apply consistent_world.
Qed.

Lemma stays_modify (P : Platform) (f : Session -> Session) :
  (forall s, listening (f s) = listening s /\ world (f s) = world s /\
             highlightClass (f s) = highlightClass s /\
             highlightedElement (f s) = highlightedElement s /\
             currentElementData (f s) = currentElementData s) ->
  Scanner.staysConsistent P (modifyS f).
Proof.
  intros Hf s Hinv. unfold modifyS. cbn [snd].
  destruct (Hf s) as (H1 & H2 & H3 & H4 & H5).
  apply (consistent_no_new P s); try assumption; rewrite ?H2; try reflexivity.
  - now intros Hne.
  - now rewrite H5.
Qed.

Create HintDb stays.

Ltac stays_consistent :=
  repeat first
    [ solve [auto with stays nocore]
    | match goal with
      | |- Scanner.staysConsistent _ (retS _) => apply stays_ret
      | |- Scanner.staysConsistent _ (throwS _) => apply stays_throw
      | |- Scanner.staysConsistent _ (getsS _) => apply stays_gets
      | |- Scanner.staysConsistent _ (Scanner.execute _ _ _) => apply stays_execute
      | |- Scanner.staysConsistent _ (Scanner.executeDOMOperation _ _ _) =>
          apply stays_executeDOMOperation
      | |- Scanner.staysConsistent _ (bindS _ _) => apply stays_bind; [| intros ?]
      | |- Scanner.staysConsistent _ (lift _) => apply stays_lift; solve [shows_no_popup]
      | |- Scanner.staysConsistent _ (modifyS _) =>
          apply stays_modify; intros ?; repeat split
      | |- Scanner.staysConsistent _ (if ?b then _ else _) => destruct b
      | |- Scanner.staysConsistent _ (match ?x with _ => _ end) => destruct x
      end ].

Lemma removeHighlight_stays (P : Platform) :
  Scanner.staysConsistent P (Scanner.ElementSelector_removeHighlight P).
Proof.
  intros s Hinv.
  destruct (removeHighlight_spec P s) as [[Hbody Hrun] | [Hbody Hrun]]; rewrite Hrun;
    cbn [snd]; [| now apply consistent_handled].
  destruct Hinv as (I1 & I2 & I3 & I4 & I5).
  pose proof (unhighlighted_empty s I2) as Hempty.
  destruct (highlightedElement s) as [h |] eqn:Hh;
    [| unfold Scanner.consistent; rewrite Hh; exact (conj I1 (conj I2 (conj I3 (conj I4 I5))))].
  unfold Scanner.consistent.
  cbn [world listening highlightClass highlightedElement currentElementData
         set_highlightedElement set_highlightClass].
  rewrite Hempty. split; [exact I1 |]. split; [intros x Hx; now apply elem_of_empty in Hx |].
  split; [| split; [exact I4 |]].
  - intros Hoff. destruct (I3 Hoff) as (Hp & _ & _ & Hd). now repeat split.
  - intros Hnone. destruct (I5 Hnone) as (Hp & _ & _). now repeat split.
Qed.
#[local] Hint Resolve removeHighlight_stays : stays.

Lemma reset_stays (P : Platform) :
  Scanner.staysConsistent P (Scanner.ElementSelector_reset P).
Proof. unfold Scanner.ElementSelector_reset. stays_consistent. Qed.
#[local] Hint Resolve reset_stays : stays.

Lemma clear_stays (P : Platform) : Scanner.staysConsistent P (Scanner.StyleCache_clear P).
Proof.
  unfold Scanner.StyleCache_clear, StyleCache.Date_now.
  repeat first
    [ match goal with
      | |- Scanner.staysConsistent _ (lift _) =>
          apply stays_lift; apply showsNoPopup_same; intros ?; split; reflexivity
      end
    | progress stays_consistent ].
Qed.
#[local] Hint Resolve clear_stays : stays.

Lemma periodicCleanup_stays (P : Platform) :
  Scanner.staysConsistent P (Scanner.StyleCache_periodicCleanup P).
Proof.
  unfold Scanner.StyleCache_periodicCleanup, StyleCache.Date_now.
  repeat first
    [ match goal with
      | |- Scanner.staysConsistent _ (lift _) =>
          apply stays_lift; apply showsNoPopup_same; intros ?; split; reflexivity
      end
    | progress stays_consistent ].
Qed.
#[local] Hint Resolve periodicCleanup_stays : stays.

Lemma startScan_stays (P : Platform) :
  Scanner.staysConsistent P (Scanner.CSSScanner_startScan P).
Proof.
  intros s (I1 & I2 & I3 & I4 & I5).
  pose proof (unhighlighted_empty s I2) as Hempty.
  destruct (startScan_spec P s)
    as (s' & Hrun & Hmode & _ & _ & _ & _ & _ & Hlisten & _ & Hpopup & _ & Hdata & Hwith
        & Hwithout).
  rewrite Hrun. cbn [snd]. unfold Scanner.consistent.
  rewrite Hmode, Hlisten, Hpopup, Hdata.
  split; [reflexivity |]. split; [| split; [discriminate | split; [exact I4 |]]].
  - destruct (document_body P) as [b |] eqn:Hbody.
    + destruct Hwith as (_ & Hhigh & Hclass); [discriminate |].
      rewrite Hclass, Hempty. intros x Hx. now apply elem_of_empty in Hx.
    + destruct (Hwithout eq_refl) as (_ & Hhigh & Hclass). now rewrite Hclass, Hhigh.
  - intros Hbody. destruct (Hwithout Hbody) as (_ & Hhigh & Hclass).
    rewrite Hhigh, Hclass. now apply I5.
Qed.
#[local] Hint Resolve startScan_stays : stays.

Lemma stopScan_stays (P : Platform) :
  Scanner.staysConsistent P (Scanner.CSSScanner_stopScan P).
Proof.
  intros s (I1 & I2 & I3 & I4 & I5).
  pose proof (unhighlighted_empty s I2) as Hempty.
  destruct (stopScan_spec P s)
    as (s' & Hrun & Hmode & _ & _ & _ & _ & _ & Hlisten & _ & Hdata & _ & Hwith & Hwithout).
  rewrite Hrun. cbn [snd]. unfold Scanner.consistent.
  rewrite Hmode, Hlisten, Hdata.
  destruct (document_body P) as [b |] eqn:Hbody.
  - destruct Hwith as (Hpopup & _ & Hhigh & Hclass); [discriminate |].
    rewrite Hpopup, Hhigh, Hclass, Hempty.
    split; [reflexivity |]. split; [intros x Hx; now apply elem_of_empty in Hx |].
    split; [now repeat split |]. split; [now intros Hne | discriminate].
  - destruct (Hwithout eq_refl) as (Hpopup & _ & Hhigh & Hclass).
    destruct (I5 eq_refl) as (Hp & Hh & Hc).
    rewrite Hpopup, Hhigh, Hclass, Hp, Hh, Hc.
    split; [reflexivity |]. split; [intros x Hx; now apply elem_of_empty in Hx |].
    split; [now repeat split |]. split; [now intros Hne | now intros _].
Qed.
#[local] Hint Resolve stopScan_stays : stays.

Lemma toggleScan_stays (P : Platform) :
  Scanner.staysConsistent P (Scanner.CSSScanner_toggleScan P).
Proof. unfold Scanner.CSSScanner_toggleScan. stays_consistent. Qed.
#[local] Hint Resolve toggleScan_stays : stays.

Lemma handleMessage_stays (P : Platform) (action : string) :
  Scanner.staysConsistent P (Scanner.MessageHandler_handleMessage P action).
Proof. unfold Scanner.MessageHandler_handleMessage. stays_consistent. Qed.

Lemma handleKeyDown_stays (P : Platform) (key : string) :
  Scanner.staysConsistent P (Scanner.EventHandler_handleKeyDown P key).
Proof.
  unfold Scanner.EventHandler_handleKeyDown, Scanner.CSSScanner_handleKeyDown.
  stays_consistent.
Qed.

Lemma handleMouseOut_stays (P : Platform) (event : TargetEvent) :
  Scanner.staysConsistent P (Scanner.EventHandler_handleMouseOut P event).
Proof.
  unfold Scanner.EventHandler_handleMouseOut, Scanner.EventHandler_clearHoverTimeout,
    Scanner.CSSScanner_handleMouseOut.
  stays_consistent.
Qed.

Lemma handleMouseOver_stays (P : Platform) (event : TargetEvent) :
  Scanner.staysConsistent P (Scanner.EventHandler_handleMouseOver P event).
Proof.
  unfold Scanner.EventHandler_handleMouseOver, Scanner.EventHandler_clearHoverTimeout.
  stays_consistent.
Qed.

Lemma mouseMove_stays (P : Platform) (event : MouseEvent) :
  Scanner.staysConsistent P (Scanner.EventHandler_mouseMove P event).
Proof.
  unfold Scanner.EventHandler_mouseMove.
  apply stays_bind; [apply stays_gets | intros throttled].
  destruct throttled; [apply stays_ret |].
  apply stays_bind; [| intros _; stays_consistent].
  intros s Hinv.
  pose proof (stays_lift P (EventHandler.handleMouseMove P event)
                (handleMouseMove_showsNoPopup P event) s Hinv) as Hmove.
  destruct (lift (EventHandler.handleMouseMove P event) s) as [[[] | message |] s1];
    exact Hmove.
Qed.

Lemma handleMouseOut_timer_stays (P : Platform) (mouseOverPopup : bool) :
  Scanner.staysConsistent P (Scanner.CSSScanner_handleMouseOut_timer P mouseOverPopup).
Proof. unfold Scanner.CSSScanner_handleMouseOut_timer. stays_consistent. Qed.

Lemma copyButton_stays (P : Platform) (type : string) :
  Scanner.staysConsistent P (Scanner.CSSScanner_copyButton P type).
Proof. unfold Scanner.CSSScanner_copyButton. stays_consistent. Qed.

Lemma closeButton_stays (P : Platform) :
  Scanner.staysConsistent P (Scanner.CSSScanner_closeButton P).
Proof. unfold Scanner.CSSScanner_closeButton. stays_consistent. Qed.

Lemma popupMouseEnter_stays (P : Platform) :
  Scanner.staysConsistent P (Scanner.CSSScanner_popupMouseEnter P).
Proof.
  unfold Scanner.CSSScanner_popupMouseEnter, Scanner.EventHandler_clearHoverTimeout.
  stays_consistent.
Qed.

Lemma popupMouseLeave_stays (P : Platform) :
  Scanner.staysConsistent P (Scanner.CSSScanner_popupMouseLeave P).
Proof. unfold Scanner.CSSScanner_popupMouseLeave. stays_consistent. Qed.

Lemma interval_stays (P : Platform) :
  Scanner.staysConsistent P (Scanner.CSSScanner_interval P).
Proof. unfold Scanner.CSSScanner_interval. stays_consistent. Qed.

(** **** Inspecting while the scan is on *)

Lemma consistent_scanning (P : Platform) (s : Session) :
  isScanning (world s) = true ->
  listening s = true ->
  (forall h, h ∈ highlightClass s -> highlightedElement s = Some h) ->
  (popup (world s) <> None -> currentElementData s <> None) ->
  (document_body P = None ->
   popup (world s) = None /\ highlightedElement s = None /\ highlightClass s = ∅) ->
  Scanner.consistent P s.
Proof.
  intros Hscan Hlisten Hhigh Hdata Hbody. unfold Scanner.consistent.
  rewrite Hscan, Hlisten.
  split; [reflexivity |]. split; [exact Hhigh |]. split; [discriminate |].
  split; [exact Hdata | exact Hbody].
Qed.

(** A step taken while the scan is on, after which it is still on. *)
Lemma scanning_bind {A B} (P : Platform) (m : MS A) (k : A -> MS B) (s : Session) :
  Scanner.consistent P s -> isScanning (world s) = true ->
  (Scanner.consistent P (snd (m s)) /\ isScanning (world (snd (m s))) = true) ->
  (forall a s1,
      Scanner.consistent P s1 -> isScanning (world s1) = true ->
      Scanner.consistent P (snd (k a s1)) /\ isScanning (world (snd (k a s1))) = true) ->
  Scanner.consistent P (snd (bindS m k s)) /\ isScanning (world (snd (bindS m k s))) = true.
Proof.
  intros Hinv Hscan Hm Hk. unfold bindS.
  destruct (m s) as [[a | message |] s1]; cbn [snd] in *; [| exact Hm | exact Hm].
  destruct Hm as [Hinv1 Hscan1]. now apply Hk.
Qed.

Lemma scanning_lift {A} (P : Platform) (m : M A) (s : Session) :
  showsNoPopup m ->
  Scanner.consistent P s -> isScanning (world s) = true ->
  Scanner.consistent P (snd (lift m s)) /\ isScanning (world (snd (lift m s))) = true.
Proof.
  intros Hm Hinv Hscan. split; [now apply stays_lift |].
  unfold lift. cbn [snd world set_world]. destruct (Hm (world s)) as [Hmode _]. congruence.
Qed.

Lemma scanning_execute {A} (P : Platform) (fn : MS A) (errorType : string) (s : Session) :
  (Scanner.consistent P (snd (fn s)) /\ isScanning (world (snd (fn s))) = true) ->
  Scanner.consistent P (snd (Scanner.execute P fn errorType s)) /\
  isScanning (world (snd (Scanner.execute P fn errorType s))) = true.
Proof.
  intros Hfn. unfold Scanner.execute.
  destruct (fn s) as [[a | message |] s1]; cbn [snd] in *; [exact Hfn | | exact Hfn].
  destruct Hfn as [Hinv Hscan]. split; [now apply consistent_handled |].
  cbn [world set_world].
  destruct (handleError_popup_mode P message errorType None (world s1)) as (_ & Hmode & _).
  congruence.
Qed.

Lemma analyzeElement_scanning (P : Platform) (rect : ElementData -> Q * Q) (fuel : nat)
    (element : option Element) (willPin : bool) (s : Session) :
  Scanner.consistent P s -> isScanning (world s) = true ->
  Scanner.consistent P (snd (Scanner.CSSScanner_analyzeElement P rect fuel element willPin s)) /\
  isScanning (world (snd (Scanner.CSSScanner_analyzeElement P rect fuel element willPin s)))
  = true.
Proof.
  intros Hinv Hscan. destruct element as [e |].
  - rewrite analyzeElement_eq.
    destruct (extractCSSInfo_cases P fuel e (world s))
      as [w1 [(Hclip & Hpopup & Hpin & Hpos & Hmode & Hmouse) [[info Hinfo] | Hdiv]]].
    + rewrite Hinfo. cbv zeta. cbn [snd].
      destruct Hinv as (I1 & I2 & I3 & I4 & I5).
      destruct (document_body P) as [b |] eqn:Hbody.
      * assert (Hsome : document_body P <> None) by (rewrite Hbody; discriminate).
        match goal with
        | |- context [Scanner.PopupManager_showPopup P rect (Some ?data) ?cursor w1] =>
            destruct (showPopup_spec P rect data cursor w1 Hsome) as [counts [Hshow _]]
        end.
        cbv zeta in Hshow. rewrite Hshow. cbn [snd].
        split; [| cbn; congruence].
        apply consistent_scanning; cbn; try congruence; try discriminate.
        exact I2.
      * rewrite showPopup_without_body by exact Hbody. cbn [snd].
        destruct (handleError_popup_mode P "Document not ready" "DOM_NOT_READY" None w1)
          as (Hp & Hm & _).
        split; [| cbn; congruence].
        apply consistent_scanning; cbn; try congruence; try discriminate; [exact I2 |].
        intros _. rewrite Hp, Hpopup. now apply I5.
    + rewrite Hdiv. cbn [snd]. split; [| cbn; congruence].
      apply consistent_world; [exact Hinv | exact Hmode | congruence].
  - unfold Scanner.CSSScanner_analyzeElement, bindS, Scanner.execute, throwS, retS.
    cbn [snd]. split; [now apply consistent_handled |].
    cbn [world set_world].
    destruct (handleError_popup_mode P "No element to analyze" "CSS_ANALYSIS_FAILED" None
                (world s)) as (_ & Hmode & _).
    congruence.
Qed.

Lemma highlightElement_scanning (P : Platform) (element : option Element) (s : Session) :
  Scanner.consistent P s -> isScanning (world s) = true ->
  Scanner.consistent P (snd (Scanner.ElementSelector_highlightElement P element s)) /\
  isScanning (world (snd (Scanner.ElementSelector_highlightElement P element s))) = true.
Proof.
  intros Hinv Hscan.
  destruct (highlightElement_spec P element s)
    as [[e [Hbody [-> Hrun]]] | [[Hbody [-> Hrun]] | [Hbody Hrun]]]; rewrite Hrun; cbn [snd].
  - destruct Hinv as (I1 & I2 & I3 & I4 & I5).
    pose proof (unhighlighted_empty s I2) as Hempty.
    assert (Hclass :
              highlightClass
                (set_lastHoverElement (Some (handle e))
                   (set_highlightedElement (Some (handle e))
                      (set_highlightClass (fun nodes => nodes ∪ {[handle e]})
                         match highlightedElement s with
                         | Some h =>
                             set_highlightedElement None
                               (set_highlightClass (fun nodes => nodes ∖ {[h]}) s)
                         | None => s
                         end)))
              = {[handle e]}).
    { cbn [highlightClass set_lastHoverElement set_highlightedElement set_highlightClass].
      destruct (highlightedElement s) as [h0 |];
        cbn [highlightClass set_highlightedElement set_highlightClass];
        rewrite Hempty; apply leibniz_equiv; intros x;
        rewrite elem_of_union, elem_of_singleton;
        (split; [intros [Hx | Hx]; [now apply elem_of_empty in Hx | exact Hx] | now right]). }
    split.
    + apply consistent_scanning.
      * destruct (highlightedElement s); cbn; exact Hscan.
      * destruct (highlightedElement s); cbn; congruence.
      * intros x Hx. rewrite Hclass in Hx. apply elem_of_singleton in Hx. subst x.
        reflexivity.
      * destruct (highlightedElement s); cbn; exact I4.
      * intros Hnone. contradiction.
    + destruct (highlightedElement s); cbn; exact Hscan.
  - split; assumption.
  - split; [now apply consistent_handled |]. cbn [world set_world].
    destruct (handleError_popup_mode P "Document not ready" "DOM_NOT_READY" None (world s))
      as (_ & Hmode & _).
    congruence.
Qed.

Lemma handleClick_stays (P : Platform) (rect : ElementData -> Q * Q) (fuel : nat)
    (event : TargetEvent) :
  Scanner.staysConsistent P (Scanner.EventHandler_handleClick P rect fuel event).
Proof.
  unfold Scanner.EventHandler_handleClick, Scanner.CSSScanner_handleClick.
  apply stays_bind; [| intros _; apply stays_ret].
  apply stays_execute.
  apply stays_bind; [| intros _; apply stays_ret].
  apply stays_execute.
  intros s Hinv. unfold bindS at 1. rewrite lift_gets.
  destruct (isScanning (world s)) eqn:Hscan; cbn [negb]; [| exact Hinv].
  unfold bindS at 1.
  rewrite (lift_eq _ _ _ _ (isPopupElement_eq P (asMouseEvent event) (world s))).
  replace (set_world (fun _ => world s) s) with s by now destruct s.
  destruct (target_closest_popup (asMouseEvent event)); [exact Hinv |].
  unfold bindS at 1. rewrite lift_gets.
  destruct (isPinned (world s)).
  - assert (Hunpin : Scanner.staysConsistent P
                       (bindS (lift (PopupManager.unpinPopup P))
                          (fun _ => lift (Scanner.NotificationManager_showMessage P))))
      by stays_consistent.
    now apply Hunpin.
  - apply (scanning_bind P _ _ s Hinv Hscan).
    + now apply analyzeElement_scanning.
    + intros _ s1 Hinv1 Hscan1. apply (scanning_bind P _ _ s1 Hinv1 Hscan1).
      * apply scanning_lift; [apply pinPopup_showsNoPopup | assumption | assumption].
      * intros _ s2 Hinv2 Hscan2.
        apply scanning_lift; [apply showMessage_showsNoPopup | assumption | assumption].
Qed.

Lemma handleMouseOver_scanner_stays (P : Platform) (rect : ElementData -> Q * Q) (fuel : nat)
    (event : TargetEvent) :
  Scanner.staysConsistent P (Scanner.CSSScanner_handleMouseOver P rect fuel event).
Proof.
  unfold Scanner.CSSScanner_handleMouseOver.
  apply stays_bind; [| intros _; apply stays_ret].
  apply stays_execute.
  intros s Hinv. unfold bindS at 1. rewrite lift_gets.
  destruct (isScanning (world s)) eqn:Hscan; cbn [negb]; [| exact Hinv].
  unfold bindS at 1.
  rewrite (lift_eq _ _ _ _ (isPopupElement_eq P (asMouseEvent event) (world s))).
  replace (set_world (fun _ => world s) s) with s by now destruct s.
  destruct (target_closest_popup (asMouseEvent event)); [exact Hinv |].
  unfold bindS at 1. rewrite lift_gets.
  destruct (isPinned (world s)); [exact Hinv |].
  unfold bindS at 1.
  change (Scanner.ElementSelector_isSameElement P (target event) s)
    with (Normal (bool_decide (lastHoverElement s = option_map handle (target event))), s).
  destruct (bool_decide (lastHoverElement s = option_map handle (target event)));
    [exact Hinv |].
  unfold bindS at 1. unfold getsS at 1.
  apply (scanning_bind P _ _ s Hinv Hscan).
  - now apply highlightElement_scanning.
  - intros ok s1 Hinv1 Hscan1.
    unfold bindS, getsS. rewrite !lift_gets. cbv beta iota.
    destruct (isScanning (world s1) && _ && _); [| split; [exact Hinv1 | exact Hscan1]].
    now apply analyzeElement_scanning.
Qed.

Lemma hoverTimeout_fires_stays (P : Platform) (rect : ElementData -> Q * Q) (fuel : nat) :
  Scanner.staysConsistent P (Scanner.EventHandler_hoverTimeout_fires P rect fuel).
Proof.
  unfold Scanner.EventHandler_hoverTimeout_fires.
  apply stays_bind; [apply stays_gets | intros pending].
  destruct pending as [event |]; [| apply stays_ret].
  apply stays_bind; [stays_consistent | intros _].
  apply stays_bind; [| intros _; apply stays_ret].
  apply stays_execute. apply handleMouseOver_scanner_stays.
Qed.

Lemma dispatch_stays (P : Platform) (rect : ElementData -> Q * Q) (fuel : nat)
    (input : Input) :
  Scanner.staysConsistent P (Scanner.dispatch P rect fuel input).
Proof.
  unfold Scanner.dispatch.
  apply stays_bind; [apply stays_gets | intros registered].
  apply stays_bind; [stays_consistent | intros shown].
  apply stays_bind; [apply stays_gets | intros throttled].
  destruct input.
  - destruct registered; [apply handleMouseOver_stays | apply stays_ret].
  - destruct registered; [apply handleMouseOut_stays | apply stays_ret].
  - destruct registered; [apply mouseMove_stays | apply stays_ret].
  - destruct registered; [apply handleClick_stays | apply stays_ret].
  - destruct registered; [apply handleKeyDown_stays | apply stays_ret].
  - apply hoverTimeout_fires_stays.
  - destruct throttled; [| apply stays_ret].
    unfold Scanner.EventHandler_throttle_timer. stays_consistent.
  - apply handleMouseOut_timer_stays.
  - destruct shown; [| apply stays_ret].
    apply stays_bind; [apply copyButton_stays | intros _; apply stays_ret].
  - destruct shown; [apply closeButton_stays | apply stays_ret].
  - destruct shown; [apply popupMouseEnter_stays | apply stays_ret].
  - destruct shown; [apply popupMouseLeave_stays | apply stays_ret].
  - apply stays_bind; [apply handleMessage_stays | intros _; apply stays_ret].
  - apply interval_stays.
Qed.

Lemma run_stays (P : Platform) (rect : ElementData -> Q * Q) (fuel : nat)
    (inputs : list Input) :
  Scanner.staysConsistent P (Scanner.run P rect fuel inputs).
Proof.
  induction inputs as [| input rest IH]; [apply stays_ret |].
  cbn [Scanner.run]. apply stays_bind; [apply dispatch_stays | intros _; exact IH].
Qed.

(** X28: whatever reaches the script after it has loaded, and in whatever
    order (events of the document, timers, buttons and listeners of the
    popup, messages of the extension, the cleanup interval), the state it
    is left in is consistent: the handlers are registered on the document
    exactly while the scan is on; at most one node, the highlighted one,
    carries the highlight class; while the scan is off there is no popup,
    no highlight and no element data; a popup is never shown without
    element data behind it; and on a document without a body there is
    neither popup nor highlight.  The same holds from any consistent
    state. *)
Theorem X28_always_consistent :
  forall (P : Platform) (rect : ElementData -> Q * Q) (fuel : nat) (inputs : list Input),
    (forall cursor,
        Scanner.consistent P (snd (Scanner.run P rect fuel inputs (Scanner.loaded P cursor)))) /\
    (forall s,
        Scanner.consistent P s -> Scanner.consistent P (snd (Scanner.run P rect fuel inputs s))).
Proof.
  intros P rect fuel inputs.
  assert (Hany : forall s,
             Scanner.consistent P s ->
             Scanner.consistent P (snd (Scanner.run P rect fuel inputs s)))
    by (intros s Hinv; now apply run_stays).
  split; [| exact Hany].
  intros cursor. apply Hany.
  unfold Scanner.consistent, Scanner.loaded.
  cbn [world listening isScanning highlightClass highlightedElement popup currentElementData].
  split; [reflexivity |]. split; [intros h Hh; now apply elem_of_empty in Hh |].
  split; [now intros _ |]. split; [now intros Hne |]. now intros _.
Qed.

(** *** Hovering *)

Lemma isSameElement_eq (P : Platform) (element : option Element) (s : Session) :
  Scanner.ElementSelector_isSameElement P element s
  = (Normal (bool_decide (lastHoverElement s = option_map handle element)), s).
Proof. reflexivity. Qed.

(** The hovers the scanner passes over. *)
Lemma handleMouseOver_ignored (P : Platform) (rect : ElementData -> Q * Q) (fuel : nat)
    (event : TargetEvent) (s : Session) :
  isScanning (world s) = false \/ target_closest_popup (asMouseEvent event) = true \/
  isPinned (world s) = true \/ lastHoverElement s = option_map handle (target event) ->
  Scanner.CSSScanner_handleMouseOver P rect fuel event s = (Normal tt, s).
Proof.
  intros Hignored.
  unfold Scanner.CSSScanner_handleMouseOver, Scanner.execute.
  unfold bindS at 1. unfold bindS at 1. rewrite lift_gets.
  destruct (isScanning (world s)) eqn:Hscanning; cbn [negb]; [| reflexivity].
  unfold bindS at 1.
  rewrite (lift_eq _ _ _ _ (isPopupElement_eq P (asMouseEvent event) (world s))).
  replace (set_world (fun _ => world s) s) with s by now destruct s.
  destruct (target_closest_popup (asMouseEvent event)) eqn:Hpopup; [reflexivity |].
  unfold bindS at 1. rewrite lift_gets.
  destruct (isPinned (world s)) eqn:Hpinned; [reflexivity |].
  unfold bindS at 1. rewrite isSameElement_eq.
  destruct Hignored as [Hoff | [Hover | [Hpin | Hsame]]]; try discriminate.
  now rewrite (bool_decide_eq_true_2 _ Hsame).
Qed.

Lemma closePopup_with_body (P : Platform) (w : World) :
  document_body P <> None ->
  Scanner.PopupManager_closePopup P w
  = (Normal true,
     match popup w with
     | Some _ => set_popup (fun _ => None) w
     | None => w
     end).
Proof.
  intros Hbody.
  unfold Scanner.PopupManager_closePopup, SafeWrapper.executeDOMOperation.
  destruct (document_body P) as [b |]; [| contradiction].
  unfold SafeWrapper.execute, bind, gets, modify, ret.
  now destruct (popup w).
Qed.

(** X29: what a hover does.  While the scan is off, over the popup, while
    the popup is pinned, and on the element that was hovered last, the
    scanner's [mouseover] handler changes nothing at all.  Otherwise, on a
    document with a body and a browser whose clock never advances by more
    than the maximum cache age between two readings, the handler returns;
    the hovered element becomes the highlighted and the last hovered one;
    the highlight class is taken off the element highlighted before and
    put on the hovered one; the current element data hold the hovered node
    as it is now, with the highlight class in its [class] attribute, and
    [isPinned] unset; and a popup for these data is placed by
    [updatePopupPosition] for the recorded cursor.  Scan mode and pin flag
    are as before. *)
Theorem X29_hover_inspects :
  forall (P : Platform) (rect : ElementData -> Q * Q) (fuel : nat) (event : TargetEvent)
         (s : Session),
    (isScanning (world s) = false \/ target_closest_popup (asMouseEvent event) = true \/
     isPinned (world s) = true \/ lastHoverElement s = option_map handle (target event) ->
     Scanner.CSSScanner_handleMouseOver P rect fuel event s = (Normal tt, s)) /\
    (forall e,
        isScanning (world s) = true ->
        target_closest_popup (pointer event) = false ->
        isPinned (world s) = false ->
        target event = Some e ->
        lastHoverElement s <> Some (handle e) ->
        document_body P <> None ->
        (forall n, (Date_now_at P (S n) - Date_now_at P n <= 30000)%Z) ->
        exists s' data,
          Scanner.CSSScanner_handleMouseOver P rect (S (S fuel)) event s = (Normal tt, s') /\
          highlightedElement s' = Some (handle e) /\
          lastHoverElement s' = Some (handle e) /\
          highlightClass s'
          = match highlightedElement s with
            | Some h => highlightClass s ∖ {[h]}
            | None => highlightClass s
            end ∪ {[handle e]} /\
          isScanning (world s') = true /\ isPinned (world s') = false /\
          currentElementData s' = Some data /\
          data_element data
          = withClassAttribute
              (classList_add highlightToken
                 (if bool_decide (highlightedElement s = Some (handle e))
                  then classList_remove highlightToken (classAttribute e)
                  else classAttribute e))
              e /\
          data_isPinned data = false /\
          let place :=
            PopupManager.placement P (mkPopup None None (fst (rect data)) (snd (rect data)))
              (mousePosition (world s)) in
          popup (world s')
          = Some (mkPopup (Some (fst place)) (Some (snd place))
                    (fst (rect data)) (snd (rect data)))).
Proof.
  intros P rect fuel event s. split; [apply handleMouseOver_ignored |].
  intros e Hscanning Hpointer Hpinned He Hlast Hbody Hclock.
  assert (Htarget : target_closest_popup (asMouseEvent event) = false)
    by (unfold asMouseEvent; cbn; now rewrite He).
  unfold Scanner.CSSScanner_handleMouseOver, Scanner.execute.
  unfold bindS at 1. unfold bindS at 1.
  rewrite lift_gets, Hscanning. cbn [negb].
  unfold bindS at 1.
  rewrite (lift_eq _ _ _ _ (isPopupElement_eq P (asMouseEvent event) (world s))), Htarget.
  replace (set_world (fun _ => world s) s) with s by now destruct s.
  unfold bindS at 1. rewrite lift_gets, Hpinned.
  unfold bindS at 1. rewrite isSameElement_eq, He.
  cbn [option_map].
  rewrite (bool_decide_eq_false_2 _ Hlast).
  unfold bindS at 1. unfold getsS at 1.
  unfold bindS at 1.
  destruct (highlightElement_spec P (Some e) s)
    as [[e' [_ [He' Hhighlight]]] | [[_ [Hnone _]] | [Hnobody _]]];
    [| discriminate Hnone | contradiction].
  injection He' as <-. rewrite Hhighlight. clear Hhighlight.
  set (s1 := set_lastHoverElement (Some (handle e)) _).
  assert (Hworld1 : world s1 = world s)
    by (subst s1; now destruct (highlightedElement s)).
  assert (Hhighlighted1 : highlightedElement s1 = Some (handle e)) by reflexivity.
  assert (Hlast1 : lastHoverElement s1 = Some (handle e)) by reflexivity.
  assert (Hclass1 : highlightClass s1
                    = match highlightedElement s with
                      | Some h => highlightClass s ∖ {[h]}
                      | None => highlightClass s
                      end ∪ {[handle e]})
    by (subst s1; now destruct (highlightedElement s)).
  unfold bindS at 1. rewrite lift_gets.
  unfold bindS at 1. unfold getsS at 1.
  unfold bindS at 1. rewrite lift_gets.
  rewrite Hworld1, Hscanning, Hpinned, Hhighlighted1.
  cbn [option_map].
  rewrite (bool_decide_eq_true_2 _ (eq_refl (Some (handle e)))).
  cbn [andb negb].
  unfold Scanner.highlightedTarget.
  rewrite analyzeElement_eq.
  match goal with
  | |- context [CSSAnalyzer.extractCSSInfo P (S (S fuel)) (Some ?shown) (world s1)] =>
      set (hovered := shown) in *
  end.
  destruct (extractCSSInfo_returns P fuel hovered (world s1) Hclock)
    as [info [w1 [Hinfo Hsame]]].
  rewrite Hinfo. cbv zeta.
  set (data := mkElementData hovered (info_computed info) (info_inline info)
                 (info_categorized info) false) in *.
  destruct Hsame as [_ [_ [Hpin [_ [Hscan Hmouse]]]]].
  rewrite Hworld1 in Hpin, Hscan, Hmouse.
  destruct (showPopup_spec P rect data (mousePosition w1) w1 Hbody) as [counts [Hshow _]].
  cbv zeta in Hshow.
  unfold retS. eexists. exists data. split; [reflexivity |].
  cbn [world set_world set_currentElementData currentElementData highlightedElement
         lastHoverElement highlightClass].
  rewrite Hshow.
  cbn [snd popup set_popup set_errorCounts isScanning isPinned].
  rewrite Hpin, Hpinned, Hmouse.
  split; [exact Hhighlighted1 |]. split; [exact Hlast1 |]. split; [exact Hclass1 |].
  split; [destruct w1; cbn in *; now rewrite Hscan |].
  split; [destruct w1; reflexivity |].
  split; [reflexivity |]. split; [reflexivity |]. split; [reflexivity |].
  now destruct w1.
Qed.

(** X29 at the sample page: while [card] is highlighted, [hero] is hovered
    with the cursor recorded at (100, 100). *)
Lemma X29_hover_at_sample :
  let rect := fun _ : ElementData => (380%Q, 200%Q) in
  let event := mkTargetEvent (mkMouseEvent 100 100 false) (Some Sample.hero) None in
  let s := mkSession Sample.world_popupShown 1000 (Some 3%positive) (Some 3%positive)
             {[3%positive]} None true "crosshair" None false in
  exists s' data,
    Scanner.CSSScanner_handleMouseOver Sample.platform rect 2 event s = (Normal tt, s') /\
    highlightedElement s' = Some 2%positive /\
    lastHoverElement s' = Some 2%positive /\
    highlightClass s' = ({[3%positive]} ∖ {[3%positive]}) ∪ {[2%positive]} /\
    isScanning (world s') = true /\ isPinned (world s') = false /\
    currentElementData s' = Some data /\
    data_element data = withClassAttribute "css-scanner-highlight" Sample.hero /\
    data_isPinned data = false /\
    let place :=
      PopupManager.placement Sample.platform
        (mkPopup None None (fst (rect data)) (snd (rect data))) (100%Q, 100%Q) in
    popup (world s')
    = Some (mkPopup (Some (fst place)) (Some (snd place)) (fst (rect data)) (snd (rect data))).
Proof.
  cbv zeta.
  refine (proj2 (X29_hover_inspects Sample.platform (fun _ => (380%Q, 200%Q)) 0
                   (mkTargetEvent (mkMouseEvent 100 100 false) (Some Sample.hero) None)
                   (mkSession Sample.world_popupShown 1000 (Some 3%positive)
                      (Some 3%positive) {[3%positive]} None true "crosshair" None false))
            Sample.hero eq_refl eq_refl eq_refl eq_refl _ _ sample_clock_steady).
  - discriminate.
  - discriminate.
Defined.

(** X30: leaving an element and coming back to it.  While the scan is on
    and nothing is pinned, on a document with a body, a [mouseout] of an
    element towards one of its descendants or ancestors changes nothing.
    Any other [mouseout] takes the highlight off and leaves the popup, the
    element data and the last hovered element as they are.  The timer it
    starts closes the popup unless the pointer is over it.  With the
    element still recorded as the last hovered one, a [mouseover] that
    brings the pointer back to it, before or after the timer, is passed
    over: the element is not highlighted again and no popup is shown. *)
Theorem X30_leave_and_return :
  forall (P : Platform) (rect : ElementData -> Q * Q) (fuel : nat) (out again : TargetEvent)
         (e : Element) (s : Session),
    document_body P <> None ->
    isScanning (world s) = true ->
    isPinned (world s) = false ->
    target out = Some e ->
    target_closest_popup (pointer out) = false ->
    target again = Some e ->
    lastHoverElement s = Some (handle e) ->
    (forall related,
        relatedTarget out = Some related ->
        contains (handle e) related || contains (handle related) e = true ->
        Scanner.CSSScanner_handleMouseOut P out s = (Normal tt, s)) /\
    (relatedTarget out = None \/
     (exists related,
         relatedTarget out = Some related /\
         contains (handle e) related || contains (handle related) e = false) ->
     exists s1,
       Scanner.CSSScanner_handleMouseOut P out s = (Normal tt, s1) /\
       highlightedElement s1 = None /\
       highlightClass s1
       = match highlightedElement s with
         | Some h => highlightClass s ∖ {[h]}
         | None => highlightClass s
         end /\
       lastHoverElement s1 = Some (handle e) /\
       world s1 = world s /\
       currentElementData s1 = currentElementData s /\
       Scanner.CSSScanner_handleMouseOver P rect fuel again s1 = (Normal tt, s1) /\
       (forall mouseOverPopup,
           exists s2,
             Scanner.CSSScanner_handleMouseOut_timer P mouseOverPopup s1 = (Normal tt, s2) /\
             popup (world s2) = (if mouseOverPopup : bool then popup (world s) else None) /\
             highlightedElement s2 = None /\
             highlightClass s2 = highlightClass s1 /\
             currentElementData s2 = currentElementData s /\
             Scanner.CSSScanner_handleMouseOver P rect fuel again s2 = (Normal tt, s2))).
Proof.
  intros P rect fuel out again e s Hbody Hscanning Hpinned Hout Hpointer Hagain Hlast.
  assert (Htarget : target_closest_popup (asMouseEvent out) = false)
    by (unfold asMouseEvent; cbn; now rewrite Hout).
  assert (Hstart :
            Scanner.CSSScanner_handleMouseOut P out s
            = bindS
                (Scanner.execute P
                   match relatedTarget out with
                   | Some related =>
                       if contains (handle e) related || contains (handle related) e
                       then retS tt
                       else bindS (Scanner.ElementSelector_removeHighlight P)
                              (fun _ => retS tt)
                   | None =>
                       bindS (Scanner.ElementSelector_removeHighlight P) (fun _ => retS tt)
                   end
                   "MOUSE_OUT_HANDLER_ERROR")
                (fun _ => retS tt) s).
  { unfold Scanner.CSSScanner_handleMouseOut, Scanner.execute.
    unfold bindS at 1. unfold bindS at 1. rewrite lift_gets, Hscanning. cbn [negb].
    unfold bindS at 1.
    rewrite (lift_eq _ _ _ _ (isPopupElement_eq P (asMouseEvent out) (world s))), Htarget.
    replace (set_world (fun _ => world s) s) with s by now destruct s.
    unfold bindS at 1. rewrite lift_gets, Hpinned. rewrite Hout.
    unfold bindS at 3. reflexivity. }
  split.
  - intros related Hrelated Hinside. rewrite Hstart, Hrelated, Hinside. reflexivity.
  - intros Houtside.
    destruct (removeHighlight_spec P s) as [[_ Hremove] | [Hnobody _]]; [| contradiction].
    set (s1 := match highlightedElement s with
               | Some h =>
                   set_highlightedElement None
                     (set_highlightClass (fun nodes => nodes ∖ {[h]}) s)
               | None => s
               end) in *.
    assert (Hrun : Scanner.CSSScanner_handleMouseOut P out s = (Normal tt, s1)).
    { rewrite Hstart.
      destruct Houtside as [Hnone | [related [Hrelated Hfar]]].
      - rewrite Hnone. unfold bindS, Scanner.execute. now rewrite Hremove.
      - rewrite Hrelated, Hfar. unfold bindS, Scanner.execute. now rewrite Hremove. }
    assert (Hworld1 : world s1 = world s) by (subst s1; now destruct (highlightedElement s)).
    assert (Hlast1 : lastHoverElement s1 = Some (handle e))
      by (subst s1; now destruct (highlightedElement s)).
    assert (Hhighlighted1 : highlightedElement s1 = None)
      by (subst s1; now destruct (highlightedElement s) eqn:Hh).
    assert (Hdata1 : currentElementData s1 = currentElementData s)
      by (subst s1; now destruct (highlightedElement s)).
    exists s1. split; [exact Hrun |]. split; [exact Hhighlighted1 |].
    split; [subst s1; now destruct (highlightedElement s) |].
    split; [exact Hlast1 |]. split; [exact Hworld1 |]. split; [exact Hdata1 |].
    split.
    + apply handleMouseOver_ignored. right. right. right.
      rewrite Hlast1, Hagain. reflexivity.
    + intros mouseOverPopup.
      unfold Scanner.CSSScanner_handleMouseOut_timer.
      unfold bindS at 1. rewrite lift_gets, Hworld1, Hpinned. cbn [negb andb].
      destruct mouseOverPopup; cbn [negb].
      * exists s1. unfold retS. split; [reflexivity |]. rewrite Hworld1.
        split; [reflexivity |]. split; [exact Hhighlighted1 |]. split; [reflexivity |].
        split; [exact Hdata1 |].
        apply handleMouseOver_ignored. right. right. right.
        rewrite Hlast1, Hagain. reflexivity.
      * unfold bindS at 1.
        rewrite (lift_eq _ _ _ _ (closePopup_with_body P (world s1) Hbody)).
        unfold retS. eexists. split; [reflexivity |].
        cbn [world set_world highlightedElement highlightClass currentElementData].
        split; [now destruct (popup (world s1)) eqn:Hshown; [destruct (world s1) |] |].
        split; [exact Hhighlighted1 |]. split; [reflexivity |]. split; [exact Hdata1 |].
        apply handleMouseOver_ignored. right. right. right.
        cbn [lastHoverElement set_world]. rewrite Hlast1, Hagain. reflexivity.
Qed.

(** X30 at the sample page: with [hero] hovered and highlighted, the
    pointer leaves the window and comes back to [hero]. *)
Lemma X30_leave_and_return_at_sample :
  let rect := fun _ : ElementData => (380%Q, 200%Q) in
  let out := mkTargetEvent (mkMouseEvent 100 100 false) (Some Sample.hero) None in
  let s := mkSession Sample.world_popupShown 1000 (Some 2%positive) (Some 2%positive)
             {[2%positive]} None true "crosshair" None false in
  exists s1,
    Scanner.CSSScanner_handleMouseOut Sample.platform out s = (Normal tt, s1) /\
    highlightedElement s1 = None /\
    highlightClass s1 = {[2%positive]} ∖ {[2%positive]} /\
    lastHoverElement s1 = Some 2%positive /\
    world s1 = Sample.world_popupShown /\
    currentElementData s1 = None /\
    Scanner.CSSScanner_handleMouseOver Sample.platform rect 2 out s1 = (Normal tt, s1) /\
    (forall mouseOverPopup,
        exists s2,
          Scanner.CSSScanner_handleMouseOut_timer Sample.platform mouseOverPopup s1
          = (Normal tt, s2) /\
          popup (world s2)
          = (if mouseOverPopup : bool then popup Sample.world_popupShown else None) /\
          highlightedElement s2 = None /\
          highlightClass s2 = highlightClass s1 /\
          currentElementData s2 = None /\
          Scanner.CSSScanner_handleMouseOver Sample.platform rect 2 out s2 = (Normal tt, s2)).
Proof.
  cbv zeta.
  refine (proj2 (X30_leave_and_return Sample.platform (fun _ => (380%Q, 200%Q)) 2
                   (mkTargetEvent (mkMouseEvent 100 100 false) (Some Sample.hero) None)
                   (mkTargetEvent (mkMouseEvent 100 100 false) (Some Sample.hero) None)
                   Sample.hero
                   (mkSession Sample.world_popupShown 1000 (Some 2%positive)
                      (Some 2%positive) {[2%positive]} None true "crosshair" None false)
                   _ eq_refl eq_refl eq_refl eq_refl eq_refl eq_refl)
            (or_introl eq_refl)).
  discriminate.
Defined.
